(** * Solana MCP demo server: tool handlers, prompts and the event-stream endpoints

    A shallow embedding of [index.ts] (the stdio server) and of the
    event-stream server listed after the README, followed by the properties
    of the specification that concern them.

    Conventions of the embedding.
    - A JavaScript exception is a value [Throw e] of the [Exc] type; [e]
      carries the name and the message of the thrown [Error].
    - A handler is a computation in the monad [M]: it threads the text
      appended to [app.log] and the trace of calls made to the outside world
      (RPC node, HTTP endpoints, Dune), and returns a value or an exception.
    - Everything that lives in a third-party package (base58, public keys,
      the Anchor coder, JSON parsing and printing, the RPC client) is a field
      of the record [World]; the answers of the network fields may depend on
      the calls made so far.
    - JavaScript numbers are modelled where they are integers, as [Z]. *)

From Stdlib Require Import ZArith String Ascii List Bool Lia DecimalString.
From stdpp Require Import gmap strings list fin_maps.

Open Scope string_scope.

Set Warnings "-register-all".

(** ** JavaScript values and errors *)

Record JsError := mkError { ename : string; message : string }.

Definition Error_ (m : string) : JsError := mkError "Error" m.
Definition TypeError_ (m : string) : JsError := mkError "TypeError" m.

(** [`${e}`] for a thrown error object. *)
Definition error_toString (e : JsError) : string :=
  ename e ++ ": " ++ message e.

Inductive Exc (A : Type) : Type :=
| OK (a : A)
| Throw (e : JsError).
Arguments OK {A} a.
Arguments Throw {A} e.

Definition Bytes := list Z.

(** The JSON values the handlers inspect, with [undefined] for an absent
    property. Numbers are the integer-valued ones. *)
Inductive JValue : Type :=
| JUndefined
| JNull
| JBool (b : bool)
| JNum (z : Z)
| JStr (s : string)
| JArr (l : list JValue)
| JObj (fields : list (string * JValue)).

(** Truthiness, as used by [!x], [x || y] and [c ? a : b]. *)
Definition truthy (v : JValue) : bool :=
  match v with
  | JUndefined | JNull => false
  | JBool b => b
  | JNum z => negb (z =? 0)%Z
  | JStr s => negb (s =? "")
  | JArr _ | JObj _ => true
  end.

Fixpoint assoc_get {A : Type} (k : string) (l : list (string * A)) : option A :=
  match l with
  | [] => None
  | (k', v) :: l' => if k' =? k then Some v else assoc_get k l'
  end.

(** [v.k]: reading a property throws on [undefined] and [null], and is
    [undefined] when the property is absent. The property names read by the
    handlers ([accounts], [args], [name], [pubkey], [value], [result],
    [is_verified]) are not defined on primitives or arrays. *)
Definition prop (v : JValue) (k : string) : Exc JValue :=
  match v with
  | JUndefined =>
      Throw (TypeError_ ("Cannot read properties of undefined (reading '" ++ k ++ "')"))
  | JNull =>
      Throw (TypeError_ ("Cannot read properties of null (reading '" ++ k ++ "')"))
  | JObj fields => OK (default JUndefined (assoc_get k fields))
  | _ => OK JUndefined
  end.

(** [v?.k] *)
Definition opt_prop (v : JValue) (k : string) : Exc JValue :=
  match v with
  | JUndefined | JNull => OK JUndefined
  | _ => prop v k
  end.

(** [a === b] where [b] is a string. *)
Definition strict_eq_str (a : JValue) (b : string) : bool :=
  match a with
  | JStr s => s =? b
  | _ => false
  end.

(** [arr.find((a) => a.name === name)]; [expr] is the text of [arr] in the
    source, which the engine quotes when [arr] has no [find]. *)
Fixpoint find_by_name (name : string) (l : list JValue) : Exc JValue :=
  match l with
  | [] => OK JUndefined
  | a :: l' =>
      match prop a "name" with
      | Throw e => Throw e
      | OK n => if strict_eq_str n name then OK a else find_by_name name l'
      end
  end.

Definition array_find_by_name (expr : string) (arr : JValue) (name : string) : Exc JValue :=
  match arr with
  | JArr l => find_by_name name l
  | JUndefined =>
      Throw (TypeError_ "Cannot read properties of undefined (reading 'find')")
  | JNull =>
      Throw (TypeError_ "Cannot read properties of null (reading 'find')")
  | _ => Throw (TypeError_ (expr ++ ".find is not a function"))
  end.

(** ** Buffers *)

(** [buf.slice(start, end)] for non-negative bounds: out-of-range bounds are
    clamped to the length. *)
Definition slice (start stop : nat) (b : Bytes) : Bytes :=
  firstn (stop - start) (skipn start b).

(** [buf.slice(start)] *)
Definition slice_from (start : nat) (b : Bytes) : Bytes := skipn start b.

(** [Buffer.from(s)] and [buf.toString()] on the bytes of the string. *)
Definition Buffer_from (s : string) : Bytes :=
  map (fun c => Z.of_nat (nat_of_ascii c)) (list_ascii_of_string s).

Definition Buffer_toString (b : Bytes) : string :=
  string_of_list_ascii (map (fun z => ascii_of_nat (Z.to_nat z)) b).

(** ** Printing numbers *)

Definition nl : string := String (ascii_of_nat 10) "".
Definition nul : string := String (ascii_of_nat 0) "".
Definition dquote : string := String (ascii_of_nat 34) "".
Definition backslash : string := String (ascii_of_nat 92) "".

Definition Z_toString (z : Z) : string := NilZero.string_of_int (Z.to_int z).

Fixpoint repeat_string (n : nat) (s : string) : string :=
  match n with
  | O => ""
  | S n' => s ++ repeat_string n' s
  end.

Fixpoint strip_trailing_zeros_rev (l : list ascii) : list ascii :=
  match l with
  | c :: l' => if Ascii.eqb c "0"%char then strip_trailing_zeros_rev l' else l
  | [] => []
  end.

Definition strip_trailing_zeros (s : string) : string :=
  string_of_list_ascii (rev (strip_trailing_zeros_rev (rev (list_ascii_of_string s)))).

(** [Number::toString] of ECMAScript for the positive number
    [0.d1 d2 ... dk * 10^n], given its shortest digit string [digits]
    ([k] digits, no trailing zero) and the position [n] of the point. *)
Definition Number_toString_digits (digits : string) (n : Z) : string :=
  let k := Z.of_nat (String.length digits) in
  if ((k <=? n) && (n <=? 21))%Z then
    digits ++ repeat_string (Z.to_nat (n - k)) "0"
  else if ((0 <? n) && (n <=? 21))%Z then
    substring 0 (Z.to_nat n) digits ++ "." ++
    substring (Z.to_nat n) (Z.to_nat (k - n)) digits
  else if ((-6 <? n) && (n <=? 0))%Z then
    "0." ++ repeat_string (Z.to_nat (- n)) "0" ++ digits
  else
    let e := (n - 1)%Z in
    let sign := if (e <? 0)%Z then "-" else "+" in
    let mantissa :=
      if (k =? 1)%Z then digits
      else substring 0 1 digits ++ "." ++ substring 1 (Z.to_nat (k - 1)) digits in
    mantissa ++ "e" ++ sign ++ Z_toString (Z.abs e).

Definition LAMPORTS_PER_SOL : Z := 1000000000.

(** The decimal expansion of [z / 10^9], printed as ECMAScript prints the
    number with that value. *)
Definition decimal_quotient_toString (z : Z) : string :=
  if (z =? 0)%Z then "0"
  else
    let ds := Z_toString z in
    Number_toString_digits (strip_trailing_zeros ds) (Z.of_nat (String.length ds) - 9).

(** ** Solana and Anchor objects, as far as the handlers look into them *)

Record PublicKey := PK { toBuffer : Bytes }.

#[global] Instance PublicKey_eq_dec : EqDecision PublicKey.
Proof. solve_decision. Defined.

(** [a.equals(b)] *)
Definition pk_equals (a b : PublicKey) : bool := bool_decide (a = b).

Record AccountInfo := {
  data : Bytes;
  owner : PublicKey;
  lamports : Z;
  executable : bool
}.

Record Keypair := { publicKey : PublicKey; secretKey : Bytes }.

Record IdlField := { field_name : string; field_type : JValue }.

(** An account of an instruction; [isSigner] and [isMut] are absent on a
    nested group of accounts. *)
Record IdlAccountItem := {
  acc_name : string;
  acc_isSigner : option bool;
  acc_isMut : option bool
}.

Record IdlInstruction := {
  ix_name : string;
  ix_accounts : list IdlAccountItem;
  ix_args : list IdlField
}.

Record IdlAccountDef := { accdef_name : string }.

(** A fetched IDL: the JSON document itself, and the two members the handlers
    read. [idl_accounts] is [None] when the document has no [accounts]. *)
Record Idl := {
  idl_json : JValue;
  idl_instructions : list IdlInstruction;
  idl_accounts : option (list IdlAccountDef)
}.

Record AccountMeta := { pubkey : PublicKey; isSigner : bool; isWritable : bool }.

Record TransactionInstruction := {
  keys : list AccountMeta;
  programId : PublicKey;
  ix_data : Bytes
}.

Record Transaction := {
  tx_instructions : list TransactionInstruction;
  feePayer : option PublicKey;
  recentBlockhash : option string;
  tx_signatures : list (PublicKey * Bytes)
}.

Definition Transaction_new : Transaction :=
  {| tx_instructions := []; feePayer := None; recentBlockhash := None;
     tx_signatures := [] |}.

Definition Transaction_add (tx : Transaction) (i : TransactionInstruction) : Transaction :=
  {| tx_instructions := tx_instructions tx ++ [i]; feePayer := feePayer tx;
     recentBlockhash := recentBlockhash tx; tx_signatures := tx_signatures tx |}.

Definition set_feePayer (tx : Transaction) (p : PublicKey) : Transaction :=
  {| tx_instructions := tx_instructions tx; feePayer := Some p;
     recentBlockhash := recentBlockhash tx; tx_signatures := tx_signatures tx |}.

Definition set_recentBlockhash (tx : Transaction) (h : string) : Transaction :=
  {| tx_instructions := tx_instructions tx; feePayer := feePayer tx;
     recentBlockhash := Some h; tx_signatures := tx_signatures tx |}.

(** An HTTP response of [fetch]: the status and what reading the body as JSON
    or as text gives. *)
Record Response := {
  resp_ok : bool;
  resp_status : Z;
  resp_json : Exc JValue;
  resp_text : Exc string
}.

(** What [runQuery] of the Dune client resolves to: [rows] is
    [result?.rows]. *)
Record DuneResult := { rows : option JValue }.

Record SignatureInfo := { blockTime : option Z }.

(** The object [createCPI] of [./solanaprogram] resolves to: either it has an
    [error] member, or the three members of an example. *)
Inductive CPIResult :=
| CPIError (error : option string)
| CPIExample (cpiExample : option string) (programIdl : option JValue)
             (cluster : option string).

(** ** Calls to the outside world *)

Inductive NetCall :=
| GetAccountInfo (pk : PublicKey)
| GetBalance (pk : PublicKey)
| GetMinimumBalanceForRentExemption (dataSize : Z)
| GetParsedTransaction (signature : string)
| GetSignaturesForAddress (pk : PublicKey) (limit : Z)
| GetLatestBlockhash
| SimulateTransaction (tx : Transaction)
| SendAndConfirmRawTransaction (raw : Bytes) (skipPreflight : bool)
| FetchIdl (pk : PublicKey)
| Fetch (url : string) (method : string) (body : option string)
| DuneRunQuery (apiKey : string) (queryId : Z) (params : list (string * JValue))
| CreateCPI (programId instructionName : string).

(** The collaborators. A network field receives the calls made before the
    present one, so that its answer may change from call to call. *)
Record World := {
  (* @solana/web3.js and @project-serum/anchor, computed locally *)
  PublicKey_new : JValue -> Exc PublicKey;
  PublicKey_fromBuffer : Bytes -> Exc PublicKey;
  toBase58 : PublicKey -> string;
  findProgramAddress : list Bytes -> PublicKey -> Exc PublicKey;
  isOnCurve : PublicKey -> Exc bool;
  Keypair_fromSecretKey : Bytes -> Exc Keypair;
  bs58_decode : string -> Exc Bytes;
  bs58_encode : Bytes -> string;
  BN_new : JValue -> Exc Z;
  BN_toString : Z -> string;
  BN_toJSON : Z -> JValue;
  Program_new : Idl -> PublicKey -> Exc unit;
  instruction_encode : Idl -> string -> Exc Bytes;
  accountDiscriminator : string -> Bytes;
  Transaction_partialSign : Transaction -> Keypair -> Exc Transaction;
  Transaction_serialize : bool -> bool -> Transaction -> Exc Bytes;
  Transaction_from : Bytes -> Exc Transaction;
  (* the JavaScript runtime *)
  JSON_parse : string -> Exc JValue;
  JSON_stringify : bool -> JValue -> string;
  stringify_accountInfo : option AccountInfo -> string;
  stringify_instruction : TransactionInstruction -> string;
  stringify_transaction : Transaction -> string;
  Number_toString_inexact : Z -> Z -> string;
  String_toLowerCase : string -> string;
  earliest_rejection : list JsError -> nat;
  Buffer_from_base64 : string -> Bytes;
  Buffer_toBase64 : Bytes -> string;
  Date_toISOString : Z -> Exc string;
  (* zod *)
  is_url : string -> bool;
  (* the network *)
  rpc_getAccountInfo : list NetCall -> PublicKey -> Exc (option AccountInfo);
  rpc_getBalance : list NetCall -> PublicKey -> Exc Z;
  rpc_getMinimumBalanceForRentExemption : list NetCall -> Z -> Exc Z;
  rpc_getParsedTransaction : list NetCall -> string -> Exc JValue;
  rpc_getSignaturesForAddress : list NetCall -> PublicKey -> Z -> Exc (list SignatureInfo);
  rpc_getLatestBlockhash : list NetCall -> Exc string;
  rpc_simulateTransaction : list NetCall -> Transaction -> Exc JValue;
  rpc_sendAndConfirmRawTransaction : list NetCall -> Bytes -> bool -> Exc string;
  anchor_fetchIdl : list NetCall -> PublicKey -> Exc (option Idl);
  http_fetch : list NetCall -> string -> string -> option string -> Exc Response;
  dune_runQuery : list NetCall -> string -> Z -> list (string * JValue) -> Exc DuneResult;
  solanaprogram_createCPI : list NetCall -> string -> string -> Exc CPIResult
}.

(** ** The monad of handlers *)

Record Effects := { log : list string; net : list NetCall }.

Definition M (A : Type) : Type := Effects -> Exc A * Effects.

Definition ret {A} (a : A) : M A := fun s => (OK a, s).

Definition bind {A B} (c : M A) (k : A -> M B) : M B :=
  fun s => match c s with
           | (OK a, s') => k a s'
           | (Throw e, s') => (Throw e, s')
           end.

Definition throw {A} (e : JsError) : M A := fun s => (Throw e, s).

(** A computation that touches neither the log nor the network. *)
Definition lift {A} (x : Exc A) : M A := fun s => (x, s).

(** [try { body } catch (error) { handler }] *)
Definition try_catch {A} (body : M A) (handler : JsError -> M A) : M A :=
  fun s => match body s with
           | (OK a, s') => (OK a, s')
           | (Throw e, s') => handler e s'
           end.

(** [logToFile(message)]: the line appended to [app.log] is the time stamp,
    a colon and this message; an error of [fs.appendFile] goes to a callback
    that ignores it. *)
Definition logToFile (message : string) : M unit :=
  fun s => (OK tt, {| log := log s ++ [message]; net := net s |}).

(** One call to the outside world, recorded in the trace. *)
Definition netcall {A} (c : NetCall) (answer : list NetCall -> Exc A) : M A :=
  fun s => (answer (net s), {| log := log s; net := net s ++ [c] |}).

Notation "x <- c ;; k" := (bind c (fun x => k))
  (at level 100, c at next level, right associativity).
Notation "c ;;; k" := (bind c (fun _ => k))
  (at level 100, right associativity).

(** [for] / [map] with a callback that may throw: left to right, stopping at
    the first exception. *)
Fixpoint mapM {A B} (f : A -> M B) (l : list A) : M (list B) :=
  match l with
  | [] => ret []
  | x :: l' => y <- f x ;; ys <- mapM f l' ;; ret (y :: ys)
  end.

Fixpoint mapE {A B} (f : A -> Exc B) (l : list A) : Exc (list B) :=
  match l with
  | [] => OK []
  | x :: l' =>
      match f x with
      | Throw e => Throw e
      | OK y => match mapE f l' with
                | Throw e => Throw e
                | OK ys => OK (y :: ys)
                end
      end
  end.

(** ** Results *)

(** An item of [content]; [text] is [None] where the source writes
    [text: undefined]. *)
Record ContentItem := { ctype : string; text : option string; language : option string }.

Record Result := { content : list ContentItem }.

Definition text_item (s : string) : ContentItem :=
  {| ctype := "text"; text := Some s; language := None |}.

Definition text_item_lang (s lang : string) : ContentItem :=
  {| ctype := "text"; text := Some s; language := Some lang |}.

Definition result (items : list ContentItem) : Result := {| content := items |}.

(** The catch block shared by the handlers:
    [return { content: [{ type: "text", text: `Error: ${error.message}` }] }] *)
Definition error_result (e : JsError) : Result :=
  result [text_item ("Error: " ++ message e)].

(** ** Strings *)

Definition ascii_toLower (c : ascii) : ascii :=
  let n := nat_of_ascii c in
  if ((65 <=? n) && (n <=? 90))%nat then ascii_of_nat (n + 32) else c.

(** The string holds ASCII characters only. *)
Definition is_ascii_string (s : string) : bool :=
  forallb (fun c => (nat_of_ascii c <? 128)%nat) (list_ascii_of_string s).

(** [s.toLowerCase()]: on a string of ASCII characters the letters [A] to [Z]
    become [a] to [z]; the mapping of other characters is the runtime's. *)
Definition toLowerCase (w : World) (s : string) : string :=
  if is_ascii_string s
  then string_of_list_ascii (map ascii_toLower (list_ascii_of_string s))
  else String_toLowerCase w s.

(** [hay.includes(needle)] *)
Fixpoint includes (needle hay : string) : bool :=
  String.prefix needle hay ||
  match hay with
  | EmptyString => false
  | String _ hay' => includes needle hay'
  end.

(** [l.join(sep)] *)
Fixpoint join (sep : string) (l : list string) : string :=
  match l with
  | [] => ""
  | [x] => x
  | x :: l' => x ++ sep ++ join sep l'
  end.

(** [bn.toArrayLike(Buffer, "le", len)] of bn.js: the magnitude, least
    significant byte first, padded with zeros; an assertion fails when the
    magnitude needs more than [len] bytes. *)
Fixpoint le_bytes (len : nat) (z : Z) : Bytes :=
  match len with
  | O => []
  | S len' => (z mod 256)%Z :: le_bytes len' (z / 256)%Z
  end.

Definition BN_toArrayLike_le (z : Z) (len : nat) : Exc Bytes :=
  if (Z.abs z <? 256 ^ Z.of_nat len)%Z then OK (le_bytes len (Z.abs z))
  else Throw (Error_ "byte array longer than desired length").

(** The validated arguments of a call, in the order of the schema. *)
Definition Args := list (string * JValue).

Definition arg (args : Args) (k : string) : JValue :=
  default JUndefined (assoc_get k args).

(** An argument the schema declares as a string, a number, a boolean. *)
Definition arg_str (args : Args) (k : string) : string :=
  match arg args k with JStr s => s | _ => "" end.

Definition arg_num (args : Args) (k : string) : Z :=
  match arg args k with JNum z => z | _ => 0%Z end.

Definition arg_bool (args : Args) (k : string) : bool :=
  match arg args k with JBool b => b | _ => false end.

(** [process.env]; [!process.env.X] holds when [X] is unset or empty. *)
Definition env_missing (v : option string) : bool :=
  match v with
  | None => true
  | Some s => s =? ""
  end.

(** The values [ix.args.map] produces in [testProgramIdl]. *)
Inductive ArgValue :=
| ArgBN (z : Z)
| ArgPublicKey (p : PublicKey)
| ArgRaw (v : JValue).

(** [(args[0] as BN).toArrayLike(Buffer, "le", 8)]: the cast is erased at run
    time, so the call is a [TypeError] unless the first mapped argument is a
    [BN]. The wording of these [TypeError]s is the engine's. *)
Definition first_arg_le8 (args : list ArgValue) : Exc Bytes :=
  match args with
  | ArgBN z :: _ => BN_toArrayLike_le z 8
  | ArgRaw JNull :: _ =>
      Throw (TypeError_ "Cannot read properties of null (reading 'toArrayLike')")
  | [] | ArgRaw JUndefined :: _ =>
      Throw (TypeError_ "Cannot read properties of undefined (reading 'toArrayLike')")
  | _ => Throw (TypeError_ "args[0].toArrayLike is not a function")
  end.

(** The text appended by the event-stream [testProgramIdl] to its error. *)
Definition expected_input_help : string :=
  nl ++
  "      The input JSON should be a string containing a JSON object with two main properties:" ++ nl ++
  "      " ++ nl ++
  "      1. " ++ dquote ++ "accounts" ++ dquote ++ ": An array of account objects, each containing:" ++ nl ++
  "         - " ++ dquote ++ "name" ++ dquote ++ ": The name of the account as specified in the instruction" ++ nl ++
  "         - " ++ dquote ++ "pubkey" ++ dquote ++ ": The public key of the account as a base58 encoded string" ++ nl ++
  "      " ++ nl ++
  "      2. " ++ dquote ++ "args" ++ dquote ++ ": An array of argument objects, each containing:" ++ nl ++
  "         - " ++ dquote ++ "name" ++ dquote ++ ": The name of the argument as specified in the instruction" ++ nl ++
  "         - " ++ dquote ++ "value" ++ dquote ++ ": The value of the argument" ++ nl ++
  "         - " ++ dquote ++ "type" ++ dquote ++ " (optional): The type of the argument (e.g., " ++
       dquote ++ "u64" ++ dquote ++ ", " ++ dquote ++ "i64" ++ dquote ++ ", " ++
       dquote ++ "publicKey" ++ dquote ++ ")" ++ nl ++
  "      " ++ nl ++
  "      Example structure:" ++ nl ++
  "      {" ++ nl ++
  "        " ++ dquote ++ "accounts" ++ dquote ++ ": [" ++ nl ++
  "          { " ++ dquote ++ "name" ++ dquote ++ ": " ++ dquote ++ "accountName1" ++ dquote ++ ", " ++
       dquote ++ "pubkey" ++ dquote ++ ": " ++ dquote ++ "base58EncodedPublicKey1" ++ dquote ++ " }," ++ nl ++
  "          { " ++ dquote ++ "name" ++ dquote ++ ": " ++ dquote ++ "accountName2" ++ dquote ++ ", " ++
       dquote ++ "pubkey" ++ dquote ++ ": " ++ dquote ++ "base58EncodedPublicKey2" ++ dquote ++ " }" ++ nl ++
  "        ]," ++ nl ++
  "        " ++ dquote ++ "args" ++ dquote ++ ": [" ++ nl ++
  "          { " ++ dquote ++ "name" ++ dquote ++ ": " ++ dquote ++ "argName1" ++ dquote ++ ", " ++
       dquote ++ "value" ++ dquote ++ ": " ++ dquote ++ "argValue1" ++ dquote ++ ", " ++
       dquote ++ "type" ++ dquote ++ ": " ++ dquote ++ "argType1" ++ dquote ++ " }," ++ nl ++
  "          { " ++ dquote ++ "name" ++ dquote ++ ": " ++ dquote ++ "argName2" ++ dquote ++ ", " ++
       dquote ++ "value" ++ dquote ++ ": " ++ dquote ++ "argValue2" ++ dquote ++ ", " ++
       dquote ++ "type" ++ dquote ++ ": " ++ dquote ++ "argType2" ++ dquote ++ " }" ++ nl ++
  "        ]" ++ nl ++
  "      }" ++ nl ++
  "      " ++ nl ++
  "      Ensure that the account names and argument names match those specified in the instruction's IDL." ++ nl ++
  "          ".

(** ** The tool handlers *)

Section Handlers.

Variable w : World.
Variable env : gmap string string.

(** [`${n}`] for an integer-valued number: its digits up to [2^53], where
    every integer is a double; beyond, the shortest digits that give the
    double back. *)
Definition Number_toString (z : Z) : string :=
  if (Z.abs z <=? 2 ^ 53)%Z then Z_toString z
  else Number_toString_inexact w z 1.

(** [`${n / LAMPORTS_PER_SOL}`]. Up to fifteen significant digits the double
    nearest to the quotient prints as the decimal quotient itself; beyond,
    the digits depend on the rounding of the division. *)
Definition sol_toString (z : Z) : string :=
  if ((0 <=? z) && (z <? 10 ^ 15))%Z then decimal_quotient_toString z
  else Number_toString_inexact w z LAMPORTS_PER_SOL.

(** [`${v}`] *)
Fixpoint js_String (v : JValue) : string :=
  match v with
  | JUndefined => "undefined"
  | JNull => "null"
  | JBool true => "true"
  | JBool false => "false"
  | JNum z => Number_toString z
  | JStr s => s
  | JArr l =>
      join "," (map (fun x => match x with
                              | JUndefined | JNull => ""
                              | _ => js_String x
                              end) l)
  | JObj _ => "[object Object]"
  end.

Definition connection_getAccountInfo (pk : PublicKey) : M (option AccountInfo) :=
  netcall (GetAccountInfo pk) (fun h => rpc_getAccountInfo w h pk).

Definition Program_fetchIdl (pk : PublicKey) : M (option Idl) :=
  netcall (FetchIdl pk) (fun h => anchor_fetchIdl w h pk).

Definition fetch (url method : string) (body : option string) : M Response :=
  netcall (Fetch url method body) (fun h => http_fetch w h url method body).

(** [{ type: "text", text: JSON.stringify(v, null, 2) }]: [JSON.stringify]
    gives [undefined] for [undefined]. *)
Definition json_item (v : JValue) : ContentItem :=
  match v with
  | JUndefined => {| ctype := "text"; text := None; language := None |}
  | _ => text_item (JSON_stringify w true v)
  end.

(** The catch block of most handlers. *)
Definition catch_error (error : JsError) : M Result :=
  ret (error_result error).

(** The catch block of the handlers that also log the message. *)
Definition catch_log_error (error : JsError) : M Result :=
  logToFile ("Error: " ++ message error) ;;;
  ret (error_result error).

(** *** getAccountInfo *)

Definition getAccountInfo_body (args : Args) : M Result :=
  pubkey <- lift (PublicKey_new w (arg args "publicKey")) ;;
  accountInfo <- connection_getAccountInfo pubkey ;;
  ret (result [text_item (stringify_accountInfo w accountInfo)]).

Definition getAccountInfo_handler (args : Args) : M Result :=
  try_catch (getAccountInfo_body args) catch_error.

(** *** getBalance *)

Definition getBalance_body (args : Args) : M Result :=
  pubkey <- lift (PublicKey_new w (arg args "publicKey")) ;;
  balance <- netcall (GetBalance pubkey) (fun h => rpc_getBalance w h pubkey) ;;
  ret (result [text_item (sol_toString balance ++ " SOL (" ++
                          Number_toString balance ++ " lamports)")]).

Definition getBalance_handler (args : Args) : M Result :=
  try_catch (getBalance_body args) catch_error.

(** *** getMinimumBalanceForRentExemption *)

Definition getMinimumBalanceForRentExemption_body (args : Args) : M Result :=
  let dataSize := arg_num args "dataSize" in
  minBalance <- netcall (GetMinimumBalanceForRentExemption dataSize)
                  (fun h => rpc_getMinimumBalanceForRentExemption w h dataSize) ;;
  ret (result [text_item (sol_toString minBalance ++ " SOL (" ++
                          Number_toString minBalance ++ " lamports)")]).

Definition getMinimumBalanceForRentExemption_handler (args : Args) : M Result :=
  try_catch (getMinimumBalanceForRentExemption_body args) catch_error.

(** *** getTransaction *)

Definition getTransaction_body (args : Args) : M Result :=
  let signature := arg_str args "signature" in
  transaction <- netcall (GetParsedTransaction signature)
                   (fun h => rpc_getParsedTransaction w h signature) ;;
  ret (result [text_item (JSON_stringify w true transaction)]).

Definition getTransaction_handler (args : Args) : M Result :=
  try_catch (getTransaction_body args) catch_error.

(** *** getPriorityFee *)

Definition priorityFee_request (transaction : string) (options : list (string * JValue)) : JValue :=
  JObj [("jsonrpc", JStr "2.0"); ("id", JStr "1");
        ("method", JStr "getPriorityFeeEstimate");
        ("params", JArr [JObj [("transaction", JStr transaction);
                               ("options", JObj options)]])].

(** The stdio server reads [HELIUS_RPC_URL] and throws when it is not set. *)
Definition getPriorityFee_body (args : Args) : M Result :=
  let serealizedTransaction := arg_str args "serealizedTransaction" in
  let HeliusURL := env !! "HELIUS_RPC_URL" in
  if env_missing HeliusURL then
    throw (Error_ "HELIUS_RPC_URL environment variable is not set")
  else
    response <- fetch (default "" HeliusURL) "POST"
                  (Some (JSON_stringify w false
                           (priorityFee_request serealizedTransaction
                              [("includeAllPriorityFeeLevels", JBool true)]))) ;;
    result_ <- lift (resp_json response) ;;
    priorityFee <- lift (prop result_ "result") ;;
    ret (result [json_item priorityFee]).

Definition getPriorityFee_handler (args : Args) : M Result :=
  try_catch (getPriorityFee_body args) catch_error.

(** The event-stream server reads [HELIUS_API_KEY] and returns the error
    text itself. *)
Definition getPriorityFee_sse_body (args : Args) : M Result :=
  let serializedTransaction := arg_str args "serializedTransaction" in
  let HELIUS_API_KEY := env !! "HELIUS_API_KEY" in
  if env_missing HELIUS_API_KEY then
    ret (result [text_item "Error: HELIUS_API_KEY environment variable is not set"])
  else
    logToFile ("HELIUS_API_KEY: " ++ default "" HELIUS_API_KEY) ;;;
    response <- fetch ("https://mainnet.helius-rpc.com/?api-key=" ++ default "" HELIUS_API_KEY)
                  "POST"
                  (Some (JSON_stringify w false
                           (priorityFee_request serializedTransaction
                              [("includeAllPriorityFeeLevels", JBool true);
                               ("transactionEncoding", JStr "base64")]))) ;;
    result_ <- lift (resp_json response) ;;
    priorityFee <- lift (prop result_ "result") ;;
    let responseText :=
      if truthy priorityFee then JSON_stringify w true priorityFee
      else "No priority fee data available" ++ JSON_stringify w true result_ in
    ret (result [text_item responseText]).

Definition getPriorityFee_sse_handler (args : Args) : M Result :=
  try_catch (getPriorityFee_sse_body args) catch_error.

(** *** generateSecurityTxt *)

Definition securityTxt_fields : list string :=
  ["name"; "project_url"; "contacts"; "policy"; "preferred_languages";
   "encryption"; "source_code"; "source_release"; "source_revision";
   "auditors"; "acknowledgements"; "expiry"].

(** [Object.entries(input).filter(([_, value]) => value !== undefined)]: the
    validated object has its members in the order of the schema. *)
Definition defined_entries (args : Args) : list (string * JValue) :=
  List.filter (fun kv => match snd kv with JUndefined => false | _ => true end) args.

Definition securityTxt_content (args : Args) : string :=
  join "" (map (fun kv => fst kv ++ nul ++ js_String (snd kv) ++ nul)
             (defined_entries args)).

Definition securityTxt_text (args : Args) : string :=
  dquote ++ "=======BEGIN SECURITY.TXT V1=======" ++ backslash ++ "0" ++
  securityTxt_content args ++
  "=======END SECURITY.TXT V1=======" ++ backslash ++ "0" ++ dquote.

Definition securityTxt_macro (args : Args) : string :=
  "#[macro_export]" ++ nl ++
  "  macro_rules! security_txt {" ++ nl ++
  "      () => {" ++ nl ++
  "          #[cfg_attr(target_arch = " ++ dquote ++ "bpf" ++ dquote ++
  ", link_section = " ++ dquote ++ ".security.txt" ++ dquote ++ ")]" ++ nl ++
  "          #[allow(dead_code)]" ++ nl ++
  "          #[no_mangle]" ++ nl ++
  "          pub static security_txt: &str = " ++ securityTxt_text args ++ ";" ++ nl ++
  "      };" ++ nl ++
  "  }" ++ nl ++
  "  " ++ nl ++
  "  security_txt!();".

(** This handler has no [try]. *)
Definition generateSecurityTxt_handler (args : Args) : M Result :=
  ret (result [text_item "Generated security.txt content:";
               text_item (securityTxt_text args);
               text_item "Generated macro:";
               text_item (securityTxt_macro args)]).

(** *** getProgramIdl *)

Definition SHANK_PROGRAM : string := "SHANKxjhDKxhCjgSEhUvZy5uW8Xb4VuKLyAXJVZbDGr".

(** Method 1, with its own [try]: [Some r] stands for [return r] from inside
    it, [None] for falling through to the next method. *)
Definition getProgramIdl_method1 (programPublicKey : PublicKey) : M (option Result) :=
  try_catch
    (idl <- Program_fetchIdl programPublicKey ;;
     match idl with
     | Some idl =>
         logToFile "IDL fetched using Anchor's fetchIdl" ;;;
         ret (Some (result [text_item (JSON_stringify w true (idl_json idl))]))
     | None => ret None
     end)
    (fun e =>
       logToFile ("Error fetching IDL with Anchor: " ++ error_toString e) ;;;
       ret None).

Definition getProgramIdl_method3 (programPublicKey : PublicKey) : M Result :=
  shankProgram <- lift (PublicKey_new w (JStr SHANK_PROGRAM)) ;;
  shankIdlAddress <- lift (findProgramAddress w
                             [Buffer_from "shank:idl"; toBuffer programPublicKey]
                             shankProgram) ;;
  logToFile ("Trying Shank IDL address: " ++ toBase58 w shankIdlAddress) ;;;
  shankIdlAccount <- connection_getAccountInfo shankIdlAddress ;;
  match shankIdlAccount with
  | Some shankIdlAccount =>
      idl <- lift (JSON_parse w (Buffer_toString (data shankIdlAccount))) ;;
      logToFile "IDL fetched from Shank IDL account" ;;;
      ret (result [text_item (JSON_stringify w true idl)])
  | None =>
      logToFile "No IDL found using any method" ;;;
      ret (result [text_item "No IDL found for the given program ID."])
  end.

Definition getProgramIdl_method2 (programPublicKey : PublicKey) : M Result :=
  idlAddress <- lift (findProgramAddress w
                        [Buffer_from "anchor:idl"; toBuffer programPublicKey]
                        programPublicKey) ;;
  logToFile ("Trying IDL address: " ++ toBase58 w idlAddress) ;;;
  idlAccount <- connection_getAccountInfo idlAddress ;;
  match idlAccount with
  | Some idlAccount =>
      let idlData := slice_from 8 (data idlAccount) in
      idl <- lift (JSON_parse w (Buffer_toString idlData)) ;;
      logToFile "IDL fetched manually from account" ;;;
      ret (result [text_item (JSON_stringify w true idl)])
  | None => getProgramIdl_method3 programPublicKey
  end.

Definition getProgramIdl_body (args : Args) : M Result :=
  programPublicKey <- lift (PublicKey_new w (arg args "programId")) ;;
  found <- getProgramIdl_method1 programPublicKey ;;
  match found with
  | Some r => ret r
  | None => getProgramIdl_method2 programPublicKey
  end.

Definition getProgramIdl_handler (args : Args) : M Result :=
  try_catch (getProgramIdl_body args) catch_log_error.

(** *** createGPAFilters *)

Definition gpa_filter (account : IdlAccountDef) : JValue :=
  let discriminator := accountDiscriminator w (accdef_name account) in
  let discBase58 := bs58_encode w discriminator in
  JObj [("memcmp", JObj [("offset", JNum 0); ("bytes", JStr discBase58)])].

Definition createGPAFilters_body (args : Args) : M Result :=
  let programId := arg args "programId" in
  programPublicKey <- lift (PublicKey_new w programId) ;;
  idl <- Program_fetchIdl programPublicKey ;;
  match idl with
  | None => throw (Error_ "IDL not found for the given program ID")
  | Some idl =>
      let accountTypes := default [] (idl_accounts idl) in
      let filters := map gpa_filter accountTypes in
      logToFile ("Generated " ++ Number_toString (Z.of_nat (length filters)) ++
                 " GPA filters for program " ++ js_String programId) ;;;
      ret (result [text_item "GPA Filters:";
                   text_item (JSON_stringify w true (JArr filters));
                   text_item (nl ++ "Account Types:");
                   text_item (JSON_stringify w true
                                (JArr (map (fun a => JStr (accdef_name a)) accountTypes)))])
  end.

Definition createGPAFilters_handler (args : Args) : M Result :=
  try_catch (createGPAFilters_body args) catch_log_error.

(** *** testProgramIdl *)

(** The callback of [ix.accounts.map]. *)
Definition testProgramIdl_key (payer : Keypair) (inputData : JValue)
    (acc : IdlAccountItem) : M AccountMeta :=
  accounts <- lift (prop inputData "accounts") ;;
  accountInfo <- lift (array_find_by_name "inputData.accounts" accounts (acc_name acc)) ;;
  given <- lift (opt_prop accountInfo "pubkey") ;;
  pubkey <- (if truthy given then lift (PublicKey_new w given)
             else ret (publicKey payer)) ;;
  ret {| pubkey := pubkey;
         isSigner := default false (acc_isSigner acc);
         isWritable := default false (acc_isMut acc) |}.

(** The callback of [ix.args.map]. *)
Definition testProgramIdl_arg (inputData : JValue) (arg : IdlField) : M ArgValue :=
  args_ <- lift (prop inputData "args") ;;
  inputArg <- lift (array_find_by_name "inputData.args" args_ (field_name arg)) ;;
  value <- lift (opt_prop inputArg "value") ;;
  logToFile ("Processing arg: " ++ field_name arg ++ ", type: " ++
             js_String (field_type arg) ++ ", value: " ++ js_String value) ;;;
  if strict_eq_str (field_type arg) "u64" || strict_eq_str (field_type arg) "i64" then
    bnValue <- lift (BN_new w value) ;;
    logToFile ("Created BN: " ++ BN_toString w bnValue) ;;;
    ret (ArgBN bnValue)
  else if strict_eq_str (field_type arg) "publicKey" then
    p <- lift (PublicKey_new w value) ;;
    ret (ArgPublicKey p)
  else ret (ArgRaw value).

Definition ArgValue_toJSON (a : ArgValue) : JValue :=
  match a with
  | ArgBN z => BN_toJSON w z
  | ArgPublicKey p => JStr (toBase58 w p)
  | ArgRaw v => v
  end.

(** The instruction data: the first eight bytes of the encoded instruction
    followed by [args[0]] on eight bytes. *)
Definition testProgramIdl_data (idl : Idl) (instructionName : string)
    (args : list ArgValue) : M Bytes :=
  encoded <- lift (instruction_encode w idl instructionName) ;;
  let instructionDiscriminator := slice 0 8 encoded in
  expirationSlotBuffer <- lift (first_arg_le8 args) ;;
  ret (instructionDiscriminator ++ expirationSlotBuffer)%list.

(** From the instruction found in the IDL to the simulation. *)
Definition testProgramIdl_simulate (payer : Keypair) (programPublicKey : PublicKey)
    (idl : Idl) (inputData : JValue) (instructionName : string)
    (ix : IdlInstruction) : M Result :=
  keys <- mapM (testProgramIdl_key payer inputData) (ix_accounts ix) ;;
  args <- mapM (testProgramIdl_arg inputData) (ix_args ix) ;;
  logToFile ("args" ++ JSON_stringify w false (JArr (map ArgValue_toJSON args))) ;;;
  data <- testProgramIdl_data idl instructionName args ;;
  let instruction :=
    {| keys := keys; programId := programPublicKey; ix_data := data |} in
  logToFile ("instruction" ++ stringify_instruction w instruction) ;;;
  let transaction :=
    set_feePayer (Transaction_add Transaction_new instruction) (publicKey payer) in
  simulation <- netcall (SimulateTransaction transaction)
                  (fun h => rpc_simulateTransaction w h transaction) ;;
  ret (result [text_item "Simulation result:";
               text_item (JSON_stringify w true simulation)]).

(** The handler after the check of [PAYER_PRIVATE_KEY], the same in both
    servers. *)
Definition testProgramIdl_with_payer (payerPrivateKey : string) (args : Args) : M Result :=
  let programId := arg args "programId" in
  let inputJson := arg_str args "inputJson" in
  let instructionName := arg_str args "instructionName" in
  secretKey <- lift (bs58_decode w payerPrivateKey) ;;
  payer <- lift (Keypair_fromSecretKey w secretKey) ;;
  programPublicKey <- lift (PublicKey_new w programId) ;;
  idl <- Program_fetchIdl programPublicKey ;;
  match idl with
  | None => ret (result [text_item "No IDL found for the given program ID."])
  | Some idl =>
      inputData <- lift (JSON_parse w inputJson) ;;
      lift (Program_new w idl programPublicKey) ;;;
      match List.find (fun ix => ix_name ix =? instructionName) (idl_instructions idl) with
      | None =>
          ret (result [text_item ("Instruction '" ++ instructionName ++
                                  "' not found in IDL.")])
      | Some ix =>
          testProgramIdl_simulate payer programPublicKey idl inputData
            instructionName ix
      end
  end.

Definition testProgramIdl_log_input (args : Args) : M unit :=
  logToFile (JSON_stringify w false
               (JObj [("programId", arg args "programId");
                      ("inputJson", arg args "inputJson");
                      ("instructionName", arg args "instructionName")])).

(** The stdio server throws when the key of the payer is not set. *)
Definition testProgramIdl_body (args : Args) : M Result :=
  testProgramIdl_log_input args ;;;
  let payerPrivateKey := env !! "PAYER_PRIVATE_KEY" in
  if env_missing payerPrivateKey then
    throw (Error_ "PAYER_PRIVATE_KEY not found in environment variables")
  else testProgramIdl_with_payer (default "" payerPrivateKey) args.

Definition testProgramIdl_handler (args : Args) : M Result :=
  try_catch (testProgramIdl_body args) catch_log_error.

(** The event-stream server returns a result when the key of the payer is
    not set, and its catch block adds two items to the error. *)
Definition testProgramIdl_sse_body (args : Args) : M Result :=
  testProgramIdl_log_input args ;;;
  let payerPrivateKey := env !! "PAYER_PRIVATE_KEY" in
  if env_missing payerPrivateKey then
    ret (result [text_item "No IDL found for the given program ID."])
  else testProgramIdl_with_payer (default "" payerPrivateKey) args.

Definition testProgramIdl_sse_catch (error : JsError) : M Result :=
  logToFile ("Error: " ++ message error) ;;;
  ret (result [text_item ("Error: " ++ message error);
               text_item "Expected input JSON structure:";
               text_item expected_input_help]).

Definition testProgramIdl_sse_handler (args : Args) : M Result :=
  try_catch (testProgramIdl_sse_body args) testProgramIdl_sse_catch.

(** *** lookupProgramAuth *)

(** The stdio server: the authority is read from bytes 0 to 32 of the
    program-data account. *)
Definition lookupProgramAuth_body (args : Args) : M Result :=
  programPubkey <- lift (PublicKey_new w (arg args "programId")) ;;
  programInfo <- connection_getAccountInfo programPubkey ;;
  match programInfo with
  | None => throw (Error_ "Program not found")
  | Some programInfo =>
      programDataAddress <- lift (PublicKey_fromBuffer w (slice 4 36 (data programInfo))) ;;
      programData <- connection_getAccountInfo programDataAddress ;;
      match programData with
      | None => throw (Error_ "Program data not found")
      | Some programData =>
          programAuthority <- lift (PublicKey_fromBuffer w (slice 0 32 (data programData))) ;;
          ret (result [text_item ("Program Authority: " ++ toBase58 w programAuthority)])
      end
  end.

Definition lookupProgramAuth_handler (args : Args) : M Result :=
  try_catch (lookupProgramAuth_body args) catch_error.

(** The event-stream server: the authority is read from bytes 13 to 45. *)
Definition lookupProgramAuth_sse_body (args : Args) : M Result :=
  let programId := arg args "programId" in
  programPubkey <- lift (PublicKey_new w programId) ;;
  programInfo <- connection_getAccountInfo programPubkey ;;
  match programInfo with
  | None =>
      ret (result [text_item ("Error: Program with ID " ++ js_String programId ++
                              " not found.")])
  | Some programInfo =>
      programDataAddress <- lift (PublicKey_fromBuffer w (slice 4 36 (data programInfo))) ;;
      programData <- connection_getAccountInfo programDataAddress ;;
      match programData with
      | None =>
          ret (result [text_item ("Error: Program data not found for " ++
                                  js_String programId ++ ".")])
      | Some programData =>
          upgradeAuthorityAddress <-
            lift (PublicKey_fromBuffer w (slice 13 45 (data programData))) ;;
          ret (result [text_item ("Program Authority: " ++
                                  toBase58 w upgradeAuthorityAddress)])
      end
  end.

Definition lookupProgramAuth_sse_handler (args : Args) : M Result :=
  try_catch (lookupProgramAuth_sse_body args) catch_error.

(** *** checkupProgram *)

Definition BPF_LOADER_UPGRADEABLE : string := "BPFLoaderUpgradeab1e11111111111111111111111".

Definition bool_toString (b : bool) : string := if b then "true" else "false".

Definition checkupProgram_body (args : Args) : M Result :=
  let programId := arg args "programId" in
  response <- fetch ("https://verify.osec.io/status/" ++ js_String programId) "GET" None ;;
  programPubkey <- lift (PublicKey_new w programId) ;;
  programInfo <- connection_getAccountInfo programPubkey ;;
  match programInfo with
  | None => throw (Error_ "Program not found")
  | Some programInfo =>
      upgradeAuthorityPubkey <-
        lift (PublicKey_fromBuffer w (slice 4 36 (data programInfo))) ;;
      upgradeAuthorityInfo <- connection_getAccountInfo upgradeAuthorityPubkey ;;
      match upgradeAuthorityInfo with
      | None => throw (Error_ "Upgrade authority account not found")
      | Some upgradeAuthorityInfo =>
          loader <- lift (PublicKey_new w (JStr BPF_LOADER_UPGRADEABLE)) ;;
          let isVerified := pk_equals (owner upgradeAuthorityInfo) loader in
          data <- lift (resp_json response) ;;
          let securityTxtContent := data in
          ret (result [text_item ("Verified Build: " ++ bool_toString isVerified);
                       text_item ("Security.txt: " ++
                                  JSON_stringify w true securityTxtContent)])
      end
  end.

Definition checkupProgram_handler (args : Args) : M Result :=
  try_catch (checkupProgram_body args) catch_log_error.

(** *** checkProgramDeployment *)

(** Step 2, with its own [try]: the fetched IDL and the line pushed. *)
Definition deployment_idl (programPubkey : PublicKey) : M (option Idl * string) :=
  try_catch
    (idl <- Program_fetchIdl programPubkey ;; ret (idl, "IDL: Found"))
    (fun _ => ret (None, "IDL: Not found or not accessible")).

(** Step 5, with its own [try]. *)
Definition deployment_security (programId : string) : M string :=
  try_catch
    (response <- fetch ("https://verify.osec.io/status/" ++ programId) "GET" None ;;
     data <- lift (resp_json response) ;;
     is_verified <- lift (prop data "is_verified") ;;
     if truthy is_verified
     then ret ("Security info: " ++ JSON_stringify w true data)
     else ret "Security info: Not found on verify.osec.io")
    (fun _ => ret "Security info: Error checking verify.osec.io").

Definition sensitive_keywords : list string := ["key"; "secret"; "password"; "private"].

Definition is_sensitive (arg : IdlField) : bool :=
  existsb (fun keyword => includes keyword (toLowerCase w (field_name arg)))
          sensitive_keywords.

(** Step 6. *)
Definition deployment_sensitive (idl : option Idl) : list string :=
  match idl with
  | None => []
  | Some idl =>
      let sensitiveFields :=
        flat_map (fun ix => List.filter is_sensitive (ix_args ix)) (idl_instructions idl) in
      if (0 <? length sensitiveFields)%nat then
        "Warning: Potentially sensitive data in instruction arguments:" ::
        map (fun field => "  - " ++ field_name field ++ " (" ++
                          js_String (field_type field) ++ ")") sensitiveFields
      else ["No obvious sensitive data found in instruction arguments"]
  end.

(** Step 8. *)
Definition deployment_latest (signatures : list SignatureInfo) : Exc string :=
  match signatures with
  | {| blockTime := Some t |} :: _ =>
      if (t =? 0)%Z then OK "No recent activity"
      else Date_toISOString w (t * 1000)
  | _ => OK "No recent activity"
  end.

(** [report.push(line)] *)
Definition push (report : list string) (line : string) : list string :=
  (report ++ [line])%list.

Definition checkProgramDeployment_body (args : Args) : M Result :=
  let programId := arg_str args "programId" in
  programPubkey <- lift (PublicKey_new w (JStr programId)) ;;
  programInfo <- connection_getAccountInfo programPubkey ;;
  match programInfo with
  | None =>
      ret (result [text_item ("Error: Program with ID " ++ programId ++ " not found.")])
  | Some programInfo =>
      let report := ["Program found: " ++ programId] in
      fetched <- deployment_idl programPubkey ;;
      let idl := fst fetched in
      let report := push report (snd fetched) in
      programDataAddress <-
        lift (PublicKey_fromBuffer w (slice 4 36 (data programInfo))) ;;
      programData <- connection_getAccountInfo programDataAddress ;;
      match programData with
      | None =>
          ret (result [text_item ("Error: Program data not found for " ++
                                  programId ++ ".")])
      | Some programData =>
          upgradeAuthorityAddress <-
            lift (PublicKey_fromBuffer w (slice 13 45 (data programData))) ;;
          upgradeAuthorityInfo <- connection_getAccountInfo upgradeAuthorityAddress ;;
          (match upgradeAuthorityInfo with
           | None => ret tt
           | Some _ =>
               _ <- lift (PublicKey_new w (JStr BPF_LOADER_UPGRADEABLE)) ;; ret tt
           end) ;;;
          let report :=
            push report ("upgradeAuthorityPubkey: " ++ toBase58 w upgradeAuthorityAddress) in
          isOnCurve <- lift (isOnCurve w upgradeAuthorityAddress) ;;
          let isMultisig := negb isOnCurve in
          let report :=
            push report ("Multisig: " ++ (if isMultisig then "Yes" else "No")) in
          security <- deployment_security programId ;;
          let report := push report security in
          let report := (report ++ deployment_sensitive idl)%list in
          let programSize := Z.of_nat (length (data programInfo)) in
          let report :=
            push report ("Program size: " ++ Number_toString programSize ++ " bytes") in
          signatures <- netcall (GetSignaturesForAddress programPubkey 10)
                          (fun h => rpc_getSignaturesForAddress w h programPubkey 10) ;;
          latestActivity <- lift (deployment_latest signatures) ;;
          let report := push report ("Latest activity: " ++ latestActivity) in
          ret (result [text_item "Program Deployment Check Report:";
                       text_item (join nl report)])
      end
  end.

Definition checkProgramDeployment_handler (args : Args) : M Result :=
  try_catch (checkProgramDeployment_body args) catch_log_error.

(** *** createCPI *)

Definition or_string (v : option string) (d : string) : string :=
  match v with
  | Some s => if s =? "" then d else s
  | None => d
  end.

Definition or_empty_object (v : option JValue) : JValue :=
  match v with
  | Some j => if truthy j then j else JObj []
  | None => JObj []
  end.

Definition createCPI_body (args : Args) : M Result :=
  let programId := arg_str args "programId" in
  let instructionName := arg_str args "instructionName" in
  result_ <- netcall (CreateCPI programId instructionName)
               (fun h => solanaprogram_createCPI w h programId instructionName) ;;
  match result_ with
  | CPIError error => ret (result [text_item (or_string error "Unknown error")])
  | CPIExample cpiExample programIdl cluster =>
      ret (result [text_item "CPI Example:";
                   text_item_lang (or_string cpiExample "// No example generated") "rust";
                   text_item "Program IDL:";
                   text_item_lang (JSON_stringify w true (or_empty_object programIdl)) "json";
                   text_item ("Cluster: " ++ or_string cluster "unknown")])
  end.

Definition createCPI_handler (args : Args) : M Result :=
  try_catch (createCPI_body args) catch_error.

(** *** getDuneSolanaData *)

(** Starting a request: the call is made, its outcome is known when the
    promise is awaited. *)
Definition start {A} (c : M A) : M (Exc A) :=
  fun s => match c s with (r, s') => (OK r, s') end.

(** The rejections among the outcomes, in the order of the array. *)
Definition rejections {A} (outcomes : list (Exc A)) : list JsError :=
  flat_map (fun o => match o with OK _ => [] | Throw e => [e] end) outcomes.

(** The rejection that came first in time, which the runtime picks among
    the rejections of the array. *)
Definition first_rejection (e : JsError) (others : list JsError) : JsError :=
  nth (earliest_rejection w (e :: others) mod S (length others)) (e :: others) e.

(** [await Promise.all([a, b, c])]: the three requests have been started; when
    some are rejected, the rejection reported is the first in time. *)
Definition Promise_all3 {A} (a b c : Exc A) : Exc (A * A * A) :=
  match a, b, c with
  | OK x, OK y, OK z => OK (x, y, z)
  | Throw e, _, _ => Throw (first_rejection e (rejections [b; c]))
  | _, Throw e, _ => Throw (first_rejection e (rejections [c]))
  | _, _, Throw e => Throw e
  end.

Definition runQuery (apiKey : string) (queryId : Z) (params : list (string * JValue))
  : M DuneResult :=
  netcall (DuneRunQuery apiKey queryId params)
          (fun h => dune_runQuery w h apiKey queryId params).

Definition getDuneSolanaData_body (args : Args) : M Result :=
  let programId := arg_str args "programId" in
  let days := arg_num args "days" in
  let DUNE_API_KEY := env !! "DUNE_API_KEY" in
  if env_missing DUNE_API_KEY then
    throw (Error_ "DUNE_API_KEY is not set in the environment variables")
  else
    let key := default "" DUNE_API_KEY in
    p1 <- start (runQuery key 2611952 [("program id", JStr programId); ("days", JNum days)]) ;;
    p2 <- start (runQuery key 2611885 [("program id", JStr programId); ("days", JNum days)]) ;;
    p3 <- start (runQuery key 2611938 [("program id", JStr programId)]) ;;
    results <- lift (Promise_all3 p1 p2 p3) ;;
    match results with
    | (top1000signersResult, programCallsResult, cpiProgramCallsResult) =>
        match rows top1000signersResult, rows programCallsResult,
              rows cpiProgramCallsResult with
        | Some top1000signersdata, Some programCallsdata, Some cpiProgramCallsdata =>
            if truthy top1000signersdata && truthy programCallsdata &&
               truthy cpiProgramCallsdata then
              ret (result
                     [text_item ("Dune Analytics data for Solana program " ++ programId ++
                                 " over the last " ++ Number_toString days ++ " days:");
                      text_item "Top 1000 Signers:";
                      text_item (JSON_stringify w true top1000signersdata);
                      text_item "Program Calls:";
                      text_item (JSON_stringify w true programCallsdata);
                      text_item "CPI Program Calls:";
                      text_item (JSON_stringify w true cpiProgramCallsdata)])
            else ret (result [text_item "No data returned from Dune Analytics."])
        | _, _, _ => ret (result [text_item "No data returned from Dune Analytics."])
        end
    end.

Definition getDuneSolanaData_catch (error : JsError) : M Result :=
  logToFile ("Error fetching Dune data: " ++ message error) ;;;
  ret (error_result error).

Definition getDuneSolanaData_handler (args : Args) : M Result :=
  try_catch (getDuneSolanaData_body args) getDuneSolanaData_catch.

(** *** buildTransaction, submitTransaction, analyzeTransaction
    (event-stream server only) *)

(** A member of a validated object. *)
Definition member (v : JValue) (k : string) : JValue :=
  match v with
  | JObj fields => default JUndefined (assoc_get k fields)
  | _ => JUndefined
  end.

Definition elements (v : JValue) : list JValue :=
  match v with
  | JArr l => l
  | _ => []
  end.

Definition as_bool (v : JValue) : bool :=
  match v with JBool b => b | _ => false end.

Definition as_string (v : JValue) : string :=
  match v with JStr s => s | _ => "" end.

Definition buildTransaction_key (key : JValue) : M AccountMeta :=
  pubkey <- lift (PublicKey_new w (member key "pubkey")) ;;
  ret {| pubkey := pubkey;
         isSigner := as_bool (member key "isSigner");
         isWritable := as_bool (member key "isWritable") |}.

(** The callback of [instructions.forEach]. *)
Definition buildTransaction_add (transaction : Transaction) (ix : JValue) : M Transaction :=
  keys <- mapM buildTransaction_key (elements (member ix "keys")) ;;
  programId <- lift (PublicKey_new w (member ix "programId")) ;;
  data <- lift (bs58_decode w (as_string (member ix "data"))) ;;
  let instruction := {| keys := keys; programId := programId; ix_data := data |} in
  ret (Transaction_add transaction instruction).

Fixpoint forEach {A S} (f : S -> A -> M S) (s : S) (l : list A) : M S :=
  match l with
  | [] => ret s
  | x :: l' => s' <- f s x ;; forEach f s' l'
  end.

Definition buildTransaction_body (args : Args) : M Result :=
  let instructions := arg args "instructions" in
  let recentBlockhash := arg args "recentBlockhash" in
  let payerPrivateKey := env !! "PAYER_PRIVATE_KEY" in
  if env_missing payerPrivateKey then
    throw (Error_ "PAYER_PRIVATE_KEY not found in environment variables")
  else
    secretKey <- lift (bs58_decode w (default "" payerPrivateKey)) ;;
    payer <- lift (Keypair_fromSecretKey w secretKey) ;;
    transaction <- forEach buildTransaction_add Transaction_new (elements instructions) ;;
    let transaction := set_feePayer transaction (publicKey payer) in
    transaction <-
      (if truthy recentBlockhash
       then ret (set_recentBlockhash transaction (as_string recentBlockhash))
       else
         blockhash <- netcall GetLatestBlockhash (fun h => rpc_getLatestBlockhash w h) ;;
         ret (set_recentBlockhash transaction blockhash)) ;;
    transaction <- lift (Transaction_partialSign w transaction payer) ;;
    serialized <- lift (Transaction_serialize w false false transaction) ;;
    let serializedTransaction := Buffer_toBase64 w serialized in
    ret (result [text_item "Serialized Transaction:";
                 text_item serializedTransaction;
                 text_item (nl ++ "Transaction Details:");
                 text_item (stringify_transaction w transaction)]).

Definition buildTransaction_handler (args : Args) : M Result :=
  try_catch (buildTransaction_body args) catch_log_error.

Definition submitTransaction_body (args : Args) : M Result :=
  let serializedTransaction := arg_str args "serializedTransaction" in
  let skipPreflight := arg_bool args "skipPreflight" in
  transaction <- lift (Transaction_from w (Buffer_from_base64 w serializedTransaction)) ;;
  raw <- lift (Transaction_serialize w true true transaction) ;;
  signature <- netcall (SendAndConfirmRawTransaction raw skipPreflight)
                 (fun h => rpc_sendAndConfirmRawTransaction w h raw skipPreflight) ;;
  ret (result [text_item "Transaction submitted successfully!";
               text_item ("Signature: " ++ signature);
               text_item ("Solana Explorer URL: https://explorer.solana.com/tx/" ++
                          signature)]).

Definition submitTransaction_catch (error : JsError) : M Result :=
  logToFile ("Error submitting transaction: " ++ message error) ;;;
  ret (error_result error).

Definition submitTransaction_handler (args : Args) : M Result :=
  try_catch (submitTransaction_body args) submitTransaction_catch.

(** [data.length === 0] and [data[0]] on a truthy JSON value. *)
Definition length_is_zero (v : JValue) : bool :=
  match v with
  | JArr [] => true
  | JObj fields =>
      match assoc_get "length" fields with
      | Some (JNum z) => (z =? 0)%Z
      | _ => false
      end
  | _ => false
  end.

Definition index0 (v : JValue) : JValue :=
  match v with
  | JArr (x :: _) => x
  | JStr (String c _) => JStr (String c "")
  | JObj fields => default JUndefined (assoc_get "0" fields)
  | _ => JUndefined
  end.

Definition analyzeTransaction_body (args : Args) : M Result :=
  let signature := arg args "signature" in
  let HELIUS_API_KEY := env !! "HELIUS_API_KEY" in
  if env_missing HELIUS_API_KEY then
    throw (Error_ "HELIUS_API_KEY not found in environment variables")
  else
    response <- fetch ("https://api.helius.xyz/v0/transactions?api-key=" ++
                       default "" HELIUS_API_KEY)
                  "POST"
                  (Some (JSON_stringify w false
                           (JObj [("transactions", JArr [signature])]))) ;;
    if negb (resp_ok response) then
      throw (Error_ ("HTTP error! status: " ++ Number_toString (resp_status response)))
    else
      data <- lift (resp_json response) ;;
      if negb (truthy data) || length_is_zero data then
        ret (result [text_item "No transaction data found."])
      else
        let transaction := index0 data in
        ret (result [text_item "Transaction Analysis:";
                     json_item transaction]).

Definition analyzeTransaction_handler (args : Args) : M Result :=
  try_catch (analyzeTransaction_body args) catch_error.

(** ** Input schemas *)

(** The zod schemas the servers declare. *)
Inductive Schema : Type :=
| z_string
| z_string_url
| z_number
| z_boolean
| z_array (item : Schema)
| z_object (shape : list (string * Schema))
| z_optional (inner : Schema)
| z_default (inner : Schema) (value : JValue).

Definition ValidationError (path : string) : JsError :=
  mkError "ValidationError" path.

Definition UnknownToolError (name : string) : JsError :=
  mkError "UnknownToolError" name.

Definition UnknownPromptError (name : string) : JsError :=
  mkError "UnknownPromptError" name.

Definition member_path (path k : string) : string :=
  if path =? "" then k else path ++ "." ++ k.

(** Modelled from the spec: the validation of the arguments, which the
    servers leave to the MCP SDK and to zod (§4.1, step 2: type check,
    required-field check, default substitution, a [ValidationError] carrying
    the path of the offending field). The validated object has the members
    of the shape, in its order. *)
Fixpoint parse (s : Schema) (path : string) (v : JValue) {struct s} : Exc JValue :=
  match s with
  | z_string =>
      match v with JStr _ => OK v | _ => Throw (ValidationError path) end
  | z_string_url =>
      match v with
      | JStr u => if is_url w u then OK v else Throw (ValidationError path)
      | _ => Throw (ValidationError path)
      end
  | z_number =>
      match v with JNum _ => OK v | _ => Throw (ValidationError path) end
  | z_boolean =>
      match v with JBool _ => OK v | _ => Throw (ValidationError path) end
  | z_array item =>
      match v with
      | JArr l =>
          match mapE (parse item (path ++ "[]")) l with
          | OK l' => OK (JArr l')
          | Throw e => Throw e
          end
      | _ => Throw (ValidationError path)
      end
  | z_object shape =>
      match v with
      | JObj fields =>
          let fix members (sh : list (string * Schema)) : Exc (list (string * JValue)) :=
            match sh with
            | [] => OK []
            | (k, sk) :: sh' =>
                match parse sk (member_path path k) (default JUndefined (assoc_get k fields)) with
                | Throw e => Throw e
                | OK x =>
                    match members sh' with
                    | Throw e => Throw e
                    | OK rest => OK ((k, x) :: rest)
                    end
                end
            end in
          match members shape with
          | OK l => OK (JObj l)
          | Throw e => Throw e
          end
      | _ => Throw (ValidationError path)
      end
  | z_optional inner =>
      match v with JUndefined => OK JUndefined | _ => parse inner path v end
  | z_default inner value =>
      match v with JUndefined => OK value | _ => parse inner path v end
  end.

Definition validate (shape : list (string * Schema)) (rawArgs : JValue) : Exc Args :=
  match parse (z_object shape) "" rawArgs with
  | OK (JObj l) => OK l
  | OK _ => Throw (ValidationError "")
  | Throw e => Throw e
  end.

(** ** The tool registry *)

(** A registered tool. The handler is kept as the source writes it: the
    statements of its [try] block and its [catch] block; [tool_catch] is
    [None] for a handler written without [try]. *)
Record Tool := {
  tool_name : string;
  tool_description : string;
  tool_schema : list (string * Schema);
  tool_try : Args -> M Result;
  tool_catch : option (JsError -> M Result)
}.

Definition tool_handler (t : Tool) (args : Args) : M Result :=
  match tool_catch t with
  | Some catch => try_catch (tool_try t args) catch
  | None => tool_try t args
  end.

Definition programId_schema : list (string * Schema) := [("programId", z_string)].

Definition generateSecurityTxt_schema : list (string * Schema) :=
  [("name", z_string); ("project_url", z_string_url); ("contacts", z_string);
   ("policy", z_string); ("preferred_languages", z_optional z_string);
   ("encryption", z_optional z_string); ("source_code", z_optional z_string_url);
   ("source_release", z_optional z_string); ("source_revision", z_optional z_string);
   ("auditors", z_optional z_string); ("acknowledgements", z_optional z_string);
   ("expiry", z_optional z_string)].

Definition testProgramIdl_schema : list (string * Schema) :=
  [("programId", z_string); ("inputJson", z_string); ("instructionName", z_string)].

Definition getDuneSolanaData_schema : list (string * Schema) :=
  [("programId", z_string); ("days", z_default (z_optional z_number) (JNum 10))].

Definition buildTransaction_schema : list (string * Schema) :=
  [("instructions",
    z_array (z_object
      [("programId", z_string);
       ("keys", z_array (z_object [("pubkey", z_string); ("isSigner", z_boolean);
                                   ("isWritable", z_boolean)]));
       ("data", z_string)]));
   ("recentBlockhash", z_optional z_string)].

Definition submitTransaction_schema : list (string * Schema) :=
  [("serializedTransaction", z_string);
   ("skipPreflight", z_default (z_optional z_boolean) (JBool false))].

Definition tool_getAccountInfo : Tool :=
  {| tool_name := "getAccountInfo";
     tool_description :=
       "Used to look up account info by public key (32 byte base58 encoded address)";
     tool_schema := [("publicKey", z_string)];
     tool_try := getAccountInfo_body;
     tool_catch := Some catch_error |}.

Definition tool_getBalance : Tool :=
  {| tool_name := "getBalance";
     tool_description :=
       "Used to look up balance by public key (32 byte base58 encoded address)";
     tool_schema := [("publicKey", z_string)];
     tool_try := getBalance_body;
     tool_catch := Some catch_error |}.

Definition tool_getMinimumBalanceForRentExemption : Tool :=
  {| tool_name := "getMinimumBalanceForRentExemption";
     tool_description :=
       "Used to look up minimum balance required for rent exemption by data size";
     tool_schema := [("dataSize", z_number)];
     tool_try := getMinimumBalanceForRentExemption_body;
     tool_catch := Some catch_error |}.

Definition tool_getTransaction : Tool :=
  {| tool_name := "getTransaction";
     tool_description :=
       "Used to look up transaction by signature (64 byte base58 encoded string)";
     tool_schema := [("signature", z_string)];
     tool_try := getTransaction_body;
     tool_catch := Some catch_error |}.

Definition tool_getPriorityFee : Tool :=
  {| tool_name := "getPriorityFee";
     tool_description := "Used to look up priority fee Transaction Info";
     tool_schema := [("serealizedTransaction", z_string)];
     tool_try := getPriorityFee_body;
     tool_catch := Some catch_error |}.

Definition tool_getPriorityFee_sse : Tool :=
  {| tool_name := "getPriorityFee";
     tool_description := "Used to look up priority fee Transaction Info";
     tool_schema := [("serializedTransaction", z_string)];
     tool_try := getPriorityFee_sse_body;
     tool_catch := Some catch_error |}.

Definition tool_generateSecurityTxt : Tool :=
  {| tool_name := "generateSecurityTxt";
     tool_description := "Generate security.txt content for Solana programs";
     tool_schema := generateSecurityTxt_schema;
     tool_try := generateSecurityTxt_handler;
     tool_catch := None |}.

Definition tool_getProgramIdl : Tool :=
  {| tool_name := "getProgramIdl";
     tool_description := "Used to fetch the IDL for a Solana program";
     tool_schema := programId_schema;
     tool_try := getProgramIdl_body;
     tool_catch := Some catch_log_error |}.

Definition tool_createGPAFilters : Tool :=
  {| tool_name := "createGPAFilters";
     tool_description :=
       "Used to create get Program Accounts filters for a Solana program based on its IDL";
     tool_schema := programId_schema;
     tool_try := createGPAFilters_body;
     tool_catch := Some catch_log_error |}.

Definition tool_testProgramIdl : Tool :=
  {| tool_name := "testProgramIdl";
     tool_description := "Test a Solana program IDL with input JSON";
     tool_schema := testProgramIdl_schema;
     tool_try := testProgramIdl_body;
     tool_catch := Some catch_log_error |}.

Definition tool_testProgramIdl_sse : Tool :=
  {| tool_name := "testProgramIdl";
     tool_description := "Test a Solana program IDL with input JSON";
     tool_schema := testProgramIdl_schema;
     tool_try := testProgramIdl_sse_body;
     tool_catch := Some testProgramIdl_sse_catch |}.

Definition tool_lookupProgramAuth : Tool :=
  {| tool_name := "lookupProgramAuth";
     tool_description := "Checks the program authority for a given program ID";
     tool_schema := programId_schema;
     tool_try := lookupProgramAuth_body;
     tool_catch := Some catch_error |}.

Definition tool_lookupProgramAuth_sse : Tool :=
  {| tool_name := "lookupProgramAuth";
     tool_description := "Checks the program authority for a given program ID";
     tool_schema := programId_schema;
     tool_try := lookupProgramAuth_sse_body;
     tool_catch := Some catch_error |}.

Definition tool_checkupProgram : Tool :=
  {| tool_name := "checkupProgram";
     tool_description := "Checks if a program has verified build, security.txt";
     tool_schema := programId_schema;
     tool_try := checkupProgram_body;
     tool_catch := Some catch_log_error |}.

Definition tool_checkProgramDeployment : Tool :=
  {| tool_name := "checkProgramDeployment";
     tool_description := "Checks various aspects of a Solana program deployment";
     tool_schema := programId_schema;
     tool_try := checkProgramDeployment_body;
     tool_catch := Some catch_log_error |}.

Definition tool_createCPI : Tool :=
  {| tool_name := "createCPI";
     tool_description := "Generate an example CPI statement for a given Solana program";
     tool_schema := [("programId", z_string); ("instructionName", z_string)];
     tool_try := createCPI_body;
     tool_catch := Some catch_error |}.

Definition tool_getDuneSolanaData : Tool :=
  {| tool_name := "getDuneSolanaData";
     tool_description := "Fetch Solana program data from Dune Analytics";
     tool_schema := getDuneSolanaData_schema;
     tool_try := getDuneSolanaData_body;
     tool_catch := Some getDuneSolanaData_catch |}.

Definition tool_buildTransaction : Tool :=
  {| tool_name := "buildTransaction";
     tool_description := "Build a transaction from a list of instructions";
     tool_schema := buildTransaction_schema;
     tool_try := buildTransaction_body;
     tool_catch := Some catch_log_error |}.

Definition tool_submitTransaction : Tool :=
  {| tool_name := "submitTransaction";
     tool_description := "Submit a serialized transaction to the Solana blockchain";
     tool_schema := submitTransaction_schema;
     tool_try := submitTransaction_body;
     tool_catch := Some submitTransaction_catch |}.

Definition tool_analyzeTransaction : Tool :=
  {| tool_name := "analyzeTransaction";
     tool_description := "Fetch and analyze transaction details using Helius API";
     tool_schema := [("signature", z_string)];
     tool_try := analyzeTransaction_body;
     tool_catch := Some catch_error |}.

(** The two servers. *)
Inductive Variant := Stdio | EventStream.

(** The calls of [server.tool], in the order of the source. *)
Definition registrations (v : Variant) : list Tool :=
  match v with
  | Stdio =>
      [tool_getAccountInfo; tool_getBalance; tool_getMinimumBalanceForRentExemption;
       tool_getTransaction; tool_getPriorityFee; tool_generateSecurityTxt;
       tool_getProgramIdl; tool_createGPAFilters; tool_testProgramIdl;
       tool_lookupProgramAuth; tool_checkupProgram; tool_checkProgramDeployment;
       tool_createCPI; tool_getDuneSolanaData]
  | EventStream =>
      [tool_getAccountInfo; tool_getBalance; tool_getMinimumBalanceForRentExemption;
       tool_getTransaction; tool_getPriorityFee_sse; tool_generateSecurityTxt;
       tool_getProgramIdl; tool_createGPAFilters; tool_testProgramIdl_sse;
       tool_lookupProgramAuth_sse; tool_checkupProgram; tool_checkProgramDeployment;
       tool_createCPI; tool_getDuneSolanaData; tool_buildTransaction;
       tool_submitTransaction; tool_analyzeTransaction]
  end.

Definition lookup_tool (registry : list Tool) (name : string) : option Tool :=
  List.find (fun t => tool_name t =? name) registry.

(** Modelled from the spec: [register] of the tool registry, which is the
    MCP SDK's (§4.1: it fails with a [DuplicateNameError] when the name
    exists). *)
Definition register (registry : list Tool) (t : Tool) : Exc (list Tool) :=
  match lookup_tool registry (tool_name t) with
  | Some _ => Throw (mkError "DuplicateNameError" (tool_name t))
  | None => OK (registry ++ [t])%list
  end.

Fixpoint register_all (registry : list Tool) (ts : list Tool) : Exc (list Tool) :=
  match ts with
  | [] => OK registry
  | t :: ts' =>
      match register registry t with
      | Throw e => Throw e
      | OK registry' => register_all registry' ts'
      end
  end.

(** Starting a server: its tools are registered one after the other. *)
Definition startup (v : Variant) : Exc (list Tool) :=
  register_all [] (registrations v).

(** Modelled from the spec: [dispatch] of the tool registry, which is the
    MCP SDK's (§4.1, steps 1 to 3: look the tool up, validate the arguments
    against its schema, invoke the handler). A [Throw] of [dispatch] is a
    fault that leaves the dispatch boundary; catching what the handler
    raises (step 4) is done by the handlers themselves. *)
Definition dispatch_in (registry : list Tool) (name : string) (rawArgs : JValue) : M Result :=
  match lookup_tool registry name with
  | None => throw (UnknownToolError name)
  | Some t =>
      match validate (tool_schema t) rawArgs with
      | Throw e => throw e
      | OK args => tool_handler t args
      end
  end.

Definition dispatch (v : Variant) (name : string) (rawArgs : JValue) : M Result :=
  dispatch_in (registrations v) name rawArgs.

(** ** Prompts *)

Record Message := { role : string; msg_content : ContentItem }.

Record Prompt := {
  prompt_name : string;
  prompt_description : string;
  prompt_schema : list (string * Schema);
  prompt_template : Args -> list Message
}.

Definition user_text (s : string) : list Message :=
  [{| role := "user"; msg_content := text_item s |}].

Definition prompt_calculate_storage_deposit : Prompt :=
  {| prompt_name := "calculate-storage-deposit";
     prompt_description := "Calculate storage deposit for a specified number of bytes";
     prompt_schema := [("bytes", z_string)];
     prompt_template := fun args =>
       user_text ("Calculate the SOL amount needed to store " ++ arg_str args "bytes" ++
                  " bytes of data on Solana using getMinimumBalanceForRentExemption.") |}.

Definition prompt_minimum_amount_of_sol_for_storage : Prompt :=
  {| prompt_name := "minimum-amount-of-sol-for-storage";
     prompt_description :=
       "Calculate the minimum amount of SOL needed for storing 0 bytes on-chain";
     prompt_schema := [];
     prompt_template := fun _ =>
       user_text ("Calculate the amount of SOL needed to store 0 bytes of data on Solana using getMinimumBalanceForRentExemption & present it to the user as the minimum cost for storing any data on Solana.") |}.

Definition prompt_why_did_my_transaction_fail : Prompt :=
  {| prompt_name := "why-did-my-transaction-fail";
     prompt_description :=
       "Look up the given transaction and inspect its logs to figure out why it failed";
     prompt_schema := [("signature", z_string)];
     prompt_template := fun args =>
       user_text ("Look up the transaction with signature " ++ arg_str args "signature" ++
                  " and inspect its logs to figure out why it failed.") |}.

Definition prompt_how_much_did_this_transaction_cost : Prompt :=
  {| prompt_name := "how-much-did-this-transaction-cost";
     prompt_description :=
       "Fetch the transaction by signature, and break down cost & priority fees";
     prompt_schema := [("signature", z_string)];
     prompt_template := fun args =>
       user_text ("Calculate the network fee for the transaction with signature " ++
                  arg_str args "signature" ++
                  " by fetching it and inspecting the 'fee' field in 'meta'. Base fee is 0.000005 sol per signature (also provided as array at the end). So priority fee is fee - (numSignatures * 0.000005). Please provide the base fee and the priority fee.") |}.

Definition prompt_what_happened_in_transaction : Prompt :=
  {| prompt_name := "what-happened-in-transaction";
     prompt_description :=
       "Look up the given transaction and inspect its logs & instructions to figure out what happened";
     prompt_schema := [("signature", z_string)];
     prompt_template := fun args =>
       user_text ("Look up the transaction with signature " ++ arg_str args "signature" ++
                  " and inspect its logs & instructions to figure out what happened.") |}.

(** The calls of [server.prompt], the same in both servers. *)
Definition prompts : list Prompt :=
  [prompt_calculate_storage_deposit; prompt_minimum_amount_of_sol_for_storage;
   prompt_why_did_my_transaction_fail; prompt_how_much_did_this_transaction_cost;
   prompt_what_happened_in_transaction].

(** Modelled from the spec: [render] of the prompt registry, which is the
    MCP SDK's (§4.4: it fails with [UnknownPromptError] when the name is
    absent, otherwise substitutes the validated parameters into the
    template). *)
Definition render (name : string) (params : JValue) : Exc (list Message) :=
  match List.find (fun p => prompt_name p =? name) prompts with
  | None => Throw (UnknownPromptError name)
  | Some p =>
      match validate (prompt_schema p) params with
      | Throw e => Throw e
      | OK args => OK (prompt_template p args)
      end
  end.

End Handlers.

(** ** The endpoints of the event-stream server *)

Module Endpoints.

Record HttpResponse := { status : Z; body : string }.

(** A request to one of the two routes; the body of a [POST] is the JSON
    document sent with it. *)
Inductive Request :=
| GET_sse
| POST_messages (body : JValue).

(** The state the two endpoints share: the variable [transport] ([None] for
    [null], otherwise the stream it was created on, numbered in the order of
    opening), the number of streams opened, the messages handed to a
    transport with the stream each went to, and what was written to the
    log. *)
Record State := {
  transport : option nat;
  streams : nat;
  delivered : list (nat * JValue);
  file_log : list string
}.

(** [let transport: SSEServerTransport | null = null;] *)
Definition initial : State :=
  {| transport := None; streams := 0; delivered := []; file_log := [] |}.

Section Step.

Variable w : World.

(** The answer [transport.handlePostMessage] of the SDK sends for a message
    handed to the transport of a stream. *)
Variable handlePostMessage : nat -> JValue -> HttpResponse.

(** The page Express sends with the status 400 for a body that its JSON
    parser refuses. *)
Variable bad_request : JValue -> string.

(** [app.use(express.json())], installed in front of the routes, in its
    default strict mode: a document that is an object or an array becomes
    [req.body]; any other document is refused. *)
Definition express_json (body : JValue) : option JValue :=
  match body with
  | JObj _ | JArr _ => Some body
  | _ => None
  end.

(** [app.get("/sse", ...)]: a new transport on the response of this request
    replaces the previous one; the response stays open. *)
Definition get_sse (s : State) : State * option HttpResponse :=
  ({| transport := Some (streams s); streams := S (streams s);
      delivered := delivered s; file_log := file_log s |}, None).

(** [app.post("/messages", ...)] on the parsed body. Nothing in its [try]
    block throws on a body parsed by [express.json()], so its [catch] block
    is not reached. *)
Definition post_messages (s : State) (body : JValue) : State * option HttpResponse :=
  let logged := push (file_log s) ("Received message: " ++ JSON_stringify w false body) in
  match transport s with
  | Some t =>
      ({| transport := transport s; streams := streams s;
          delivered := (delivered s ++ [(t, body)])%list; file_log := logged |},
       Some (handlePostMessage t body))
  | None =>
      ({| transport := transport s; streams := streams s;
          delivered := delivered s; file_log := logged |},
       Some {| status := 500; body := "SSE transport not initialized" |})
  end.

(** One request: a [POST] passes [express.json()] first, which answers 400
    itself, before the route is reached, for a body it refuses. *)
Definition step (s : State) (r : Request) : State * option HttpResponse :=
  match r with
  | GET_sse => get_sse s
  | POST_messages document =>
      match express_json document with
      | Some parsed => post_messages s parsed
      | None => (s, Some {| status := 400; body := bad_request document |})
      end
  end.

(** The state after a sequence of requests, and the answers given. *)
Fixpoint run (s : State) (rs : list Request) : State * list (option HttpResponse) :=
  match rs with
  | [] => (s, [])
  | r :: rs' =>
      let '(s1, a) := step s r in
      let '(s2, answers) := run s1 rs' in
      (s2, a :: answers)
  end.

End Step.

Definition is_GET_sse (r : Request) : bool :=
  match r with GET_sse => true | _ => false end.

End Endpoints.

(** ** A mock of the collaborators *)

Module Mocks.

(** Compact printing of a JSON value, standing for [JSON.stringify]. *)
Fixpoint stringify (v : JValue) : string :=
  match v with
  | JUndefined => "undefined"
  | JNull => "null"
  | JBool true => "true"
  | JBool false => "false"
  | JNum z => Z_toString z
  | JStr s => dquote ++ s ++ dquote
  | JArr l => "[" ++ join "," (map stringify l) ++ "]"
  | JObj fields =>
      "{" ++ join "," (map (fun kv => let '(k, x) := kv in
                                      dquote ++ k ++ dquote ++ ":" ++ stringify x)
                           fields) ++ "}"
  end.

(** What the mocked services hold. *)
Record Setup := {
  accounts_of : list (Bytes * AccountInfo);
  balance_of : Bytes -> Exc Z;
  transaction_of : string -> Exc JValue;
  idl_of : Bytes -> Exc (option Idl);
  documents : list (string * JValue);
  account_lookup_fails : list Bytes;
  encoded_instruction : Bytes
}.

Fixpoint lookup_bytes {A} (k : Bytes) (l : list (Bytes * A)) : option A :=
  match l with
  | [] => None
  | (k', v) :: l' => if bool_decide (k' = k) then Some v else lookup_bytes k l'
  end.

Definition not_mocked {A} : Exc A := Throw (Error_ "not mocked").

(** Public keys are mocked by the characters of their text: a key is its
    non-empty text, and the text of a key is its bytes read as characters. *)
Definition mock_PublicKey_new (v : JValue) : Exc PublicKey :=
  match v with
  | JStr s => if s =? "" then Throw (Error_ "Invalid public key input")
              else OK (PK (Buffer_from s))
  | _ => Throw (Error_ "Invalid public key input")
  end.

Definition mock_BN_new (v : JValue) : Exc Z :=
  match v with
  | JNum z => OK z
  | JUndefined => OK 0%Z
  | _ => Throw (Error_ "Invalid character")
  end.

Definition world (m : Setup) : World :=
  {| PublicKey_new := mock_PublicKey_new;
     PublicKey_fromBuffer := fun b => OK (PK b);
     toBase58 := fun p => Buffer_toString (toBuffer p);
     findProgramAddress := fun seeds p => OK (PK (concat seeds ++ toBuffer p)%list);
     isOnCurve := fun _ => OK true;
     Keypair_fromSecretKey := fun b => OK {| publicKey := PK b; secretKey := b |};
     bs58_decode := fun s => if s =? "" then Throw (Error_ "Non-base58 character")
                             else OK (Buffer_from s);
     bs58_encode := Buffer_toString;
     BN_new := mock_BN_new;
     BN_toString := Z_toString;
     BN_toJSON := fun z => JStr (Z_toString z);
     Program_new := fun _ _ => OK tt;
     instruction_encode := fun _ _ => OK (encoded_instruction m);
     accountDiscriminator := fun name => firstn 8 (Buffer_from name);
     Transaction_partialSign := fun tx _ => OK tx;
     Transaction_serialize := fun _ _ _ => OK [];
     Transaction_from := fun _ => OK Transaction_new;
     JSON_parse := fun s => match assoc_get s (documents m) with
                            | Some v => OK v
                            | None => Throw (mkError "SyntaxError" "Unexpected token")
                            end;
     JSON_stringify := fun _ v => stringify v;
     stringify_accountInfo := fun a => match a with
                                       | None => "null"
                                       | Some a => Z_toString (lamports a)
                                       end;
     stringify_instruction := fun _ => "{}";
     stringify_transaction := fun _ => "{}";
     Number_toString_inexact := fun z _ => Z_toString z;
     String_toLowerCase := fun s => s;
     earliest_rejection := fun _ => 0;
     Buffer_from_base64 := Buffer_from;
     Buffer_toBase64 := Buffer_toString;
     Date_toISOString := fun t => OK (Z_toString t);
     is_url := fun _ => true;
     rpc_getAccountInfo := fun _ p =>
       if bool_decide (toBuffer p ∈ account_lookup_fails m)
       then Throw (Error_ "fetch failed")
       else OK (lookup_bytes (toBuffer p) (accounts_of m));
     rpc_getBalance := fun _ p => balance_of m (toBuffer p);
     rpc_getMinimumBalanceForRentExemption := fun _ n => OK (n * 6960 + 890880)%Z;
     rpc_getParsedTransaction := fun _ s => transaction_of m s;
     rpc_getSignaturesForAddress := fun _ _ _ => OK [];
     rpc_getLatestBlockhash := fun _ => OK "blockhash";
     rpc_simulateTransaction := fun _ _ => OK (JObj [("err", JNull)]);
     rpc_sendAndConfirmRawTransaction := fun _ _ _ => OK "signature";
     anchor_fetchIdl := fun _ p => idl_of m (toBuffer p);
     http_fetch := fun _ _ _ _ => not_mocked;
     dune_runQuery := fun _ _ _ _ => not_mocked;
     solanaprogram_createCPI := fun _ _ _ => not_mocked |}.

Definition empty_setup : Setup :=
  {| accounts_of := [];
     balance_of := fun _ => not_mocked;
     transaction_of := fun _ => not_mocked;
     idl_of := fun _ => OK None;
     documents := [];
     account_lookup_fails := [];
     encoded_instruction := [] |}.

Definition no_effects : Effects := {| log := []; net := [] |}.

End Mocks.

(** * Vocabulary of the statements *)

(** A computation that always comes back with a value. *)
Definition total {A} (c : M A) : Prop :=
  forall s, exists a s', c s = (OK a, s').

(** [sub] occurs in [s]. *)
Definition contains (sub s : string) : Prop :=
  exists before after, s = before ++ sub ++ after.

(** A result carries at least one item, and its items are text. *)
Definition well_formed (r : Result) : Prop :=
  content r <> [] /\ Forall (fun c => ctype c = "text") (content r).

(** The one handler whose catch block returns more than the error text. *)
Definition adds_input_help (v : Variant) (name : string) : bool :=
  match v with
  | EventStream => name =? "testProgramIdl"
  | Stdio => false
  end.

(** The handlers that read a credential: the tool, the variable, and the
    text returned when the variable is not set. *)
Definition credential_checks (v : Variant) : list (string * string * string) :=
  match v with
  | Stdio =>
      [("getPriorityFee", "HELIUS_RPC_URL",
        "Error: HELIUS_RPC_URL environment variable is not set");
       ("testProgramIdl", "PAYER_PRIVATE_KEY",
        "Error: PAYER_PRIVATE_KEY not found in environment variables");
       ("getDuneSolanaData", "DUNE_API_KEY",
        "Error: DUNE_API_KEY is not set in the environment variables")]
  | EventStream =>
      [("getPriorityFee", "HELIUS_API_KEY",
        "Error: HELIUS_API_KEY environment variable is not set");
       ("testProgramIdl", "PAYER_PRIVATE_KEY",
        "No IDL found for the given program ID.");
       ("getDuneSolanaData", "DUNE_API_KEY",
        "Error: DUNE_API_KEY is not set in the environment variables");
       ("buildTransaction", "PAYER_PRIVATE_KEY",
        "Error: PAYER_PRIVATE_KEY not found in environment variables");
       ("analyzeTransaction", "HELIUS_API_KEY",
        "Error: HELIUS_API_KEY not found in environment variables")]
  end.

(** Two states of the endpoints that differ in the log only. *)
Definition same_routing (s s' : Endpoints.State) : Prop :=
  Endpoints.transport s = Endpoints.transport s' /\
  Endpoints.streams s = Endpoints.streams s' /\
  Endpoints.delivered s = Endpoints.delivered s'.

(** What the collaborators answer along the lookups both handlers make: the
    key of the program, its account, the address in bytes 4 to 36 of its
    data, and the account at that address. *)
Inductive AuthorityLookup :=
| LookupFailed (e : JsError)
| ProgramMissing
| ProgramDataMissing
| ProgramDataFound (programData : AccountInfo).

Definition authority_lookup (w : World) (programId : JValue) (s : Effects) : AuthorityLookup :=
  match PublicKey_new w programId with
  | Throw e => LookupFailed e
  | OK programPubkey =>
      match rpc_getAccountInfo w (net s) programPubkey with
      | Throw e => LookupFailed e
      | OK None => ProgramMissing
      | OK (Some programInfo) =>
          match PublicKey_fromBuffer w (slice 4 36 (data programInfo)) with
          | Throw e => LookupFailed e
          | OK programDataAddress =>
              match rpc_getAccountInfo w (net s ++ [GetAccountInfo programPubkey])
                                       programDataAddress with
              | Throw e => LookupFailed e
              | OK None => ProgramDataMissing
              | OK (Some programData) => ProgramDataFound programData
              end
          end
      end
  end.

(** What a source of IDLs yields. *)
Inductive Yield :=
| Found (idl : JValue)
| Nothing
| Failed (e : JsError).

(** The primary source, Anchor's [fetchIdl]: the handler swallows its
    failure in a [try] of its own. *)
Definition primary_yield (r : Exc (option Idl)) : Yield :=
  match r with
  | OK (Some idl) => Found (idl_json idl)
  | OK None => Nothing
  | Throw _ => Nothing
  end.

(** An account that holds the IDL as JSON text after [skip] bytes. *)
Definition account_yield (w : World) (skip : nat) (address : Exc PublicKey)
    (getAccountInfo : PublicKey -> Exc (option AccountInfo)) : Yield :=
  match address with
  | Throw e => Failed e
  | OK a =>
      match getAccountInfo a with
      | Throw e => Failed e
      | OK None => Nothing
      | OK (Some account) =>
          match JSON_parse w (Buffer_toString (slice_from skip (data account))) with
          | OK idl => Found idl
          | Throw e => Failed e
          end
      end
  end.

(** The addresses of the second and of the third source. *)
Definition derived_address (w : World) (pk : PublicKey) : Exc PublicKey :=
  findProgramAddress w [Buffer_from "anchor:idl"; toBuffer pk] pk.

Definition shank_address (w : World) (pk : PublicKey) : Exc PublicKey :=
  match PublicKey_new w (JStr SHANK_PROGRAM) with
  | Throw e => Throw e
  | OK shank => findProgramAddress w [Buffer_from "shank:idl"; toBuffer pk] shank
  end.

(** The three sources in the order of the handler, each with the answer the
    collaborators give at the moment it is consulted. *)
Definition idl_sources (w : World) (s : Effects) (pk : PublicKey) : list Yield :=
  let after_primary := (net s ++ [FetchIdl pk])%list in
  [primary_yield (anchor_fetchIdl w (net s) pk);
   account_yield w 8 (derived_address w pk) (rpc_getAccountInfo w after_primary);
   match derived_address w pk with
   | OK a => account_yield w 0 (shank_address w pk)
               (rpc_getAccountInfo w (after_primary ++ [GetAccountInfo a])%list)
   | Throw e => Failed e
   end].

(** The first IDL found in a list of sources consulted in order; a source
    that fails ends the search. *)
Fixpoint first_found (sources : list Yield) : Yield :=
  match sources with
  | [] => Nothing
  | Found idl :: _ => Found idl
  | Nothing :: rest => first_found rest
  | Failed e :: _ => Failed e
  end.

(** The result the handler returns for what the search yields. *)
Definition idl_report (w : World) (y : Yield) : Result :=
  match y with
  | Found idl => result [text_item (JSON_stringify w true idl)]
  | Nothing => result [text_item "No IDL found for the given program ID."]
  | Failed e => error_result e
  end.

(** The calls the search makes: a source is consulted only when the ones
    before it yielded nothing. *)
Definition idl_calls (w : World) (s : Effects) (pk : PublicKey) : list NetCall :=
  let after_primary := (net s ++ [FetchIdl pk])%list in
  FetchIdl pk ::
  match primary_yield (anchor_fetchIdl w (net s) pk), derived_address w pk with
  | Nothing, OK a =>
      GetAccountInfo a ::
      match account_yield w 8 (OK a) (rpc_getAccountInfo w after_primary),
            shank_address w pk with
      | Nothing, OK a' => [GetAccountInfo a']
      | _, _ => []
      end
  | _, _ => []
  end.

(** No supplied entry carries the name. *)
Definition not_named (name : string) (a : JValue) : Prop :=
  exists fields, a = JObj fields /\ assoc_get "name" fields <> Some (JStr name).

(** * Sample worlds and inputs *)

(** A mock in which the key "K" holds 1_000_000_000 lamports and every
    transaction lookup throws "not found". *)
Definition one_sol_setup : Mocks.Setup :=
  {| Mocks.accounts_of := [];
     Mocks.balance_of := fun b => if bool_decide (b = Buffer_from "K")
                                  then OK 1000000000%Z else Mocks.not_mocked;
     Mocks.transaction_of := fun _ => Throw (Error_ "not found");
     Mocks.idl_of := fun _ => OK None;
     Mocks.documents := [];
     Mocks.account_lookup_fails := [];
     Mocks.encoded_instruction := [] |}.

(** The effects of a server that has already answered one call. *)
Definition after_one_call : Effects :=
  {| log := ["earlier line"]; net := [GetBalance (PK (Buffer_from "K"))] |}.

(** A transport that accepts every message handed to it. *)
Definition accepted (t : nat) (m : JValue) : Endpoints.HttpResponse :=
  {| Endpoints.status := 202; Endpoints.body := "Accepted" |}.

(** The page sent for a refused body. *)
Definition bad_request_page (document : JValue) : string := "Bad Request".

(** An environment that holds the key of the payer only. *)
Definition payer_env : gmap string string := {["PAYER_PRIVATE_KEY" := "payer"]}.

(** Arguments the schema of [testProgramIdl] accepts, with a program
    identifier that is not a public key. *)
Definition testProgramIdl_bad_program : JValue :=
  JObj [("programId", JStr ""); ("inputJson", JStr "{}"); ("instructionName", JStr "x")].

(** A program whose data account holds the authority "A" repeated 32 times
    in bytes 13 to 45, behind a header of 13 bytes. *)
Definition program_data_sample : Bytes :=
  map Z.of_nat ([3; 0; 0; 0] ++ [9; 0; 0; 0; 0; 0; 0; 0] ++ [1] ++ repeat 65 32)%list.

(** The program "P" points to the program-data account "D". *)
Definition authority_setup : Mocks.Setup :=
  {| Mocks.accounts_of :=
       [(Buffer_from "P",
         {| data := (map Z.of_nat [2; 0; 0; 0] ++ Buffer_from "D")%list; owner := PK [];
            lamports := 1; executable := true |});
        (Buffer_from "D",
         {| data := program_data_sample; owner := PK [];
            lamports := 1; executable := false |})];
     Mocks.balance_of := fun _ => Mocks.not_mocked;
     Mocks.transaction_of := fun _ => Mocks.not_mocked;
     Mocks.idl_of := fun _ => OK None;
     Mocks.documents := [];
     Mocks.account_lookup_fails := [];
     Mocks.encoded_instruction := [] |}.

(** The derived address of the program "P" cannot be looked up, and the
    Shank registry holds an IDL for it. *)
Definition shank_idl_address : Bytes :=
  (Buffer_from "shank:idl" ++ Buffer_from "P" ++ Buffer_from SHANK_PROGRAM)%list.

Definition failing_derived_lookup : Mocks.Setup :=
  {| Mocks.accounts_of :=
       [(shank_idl_address,
         {| data := Buffer_from "{}"; owner := PK []; lamports := 1;
            executable := false |})];
     Mocks.balance_of := fun _ => Mocks.not_mocked;
     Mocks.transaction_of := fun _ => Mocks.not_mocked;
     Mocks.idl_of := fun _ => OK None;
     Mocks.documents := [("{}", JObj [])];
     Mocks.account_lookup_fails :=
       [(Buffer_from "anchor:idl" ++ Buffer_from "P" ++ Buffer_from "P")%list];
     Mocks.encoded_instruction := [] |}.

(** A program with two instructions: [deposit], with two accounts and two
    arguments, and [ping], with none. The input supplies one account and
    three arguments. *)
Definition deposit_instruction : IdlInstruction :=
  {| ix_name := "deposit";
     ix_accounts :=
       [{| acc_name := "vault"; acc_isSigner := Some false; acc_isMut := Some true |};
        {| acc_name := "authority"; acc_isSigner := Some true; acc_isMut := Some false |}];
     ix_args :=
       [{| field_name := "amount"; field_type := JStr "u64" |};
        {| field_name := "memo"; field_type := JStr "string" |}] |}.

Definition ping_instruction : IdlInstruction :=
  {| ix_name := "ping"; ix_accounts := []; ix_args := [] |}.

Definition sample_idl : Idl :=
  {| idl_json := JObj [("name", JStr "sample")];
     idl_instructions := [deposit_instruction; ping_instruction];
     idl_accounts := None |}.

Definition sample_input : JValue :=
  JObj [("accounts", JArr [JObj [("name", JStr "vault"); ("pubkey", JStr "V")]]);
        ("args", JArr [JObj [("name", JStr "amount"); ("value", JNum 258)];
                       JObj [("name", JStr "fee"); ("value", JNum 7)];
                       JObj [("name", JStr "tip"); ("value", JNum 9)]])].

Definition simulation_setup : Mocks.Setup :=
  {| Mocks.accounts_of := [];
     Mocks.balance_of := fun _ => Mocks.not_mocked;
     Mocks.transaction_of := fun _ => Mocks.not_mocked;
     Mocks.idl_of := fun _ => OK (Some sample_idl);
     Mocks.documents := [("input", sample_input)];
     Mocks.account_lookup_fails := [];
     Mocks.encoded_instruction := map Z.of_nat [11; 12; 13; 14; 15; 16; 17; 18; 19; 20] |}.

Definition sample_payer : Keypair :=
  {| publicKey := PK (Buffer_from "payer"); secretKey := Buffer_from "payer" |}.

(** The data expected for [deposit]: eight bytes of the encoded instruction,
    then 258 on eight bytes, least significant first. *)
Definition sample_data : Bytes :=
  map Z.of_nat [11; 12; 13; 14; 15; 16; 17; 18; 2; 1; 0; 0; 0; 0; 0; 0].

Definition sample_transaction : Transaction :=
  {| tx_instructions :=
       [{| keys := [{| pubkey := PK (Buffer_from "V"); isSigner := false;
                       isWritable := true |};
                    {| pubkey := PK (Buffer_from "payer"); isSigner := true;
                       isWritable := false |}];
           programId := PK (Buffer_from "P");
           ix_data := sample_data |}];
     feePayer := Some (PK (Buffer_from "payer"));
     recentBlockhash := None;
     tx_signatures := [] |}.

(** * Resources *)

(** What a resource handler returns: [{ contents: [{ uri, text }] }]. *)
Record ResourceContent := { uri : string; resource_text : string }.

Record ResourceResult := { contents : list ResourceContent }.

(** The handler shared by the two [server.resource] registrations: the
    document at [url] is fetched and returned under the [href] of the URI
    that was asked for; its [catch] block returns the message of the error in
    place of the document. *)
Definition docs_resource_body (w : World) (url : string) (href : string) : M ResourceResult :=
  response <- fetch w url "GET" None ;;
  fileContent <- lift (resp_text response) ;;
  ret {| contents := [{| uri := href; resource_text := fileContent |}] |}.

Definition docs_resource_catch (href : string) (error : JsError) : M ResourceResult :=
  ret {| contents := [{| uri := href; resource_text := "Error: " ++ message error |}] |}.

Definition docs_resource (w : World) (url : string) (href : string) : M ResourceResult :=
  try_catch (docs_resource_body w url href) (docs_resource_catch href).

Record Resource := {
  resource_name : string;
  resource_template : string;
  resource_url : string
}.

Definition solanaDocsInstallation : Resource :=
  {| resource_name := "solanaDocsInstallation";
     resource_template := "solana://docs/intro/installation";
     resource_url :=
       "https://raw.githubusercontent.com/solana-foundation/solana-com/main/content/docs/intro/installation.mdx" |}.

Definition solanaDocsClusters : Resource :=
  {| resource_name := "solanaDocsClusters";
     resource_template := "solana://docs/references/clusters";
     resource_url :=
       "https://raw.githubusercontent.com/solana-foundation/solana-com/main/content/docs/references/clusters.mdx" |}.

(** The calls of [server.resource], the same in both servers. *)
Definition resources : list Resource := [solanaDocsInstallation; solanaDocsClusters].

Definition resource_read (w : World) (r : Resource) (href : string) : M ResourceResult :=
  docs_resource w (resource_url r) href.

(** The text a resource returns for what the fetch of its document gives. *)
Definition document_or_error (fetched : Exc Response) : string :=
  match fetched with
  | Throw e => "Error: " ++ message e
  | OK response =>
      match resp_text response with
      | OK fileContent => fileContent
      | Throw e => "Error: " ++ message e
      end
  end.

(** * Calls to the outside world made by a computation *)

(** The kind of a call. *)
Inductive CallKind :=
| KGetAccountInfo
| KGetBalance
| KGetMinimumBalanceForRentExemption
| KGetParsedTransaction
| KGetSignaturesForAddress
| KGetLatestBlockhash
| KSimulateTransaction
| KSendAndConfirmRawTransaction
| KFetchIdl
| KFetch
| KDuneRunQuery
| KCreateCPI.

Definition kind_of (c : NetCall) : CallKind :=
  match c with
  | GetAccountInfo _ => KGetAccountInfo
  | GetBalance _ => KGetBalance
  | GetMinimumBalanceForRentExemption _ => KGetMinimumBalanceForRentExemption
  | GetParsedTransaction _ => KGetParsedTransaction
  | GetSignaturesForAddress _ _ => KGetSignaturesForAddress
  | GetLatestBlockhash => KGetLatestBlockhash
  | SimulateTransaction _ => KSimulateTransaction
  | SendAndConfirmRawTransaction _ _ => KSendAndConfirmRawTransaction
  | FetchIdl _ => KFetchIdl
  | Fetch _ _ _ => KFetch
  | DuneRunQuery _ _ _ => KDuneRunQuery
  | CreateCPI _ _ => KCreateCPI
  end.

(** Whatever the collaborators answer and whatever the state it starts in,
    the computation only appends to the log and to the trace, and the calls
    it appends are at most [n], all of a kind in [kinds]. *)
Definition within (kinds : list CallKind) (n : nat) {A} (c : M A) : Prop :=
  forall s, exists lines calls,
    snd (c s) = {| log := (log s ++ lines)%list; net := (net s ++ calls)%list |} /\
    Forall (fun call => In (kind_of call) kinds) calls /\
    length calls <= n.

(** The kinds of calls the handler of a tool makes, and how many at most;
    the same in both servers. *)
Definition capabilities (name : string) : list CallKind * nat :=
  if name =? "getAccountInfo" then ([KGetAccountInfo], 1)
  else if name =? "getBalance" then ([KGetBalance], 1)
  else if name =? "getMinimumBalanceForRentExemption"
       then ([KGetMinimumBalanceForRentExemption], 1)
  else if name =? "getTransaction" then ([KGetParsedTransaction], 1)
  else if name =? "getPriorityFee" then ([KFetch], 1)
  else if name =? "getProgramIdl" then ([KFetchIdl; KGetAccountInfo], 3)
  else if name =? "createGPAFilters" then ([KFetchIdl], 1)
  else if name =? "testProgramIdl" then ([KFetchIdl; KSimulateTransaction], 2)
  else if name =? "lookupProgramAuth" then ([KGetAccountInfo], 2)
  else if name =? "checkupProgram" then ([KFetch; KGetAccountInfo], 3)
  else if name =? "checkProgramDeployment"
       then ([KGetAccountInfo; KFetchIdl; KFetch; KGetSignaturesForAddress], 6)
  else if name =? "createCPI" then ([KCreateCPI], 1)
  else if name =? "getDuneSolanaData" then ([KDuneRunQuery], 3)
  else if name =? "buildTransaction" then ([KGetLatestBlockhash], 1)
  else if name =? "submitTransaction" then ([KSendAndConfirmRawTransaction], 1)
  else if name =? "analyzeTransaction" then ([KFetch], 1)
  else ([], 0).

(** The calls that change something on the chain side: sending a
    transaction. *)
Definition is_send (c : NetCall) : bool :=
  match c with
  | SendAndConfirmRawTransaction _ _ => true
  | _ => false
  end.

Definition is_simulation (c : NetCall) : bool :=
  match c with
  | SimulateTransaction _ => true
  | _ => false
  end.

(** * Routing of the posted messages *)

(** The body is a JSON object or array, which is what a message of the
    protocol is. *)
Definition is_object_or_array (m : JValue) : bool :=
  match m with
  | JObj _ | JArr _ => true
  | _ => false
  end.

(** The messages a sequence of requests hands to transports, each with the
    stream it goes to, when [opened] streams have been opened before: a
    message that is an object or an array goes to the stream opened last,
    and nowhere when none was; any other body goes nowhere. *)
Fixpoint routed (opened : nat) (rs : list Endpoints.Request) : list (nat * JValue) :=
  match rs with
  | [] => []
  | Endpoints.GET_sse :: rs' => routed (S opened) rs'
  | Endpoints.POST_messages m :: rs' =>
      match opened with
      | O => routed O rs'
      | S k => if is_object_or_array m then (k, m) :: routed opened rs'
               else routed opened rs'
      end
  end.

(** [transport] holds the stream opened last. *)
Definition latest_stream (s : Endpoints.State) : Prop :=
  Endpoints.transport s =
  match Endpoints.streams s with
  | O => None
  | S k => Some k
  end.

(** * More sample worlds *)

(** A world that answers HTTP requests, Dune queries and signature lookups
    as given, and is [w] otherwise. *)
Definition with_services (w : World)
    (fetched : string -> Exc Response)
    (queried : Z -> Exc DuneResult)
    (signatures : list SignatureInfo) : World :=
  {| PublicKey_new := PublicKey_new w;
     PublicKey_fromBuffer := PublicKey_fromBuffer w;
     toBase58 := toBase58 w;
     findProgramAddress := findProgramAddress w;
     isOnCurve := isOnCurve w;
     Keypair_fromSecretKey := Keypair_fromSecretKey w;
     bs58_decode := bs58_decode w;
     bs58_encode := bs58_encode w;
     BN_new := BN_new w;
     BN_toString := BN_toString w;
     BN_toJSON := BN_toJSON w;
     Program_new := Program_new w;
     instruction_encode := instruction_encode w;
     accountDiscriminator := accountDiscriminator w;
     Transaction_partialSign := Transaction_partialSign w;
     Transaction_serialize := Transaction_serialize w;
     Transaction_from := Transaction_from w;
     JSON_parse := JSON_parse w;
     JSON_stringify := JSON_stringify w;
     stringify_accountInfo := stringify_accountInfo w;
     stringify_instruction := stringify_instruction w;
     stringify_transaction := stringify_transaction w;
     Number_toString_inexact := Number_toString_inexact w;
     String_toLowerCase := String_toLowerCase w;
     earliest_rejection := earliest_rejection w;
     Buffer_from_base64 := Buffer_from_base64 w;
     Buffer_toBase64 := Buffer_toBase64 w;
     Date_toISOString := Date_toISOString w;
     is_url := is_url w;
     rpc_getAccountInfo := rpc_getAccountInfo w;
     rpc_getBalance := rpc_getBalance w;
     rpc_getMinimumBalanceForRentExemption := rpc_getMinimumBalanceForRentExemption w;
     rpc_getParsedTransaction := rpc_getParsedTransaction w;
     rpc_getSignaturesForAddress := fun _ _ _ => OK signatures;
     rpc_getLatestBlockhash := rpc_getLatestBlockhash w;
     rpc_simulateTransaction := rpc_simulateTransaction w;
     rpc_sendAndConfirmRawTransaction := rpc_sendAndConfirmRawTransaction w;
     anchor_fetchIdl := anchor_fetchIdl w;
     http_fetch := fun _ url _ _ => fetched url;
     dune_runQuery := fun _ _ queryId _ => queried queryId;
     solanaprogram_createCPI := solanaprogram_createCPI w |}.

(** A response with status 200 and the given JSON body. *)
Definition ok_response (body : JValue) : Response :=
  {| resp_ok := true; resp_status := 200; resp_json := OK body;
     resp_text := OK (Mocks.stringify body) |}.

Definition dune_env : gmap string string := {["DUNE_API_KEY" := "dune-key"]}.

Definition helius_env : gmap string string := {["HELIUS_API_KEY" := "helius-key"]}.

(** The address [checkupProgram] and [checkProgramDeployment] ask
    verify.osec.io about. *)
Definition osec_url (programId : string) : string :=
  "https://verify.osec.io/status/" ++ programId.

(** A world in which the program "P" of [authority_setup] exists and
    verify.osec.io answers [{ is_verified: false }]. *)
Definition checkup_world : World :=
  with_services (Mocks.world authority_setup)
    (fun _ => OK (ok_response (JObj [("is_verified", JBool false)])))
    (fun _ => Mocks.not_mocked) [].

(** * Instructions of a built transaction *)

(** The account of an instruction built from the entry [key] of the
    request. *)
Definition converted_key (w : World) (key : JValue) (meta : AccountMeta) : Prop :=
  PublicKey_new w (member key "pubkey") = OK (pubkey meta) /\
  isSigner meta = as_bool (member key "isSigner") /\
  isWritable meta = as_bool (member key "isWritable").

(** The instruction built from the entry [ix] of the request. *)
Definition converted_instruction (w : World) (ix : JValue)
    (instruction : TransactionInstruction) : Prop :=
  PublicKey_new w (member ix "programId") = OK (programId instruction) /\
  bs58_decode w (as_string (member ix "data")) = OK (ix_data instruction) /\
  Forall2 (converted_key w) (elements (member ix "keys")) (keys instruction).

(** A request for one transfer-like instruction with two accounts. *)
Definition sample_build_args : Args :=
  [("instructions",
    JArr [JObj [("programId", JStr "P");
                ("keys", JArr [JObj [("pubkey", JStr "A"); ("isSigner", JBool true);
                                     ("isWritable", JBool true)];
                               JObj [("pubkey", JStr "B"); ("isSigner", JBool false);
                                     ("isWritable", JBool true)]]);
                ("data", JStr "data")]]);
   ("recentBlockhash", JUndefined)].

(** * Sensitive arguments *)

(** The name, whatever its case, holds one of the four keywords. *)
Definition sensitive_name (w : World) (name : string) : Prop :=
  exists keyword, In keyword ["key"; "secret"; "password"; "private"] /\
                  contains keyword (toLowerCase w name).

(** [arg] is an argument of an instruction of [idl]. *)
Definition declared_argument (idl : Idl) (arg : IdlField) : Prop :=
  exists ix, In ix (idl_instructions idl) /\ In arg (ix_args ix).

(** The line [checkProgramDeployment] writes for a sensitive argument. *)
Definition sensitive_line (w : World) (arg : IdlField) : string :=
  "  - " ++ field_name arg ++ " (" ++ js_String w (field_type arg) ++ ")".

(** * Properties *)

(** ** The monad *)

Lemma try_catch_OK {A} (body : M A) (handler : JsError -> M A) s a s' :
  body s = (OK a, s') -> try_catch body handler s = (OK a, s').
Proof. intros H. unfold try_catch. now rewrite H. Qed.

Lemma try_catch_Throw {A} (body : M A) (handler : JsError -> M A) s e s' :
  body s = (Throw e, s') -> try_catch body handler s = handler e s'.
Proof. intros H. unfold try_catch. now rewrite H. Qed.

Lemma bind_OK {A B} (c : M A) (k : A -> M B) s a s' :
  c s = (OK a, s') -> bind c k s = k a s'.
Proof. intros H. unfold bind. now rewrite H. Qed.

Lemma bind_Throw {A B} (c : M A) (k : A -> M B) s e s' :
  c s = (Throw e, s') -> bind c k s = (Throw e, s').
Proof. intros H. unfold bind. now rewrite H. Qed.

Lemma lift_bind {A B} (x : Exc A) (k : A -> M B) s :
  bind (lift x) k s = match x with OK a => k a s | Throw e => (Throw e, s) end.
Proof. unfold bind, lift. now destruct x. Qed.

Lemma bind_netcall {A B} (c : NetCall) (answer : list NetCall -> Exc A) (k : A -> M B)
    (s : Effects) :
  bind (netcall c answer) k s =
  match answer (net s) with
  | OK a => k a {| log := log s; net := (net s ++ [c])%list |}
  | Throw e => (Throw e, {| log := log s; net := (net s ++ [c])%list |})
  end.
Proof. unfold bind, netcall. now destruct (answer (net s)). Qed.

(** Case analysis on the innermost scrutinee of a [match] of the goal. *)
Ltac break_match :=
  match goal with
  | |- context [match ?x with _ => _ end] =>
      lazymatch x with
      | context [match _ with _ => _ end] => fail
      | _ => destruct x
      end
  end.

Ltac break_match_eq :=
  match goal with
  | |- context [match ?x with _ => _ end] =>
      lazymatch x with
      | context [match _ with _ => _ end] => fail
      | _ => destruct x eqn:?
      end
  end.

(** A [try] whose [catch] block always returns, always returns. *)
Lemma try_catch_total {A} (body : M A) (handler : JsError -> M A) :
  (forall e, total (handler e)) -> total (try_catch body handler).
Proof.
  intros Hh s. unfold try_catch.
  destruct (body s) as [[a | e] s1].
  - now exists a, s1.
  - apply Hh.
Qed.

(** ** getBalance and getTransaction end to end *)

(** C2. When the key [K] is a public key and the balance collaborator
    answers 1_000_000_000 lamports for it, [dispatch("getBalance",
    {publicKey: K})] returns, in both servers, the result whose content is the
    single text item ["1 SOL (1000000000 lamports)"]. *)
Theorem getBalance_one_sol (w : World) (env : gmap string string) (v : Variant)
    (K : string) (pk : PublicKey) (s : Effects) :
  PublicKey_new w (JStr K) = OK pk ->
  rpc_getBalance w (net s) pk = OK 1000000000%Z ->
  exists s',
    dispatch w env v "getBalance" (JObj [("publicKey", JStr K)]) s =
    (OK (result [text_item "1 SOL (1000000000 lamports)"]), s').
Proof.
  intros Hk Hb.
  destruct v; cbn; unfold tool_handler; cbn.
  all: unfold getBalance_body, try_catch, bind, lift, netcall, arg; cbn.
  all: rewrite Hk, Hb; cbn.
  all: eexists; reflexivity.
Qed.

Lemma getBalance_one_sol_witness :
  PublicKey_new (Mocks.world one_sol_setup) (JStr "K") = OK (PK (Buffer_from "K")) /\
  rpc_getBalance (Mocks.world one_sol_setup) [] (PK (Buffer_from "K")) = OK 1000000000%Z /\
  exists s',
    dispatch (Mocks.world one_sol_setup) ∅ Stdio "getBalance"
             (JObj [("publicKey", JStr "K")]) Mocks.no_effects =
    (OK (result [text_item "1 SOL (1000000000 lamports)"]), s').
Proof.
  split; [reflexivity | split; [reflexivity | ]].
  apply (getBalance_one_sol (Mocks.world one_sol_setup) ∅ Stdio "K"
           (PK (Buffer_from "K")) Mocks.no_effects); reflexivity.
Defined.

(** C3. When the transaction lookup throws an error whose message is
    ["not found"] for the signature [S], [dispatch("getTransaction",
    {signature: S})] returns a result with the text ["Error: not found"]; no
    fault leaves the dispatch boundary. *)
Theorem getTransaction_not_found (w : World) (env : gmap string string) (v : Variant)
    (S : string) (e : JsError) (s : Effects) :
  rpc_getParsedTransaction w (net s) S = Throw e ->
  message e = "not found" ->
  exists s',
    dispatch w env v "getTransaction" (JObj [("signature", JStr S)]) s =
    (OK (result [text_item "Error: not found"]), s').
Proof.
  intros Ht Hm.
  destruct e as [n m]; cbn in Hm; subst m.
  destruct v; cbn; unfold tool_handler; cbn.
  all: unfold getTransaction_body, try_catch, bind, netcall, arg_str, arg; cbn.
  all: rewrite Ht; cbn.
  all: eexists; reflexivity.
Qed.

Lemma getTransaction_not_found_witness :
  rpc_getParsedTransaction (Mocks.world one_sol_setup) [] "S" = Throw (Error_ "not found") /\
  message (Error_ "not found") = "not found" /\
  exists s',
    dispatch (Mocks.world one_sol_setup) ∅ Stdio "getTransaction"
             (JObj [("signature", JStr "S")]) Mocks.no_effects =
    (OK (result [text_item "Error: not found"]), s').
Proof.
  split; [reflexivity | split; [reflexivity | ]].
  apply (getTransaction_not_found (Mocks.world one_sol_setup) ∅ Stdio "S"
           (Error_ "not found") Mocks.no_effects); reflexivity.
Defined.

(** C8. Two dispatches of [getBalance] with the same input, made at two
    moments at which the balance collaborator gives the same answer, return
    the same outcome: the same content, or the same fault for an input the
    schema rejects. Neither the log nor the earlier calls matter. *)
Theorem getBalance_idempotent (w : World) (env : gmap string string) (v : Variant)
    (rawArgs : JValue) (s1 s2 : Effects) :
  (forall pk, rpc_getBalance w (net s1) pk = rpc_getBalance w (net s2) pk) ->
  fst (dispatch w env v "getBalance" rawArgs s1) =
  fst (dispatch w env v "getBalance" rawArgs s2).
Proof.
  intros Hsame.
  unfold dispatch, dispatch_in.
  assert (Hl : lookup_tool (registrations w env v) "getBalance" = Some (tool_getBalance w))
    by now destruct v.
  rewrite Hl. cbn [tool_schema tool_getBalance].
  destruct (validate w [("publicKey", z_string)] rawArgs) as [args | e]; [ | reflexivity].
  unfold tool_handler; cbn [tool_catch tool_try tool_getBalance].
  unfold getBalance_body, try_catch, bind, lift, netcall.
  destruct (PublicKey_new w (arg args "publicKey")) as [pk | e]; [ | reflexivity].
  rewrite (Hsame pk).
  now destruct (rpc_getBalance w (net s2) pk).
Qed.

Lemma getBalance_idempotent_witness :
  (forall pk, rpc_getBalance (Mocks.world one_sol_setup) (net Mocks.no_effects) pk =
              rpc_getBalance (Mocks.world one_sol_setup) (net after_one_call) pk) /\
  fst (dispatch (Mocks.world one_sol_setup) ∅ Stdio "getBalance"
                (JObj [("publicKey", JStr "K")]) Mocks.no_effects) =
  fst (dispatch (Mocks.world one_sol_setup) ∅ Stdio "getBalance"
                (JObj [("publicKey", JStr "K")]) after_one_call).
Proof.
  split; [intros pk; reflexivity | ].
  apply (getBalance_idempotent (Mocks.world one_sol_setup) ∅ Stdio
           (JObj [("publicKey", JStr "K")]) Mocks.no_effects after_one_call).
  intros pk; reflexivity.
Defined.

(** ** Prompts *)

Lemma prefix_append (a s : string) :
  String.prefix a s = true -> exists rest, s = a ++ rest.
Proof.
  revert s. induction a as [ | c a IH]; intros s H.
  - now exists s.
  - destruct s as [ | c' s]; cbn in H; [discriminate | ].
    destruct (ascii_dec c c') as [<- | ]; [ | discriminate].
    destruct (IH s H) as [rest ->]. now exists rest.
Qed.

Lemma includes_contains (sub s : string) :
  includes sub s = true -> contains sub s.
Proof.
  induction s as [ | c s IH]; cbn [includes]; intros H.
  - rewrite orb_false_r in H.
    destruct (prefix_append _ _ H) as [rest Hr]. now exists "", rest.
  - apply orb_true_iff in H as [H | H].
    + destruct (prefix_append _ _ H) as [rest Hr]. now exists "", rest.
    + destruct (IH H) as (before & after & ->).
      now exists (String c before), after.
Qed.

(** The rendered text of every prompt contains its [signature] parameter. *)
Lemma signature_prompts_embed (w : World) (p : Prompt) (signature : string) :
  In p prompts ->
  In "signature" (map fst (prompt_schema p)) ->
  render w (prompt_name p) (JObj [("signature", JStr signature)]) =
    OK (prompt_template p [("signature", JStr signature)]) /\
  exists t, prompt_template p [("signature", JStr signature)] = user_text t /\
            contains signature t.
Proof.
  intros Hp Hsig.
  cbn in Hp.
  destruct Hp as [<- | [<- | [<- | [<- | [<- | []]]]]]; cbn in Hsig.
  - destruct Hsig as [Hsig | []]; discriminate.
  - destruct Hsig.
  - split; [reflexivity | ]. eexists; split; [reflexivity | ].
    eexists _, _. reflexivity.
  - split; [reflexivity | ]. eexists; split; [reflexivity | ].
    eexists _, _. reflexivity.
  - split; [reflexivity | ]. eexists; split; [reflexivity | ].
    eexists _, _. reflexivity.
Qed.

(** C9. Every registered prompt that takes a [signature] parameter, rendered
    with [signature = "abc"], gives exactly one message, of role [user] and
    type [text], whose text contains ["abc"]. *)
Theorem signature_prompts_contain_abc (w : World) (p : Prompt) :
  In p prompts ->
  In "signature" (map fst (prompt_schema p)) ->
  exists t,
    render w (prompt_name p) (JObj [("signature", JStr "abc")]) =
      OK [{| role := "user";
             msg_content := {| ctype := "text"; text := Some t; language := None |} |}] /\
    contains "abc" t.
Proof.
  intros Hp Hsig.
  destruct (signature_prompts_embed w p "abc" Hp Hsig) as (Hr & t & Ht & Hc).
  exists t. split; [ | exact Hc].
  rewrite Hr, Ht. reflexivity.
Qed.

Lemma signature_prompts_contain_abc_witness :
  In prompt_why_did_my_transaction_fail prompts /\
  In "signature" (map fst (prompt_schema prompt_why_did_my_transaction_fail)) /\
  exists t,
    render (Mocks.world Mocks.empty_setup)
           (prompt_name prompt_why_did_my_transaction_fail)
           (JObj [("signature", JStr "abc")]) =
      OK [{| role := "user";
             msg_content := {| ctype := "text"; text := Some t; language := None |} |}] /\
    contains "abc" t.
Proof.
  assert (H1 : In prompt_why_did_my_transaction_fail prompts)
    by (right; right; left; reflexivity).
  assert (H2 : In "signature" (map fst (prompt_schema prompt_why_did_my_transaction_fail)))
    by (left; reflexivity).
  split; [exact H1 | split; [exact H2 | ]].
  exact (signature_prompts_contain_abc (Mocks.world Mocks.empty_setup)
           prompt_why_did_my_transaction_fail H1 H2).
Defined.

(** ** The event-stream endpoints *)

Section EndpointsFacts.

Import Endpoints.

Variable w : World.
Variable handlePostMessage : nat -> JValue -> HttpResponse.
Variable bad_request : JValue -> string.

#[local] Abbreviation step := (Endpoints.step w handlePostMessage bad_request).
#[local] Abbreviation run := (Endpoints.run w handlePostMessage bad_request).

Lemma same_routing_refl s : same_routing s s.
Proof. now repeat split. Qed.

Lemma step_same_routing s s' r :
  same_routing s s' ->
  same_routing (fst (step s r)) (fst (step s' r)) /\ snd (step s r) = snd (step s' r).
Proof.
  intros (Ht & Hn & Hd).
  destruct r as [ | m]; cbn [Endpoints.step].
  - unfold get_sse, same_routing; cbn. now rewrite Hn, Hd.
  - destruct (express_json m) as [parsed | ]; [ | now repeat split].
    unfold post_messages. rewrite <- Ht.
    destruct (transport s) as [t | ]; unfold same_routing; cbn; rewrite Hn, Hd; auto.
Qed.

Lemma run_same_routing rs : forall s s',
  same_routing s s' ->
  same_routing (fst (run s rs)) (fst (run s' rs)) /\ snd (run s rs) = snd (run s' rs).
Proof.
  induction rs as [ | r rs IH]; intros s s' H; cbn [Endpoints.run].
  - now split.
  - destruct (step_same_routing s s' r H) as [H1 H2].
    destruct (step s r) as [s1 a], (step s' r) as [s1' a']; cbn in H1, H2; subst a'.
    destruct (IH s1 s1' H1) as [H3 H4].
    destruct (run s1 rs) as [s2 l], (run s1' rs) as [s2' l']; cbn in *.
    now subst.
Qed.

Lemma run_app rs1 : forall s rs2,
  run s (rs1 ++ rs2) =
  (fst (run (fst (run s rs1)) rs2),
   (snd (run s rs1) ++ snd (run (fst (run s rs1)) rs2))%list).
Proof.
  induction rs1 as [ | r rs1 IH]; intros s rs2.
  - cbn. now destruct (run s rs2).
  - change ((r :: rs1) ++ rs2)%list with (r :: (rs1 ++ rs2))%list.
    cbn [Endpoints.run].
    destruct (step s r) as [s1 a].
    rewrite IH.
    destruct (run s1 rs1) as [s2 l]; cbn.
    now destruct (run s2 rs2).
Qed.

(** A [POST /messages] made while [transport] is [null] leaves the routing
    as it is. *)
Lemma post_without_stream_same_routing s m :
  transport s = None -> same_routing (fst (step s (POST_messages m))) s.
Proof.
  intros Ht. cbn [Endpoints.step].
  destruct (express_json m) as [parsed | ]; [ | apply same_routing_refl].
  unfold post_messages. rewrite Ht. unfold same_routing; cbn. now rewrite Ht.
Qed.

(** As long as no [GET /sse] has been made, [transport] is [null] and no
    message has been handed to a transport. *)
Lemma no_stream_before_GET_sse rs : forall s,
  forallb (fun r => negb (is_GET_sse r)) rs = true ->
  transport s = None ->
  transport (fst (run s rs)) = None /\ delivered (fst (run s rs)) = delivered s.
Proof.
  induction rs as [ | r rs IH]; intros s Hrs Ht; cbn [Endpoints.run].
  - now split.
  - cbn in Hrs. apply andb_true_iff in Hrs as [Hr Hrs].
    destruct r as [ | m]; [discriminate | ].
    destruct (post_without_stream_same_routing s m Ht) as (H1 & _ & H3).
    destruct (step s (POST_messages m)) as [s1 a]. cbn [fst] in H1, H3.
    rewrite Ht in H1.
    destruct (IH s1 Hrs H1) as [H4 H5].
    destruct (run s1 rs) as [s2 l]. cbn [fst] in *.
    split; [exact H4 | congruence].
Qed.


End EndpointsFacts.



(** ** Failures raised by a handler *)

Lemma lookup_tool_In (registry : list Tool) (name : string) (t : Tool) :
  lookup_tool registry name = Some t -> In t registry /\ tool_name t = name.
Proof.
  intros H. apply find_some in H as [Hin Hname].
  split; [exact Hin | now apply String.eqb_eq].
Qed.

Lemma catch_error_total e : total (catch_error e).
Proof. intros s. now exists (error_result e), s. Qed.

Lemma catch_log_error_total e : total (catch_log_error e).
Proof. intros s. eexists _, _. reflexivity. Qed.

(** Every registered handler comes back with a result, whatever its
    arguments and whatever the collaborators do: no exception leaves it. *)
Lemma handlers_total (w : World) (env : gmap string string) (v : Variant) (t : Tool)
    (args : Args) :
  In t (registrations w env v) -> total (tool_handler t args).
Proof.
  intros Hin.
  destruct v; cbn in Hin;
    repeat (destruct Hin as [<- | Hin]); try contradiction;
    unfold tool_handler; cbn [tool_catch tool_try
      tool_getAccountInfo tool_getBalance tool_getMinimumBalanceForRentExemption
      tool_getTransaction tool_getPriorityFee tool_getPriorityFee_sse
      tool_generateSecurityTxt tool_getProgramIdl tool_createGPAFilters
      tool_testProgramIdl tool_testProgramIdl_sse tool_lookupProgramAuth
      tool_lookupProgramAuth_sse tool_checkupProgram tool_checkProgramDeployment
      tool_createCPI tool_getDuneSolanaData tool_buildTransaction
      tool_submitTransaction tool_analyzeTransaction];
    try (apply try_catch_total; intros e s; eexists _, _; reflexivity).
  all: intros s; eexists _, _; reflexivity.
Qed.

(** On a registered tool and arguments its schema accepts, [dispatch] returns
    a result: nothing is raised past the dispatch boundary. *)
Lemma dispatch_returns_result (w : World) (env : gmap string string) (v : Variant)
    (name : string) (rawArgs : JValue) (t : Tool) (args : Args) (s : Effects) :
  lookup_tool (registrations w env v) name = Some t ->
  validate w (tool_schema t) rawArgs = OK args ->
  exists r s', dispatch w env v name rawArgs s = (OK r, s').
Proof.
  intros Hl Hv. unfold dispatch, dispatch_in. rewrite Hl, Hv.
  apply lookup_tool_In in Hl as [Hin _].
  apply (handlers_total w env v t args Hin).
Qed.

(** C1, as amended. For every registered tool and every input its schema
    accepts, when the [try] block of the handler raises a failure (its own
    or a collaborator's), [dispatch] returns a well-formed result instead of
    letting the exception out. The first content item is the text
    [Error: <message>]; it is the only item for every tool but
    [testProgramIdl] of the event-stream server, which adds two items
    describing the expected input. *)
Theorem handler_failure_becomes_error_text (w : World) (env : gmap string string)
    (v : Variant) (name : string) (rawArgs : JValue) (t : Tool) (args : Args)
    (s s1 : Effects) (e : JsError) :
  lookup_tool (registrations w env v) name = Some t ->
  validate w (tool_schema t) rawArgs = OK args ->
  tool_try t args s = (Throw e, s1) ->
  exists r s2,
    dispatch w env v name rawArgs s = (OK r, s2) /\
    well_formed r /\
    content r =
      if adds_input_help v name
      then [text_item ("Error: " ++ message e);
            text_item "Expected input JSON structure:";
            text_item expected_input_help]
      else [text_item ("Error: " ++ message e)].
Proof.
  intros Hl Hv Ht.
  unfold dispatch, dispatch_in. rewrite Hl, Hv.
  apply lookup_tool_In in Hl as [Hin <-].
  destruct v; cbn in Hin;
    repeat (destruct Hin as [<- | Hin]); try contradiction;
    unfold tool_handler;
    cbn [tool_catch tool_try tool_name adds_input_help
      tool_getAccountInfo tool_getBalance tool_getMinimumBalanceForRentExemption
      tool_getTransaction tool_getPriorityFee tool_getPriorityFee_sse
      tool_generateSecurityTxt tool_getProgramIdl tool_createGPAFilters
      tool_testProgramIdl tool_testProgramIdl_sse tool_lookupProgramAuth
      tool_lookupProgramAuth_sse tool_checkupProgram tool_checkProgramDeployment
      tool_createCPI tool_getDuneSolanaData tool_buildTransaction
      tool_submitTransaction tool_analyzeTransaction] in *;
    try discriminate Ht;
    rewrite (try_catch_Throw _ _ _ _ _ Ht);
    eexists _, _; (split; [reflexivity | ]);
    (split; [split; [discriminate | repeat constructor] | reflexivity]).
Qed.

Lemma handler_failure_becomes_error_text_witness :
  exists r s2,
    dispatch (Mocks.world Mocks.empty_setup) payer_env EventStream "testProgramIdl"
             testProgramIdl_bad_program Mocks.no_effects = (OK r, s2) /\
    well_formed r /\
    content r = [text_item "Error: Invalid public key input";
                 text_item "Expected input JSON structure:";
                 text_item expected_input_help].
Proof.
  exact (handler_failure_becomes_error_text
           (Mocks.world Mocks.empty_setup) payer_env EventStream "testProgramIdl"
           testProgramIdl_bad_program
           (tool_testProgramIdl_sse (Mocks.world Mocks.empty_setup) payer_env)
           [("programId", JStr ""); ("inputJson", JStr "{}"); ("instructionName", JStr "x")]
           Mocks.no_effects
           {| log := [Mocks.stringify testProgramIdl_bad_program]; net := [] |}
           (Error_ "Invalid public key input")
           eq_refl eq_refl eq_refl).
Defined.

(** C1, as stated, fails on [testProgramIdl] of the event-stream server: its
    [try] block raises "Invalid public key input" on a program identifier
    that is not a public key, and the content returned has three items, not
    the single item [Error: Invalid public key input]. *)
Lemma sse_testProgramIdl_error_is_not_single_item :
  exists t args e s1 r s2,
    lookup_tool (registrations (Mocks.world Mocks.empty_setup) payer_env EventStream)
                "testProgramIdl" = Some t /\
    validate (Mocks.world Mocks.empty_setup) (tool_schema t) testProgramIdl_bad_program
      = OK args /\
    tool_try t args Mocks.no_effects = (Throw e, s1) /\
    dispatch (Mocks.world Mocks.empty_setup) payer_env EventStream "testProgramIdl"
             testProgramIdl_bad_program Mocks.no_effects = (OK r, s2) /\
    content r <> [text_item ("Error: " ++ message e)].
Proof.
  eexists _, _, _, _, _, _.
  split; [reflexivity | ].
  split; [reflexivity | ].
  split; [vm_compute; reflexivity | ].
  split; [vm_compute; reflexivity | ].
  vm_compute. discriminate.
Qed.

(** ** Credentials read from the environment *)

(** Starting a server registers its tools without looking at the
    environment. *)
Lemma startup_succeeds (w : World) (env : gmap string string) (v : Variant) :
  startup w env v = OK (registrations w env v).
Proof. destruct v; reflexivity. Qed.

(** When the variable is not set, the handler returns the text of the table
    and makes no call to the outside world. *)
Lemma missing_credential_stops_handler (w : World) (env : gmap string string)
    (v : Variant) (name var text_ : string) (t : Tool) (args : Args) (s : Effects) :
  In (name, var, text_) (credential_checks v) ->
  lookup_tool (registrations w env v) name = Some t ->
  env_missing (env !! var) = true ->
  exists s', tool_handler t args s = (OK (result [text_item text_]), s') /\
             net s' = net s.
Proof.
  intros Hin Hl Hmiss.
  destruct v; cbn in Hin;
    repeat (destruct Hin as [Hin | Hin]; [injection Hin as <- <- <- | ]);
    try contradiction;
    cbn in Hl; injection Hl as <-;
    unfold tool_handler; cbn;
    unfold try_catch, bind, getPriorityFee_body, getPriorityFee_sse_body,
      testProgramIdl_body, testProgramIdl_sse_body, testProgramIdl_log_input,
      getDuneSolanaData_body, buildTransaction_body, analyzeTransaction_body,
      logToFile;
    cbn; rewrite Hmiss; cbn;
    eexists; split; reflexivity.
Qed.

(** The handlers of the other tools are the same function whatever the
    environment holds. *)
Lemma other_tools_ignore_environment (w : World) (env1 env2 : gmap string string)
    (v : Variant) :
  Forall2 (fun t1 t2 =>
             tool_name t1 = tool_name t2 /\
             (~ In (tool_name t1) (map (fun c => fst (fst c)) (credential_checks v)) ->
              tool_handler t1 = tool_handler t2))
          (registrations w env1 v) (registrations w env2 v).
Proof.
  destruct v; cbn; repeat constructor;
    try (intros _; reflexivity);
    intros H; exfalso; apply H; cbn; tauto.
Qed.

(** C7 fails on [testProgramIdl] of the event-stream server. Without
    [PAYER_PRIVATE_KEY] the handler stops before any call to the outside
    world, but what it returns is the text of a missing IDL, not an error
    naming the missing key. *)
Theorem sse_testProgramIdl_without_payer_key (w : World) (programId inputJson
    instructionName : string) (s : Effects) :
  exists s',
    dispatch w ∅ EventStream "testProgramIdl"
             (JObj [("programId", JStr programId); ("inputJson", JStr inputJson);
                    ("instructionName", JStr instructionName)]) s =
    (OK (result [text_item "No IDL found for the given program ID."]), s') /\
    net s' = net s.
Proof.
  eexists. cbn. unfold tool_handler; cbn.
  unfold try_catch, bind, testProgramIdl_sse_body, testProgramIdl_log_input, logToFile; cbn.
  split; reflexivity.
Qed.

(** The stdio server, on the same input, names the missing key. *)
Lemma stdio_testProgramIdl_without_payer_key (w : World) (programId inputJson
    instructionName : string) (s : Effects) :
  exists s',
    dispatch w ∅ Stdio "testProgramIdl"
             (JObj [("programId", JStr programId); ("inputJson", JStr inputJson);
                    ("instructionName", JStr instructionName)]) s =
    (OK (result [text_item "Error: PAYER_PRIVATE_KEY not found in environment variables"]), s')
    /\ net s' = net s.
Proof.
  eexists. cbn. unfold tool_handler; cbn.
  unfold try_catch, bind, testProgramIdl_body, testProgramIdl_log_input, logToFile; cbn.
  split; reflexivity.
Qed.

(** ** lookupProgramAuth in the two servers *)

(** C10, as amended. On the same input and the same answers of the
    collaborators, the two servers make the same calls and write the same
    log, and each returns a result with a single text item. The results are
    equal, [Error: <message>], when the program identifier is rejected or a
    lookup fails. When an account is missing each reports an error, in its
    own words. *)
Theorem lookupProgramAuth_variants (w : World) (env : gmap string string)
    (programId : string) (s : Effects) :
  let rawArgs := JObj [("programId", JStr programId)] in
  let stdio := dispatch w env Stdio "lookupProgramAuth" rawArgs s in
  let sse := dispatch w env EventStream "lookupProgramAuth" rawArgs s in
  snd stdio = snd sse /\
  match authority_lookup w (JStr programId) s with
  | LookupFailed e =>
      fst stdio = OK (error_result e) /\ fst sse = OK (error_result e)
  | ProgramMissing =>
      fst stdio = OK (result [text_item "Error: Program not found"]) /\
      fst sse = OK (result [text_item ("Error: Program with ID " ++ programId ++
                                       " not found.")])
  | ProgramDataMissing =>
      fst stdio = OK (result [text_item "Error: Program data not found"]) /\
      fst sse = OK (result [text_item ("Error: Program data not found for " ++
                                       programId ++ ".")])
  | ProgramDataFound _ =>
      exists t1 t2, fst stdio = OK (result [text_item t1]) /\
                    fst sse = OK (result [text_item t2])
  end.
Proof.
  cbn zeta. unfold authority_lookup.
  cbn. unfold tool_handler; cbn.
  unfold lookupProgramAuth_body, lookupProgramAuth_sse_body, try_catch, bind, lift,
    connection_getAccountInfo, netcall, throw, ret, catch_error, arg; cbn.
  repeat (break_match; cbn);
    repeat split; try reflexivity; eexists _, _; split; reflexivity.
Qed.

(** C10, as stated, fails: for a program whose account does not exist the
    stdio server answers "Error: Program not found" and the event-stream
    server "Error: Program with ID P not found.". *)
Lemma lookupProgramAuth_missing_program_differs :
  fst (dispatch (Mocks.world Mocks.empty_setup) ∅ Stdio "lookupProgramAuth"
                (JObj [("programId", JStr "P")]) Mocks.no_effects) =
    OK (result [text_item "Error: Program not found"]) /\
  fst (dispatch (Mocks.world Mocks.empty_setup) ∅ EventStream "lookupProgramAuth"
                (JObj [("programId", JStr "P")]) Mocks.no_effects) =
    OK (result [text_item "Error: Program with ID P not found."]) /\
  fst (dispatch (Mocks.world Mocks.empty_setup) ∅ Stdio "lookupProgramAuth"
                (JObj [("programId", JStr "P")]) Mocks.no_effects) <>
  fst (dispatch (Mocks.world Mocks.empty_setup) ∅ EventStream "lookupProgramAuth"
                (JObj [("programId", JStr "P")]) Mocks.no_effects).
Proof.
  split; [reflexivity | split; [reflexivity | ]].
  vm_compute. discriminate.
Qed.

(** The two servers read the authority from different bytes of the
    program-data account: 0 to 32 in the stdio server, 13 to 45 in the
    event-stream server, as [checkProgramDeployment] does in both. *)
Lemma lookupProgramAuth_reads_different_bytes :
  fst (dispatch (Mocks.world authority_setup) ∅ Stdio "lookupProgramAuth"
                (JObj [("programId", JStr "P")]) Mocks.no_effects) =
    OK (result [text_item ("Program Authority: " ++
                           Buffer_toString (firstn 32 program_data_sample))]) /\
  fst (dispatch (Mocks.world authority_setup) ∅ EventStream "lookupProgramAuth"
                (JObj [("programId", JStr "P")]) Mocks.no_effects) =
    OK (result [text_item "Program Authority: AAAAAAAAAAAAAAAAAAAAAAAAAAAAAAAA"]).
Proof. split; vm_compute; reflexivity. Qed.

(** ** getProgramIdl: the order of the sources *)

(** C5, as amended. For every program identifier that is a public key,
    [getProgramIdl] consults the primary registry fetch, then the derived
    account address, then the Shank registry, and returns the first IDL
    found. A failure of the primary fetch counts as nothing found. When the
    three sources yield nothing the result reports that no IDL was found.
    When the second or the third source fails before an IDL is found, the
    result is [Error: <message>]. A source is consulted only when the ones
    before it yielded nothing. *)
Theorem getProgramIdl_first_source_found (w : World) (env : gmap string string)
    (v : Variant) (programId : string) (pk : PublicKey) (s : Effects) :
  PublicKey_new w (JStr programId) = OK pk ->
  fst (dispatch w env v "getProgramIdl" (JObj [("programId", JStr programId)]) s) =
    OK (idl_report w (first_found (idl_sources w s pk))) /\
  net (snd (dispatch w env v "getProgramIdl" (JObj [("programId", JStr programId)]) s)) =
    (net s ++ idl_calls w s pk)%list.
Proof.
  intros Hpk.
  assert (Hd : dispatch w env v "getProgramIdl" (JObj [("programId", JStr programId)]) s =
               getProgramIdl_handler w [("programId", JStr programId)] s)
    by now destruct v.
  rewrite Hd. clear Hd.
  unfold getProgramIdl_handler, getProgramIdl_body.
  unfold idl_calls, idl_sources, derived_address, shank_address, account_yield,
    primary_yield.
  unfold getProgramIdl_method1, getProgramIdl_method2, getProgramIdl_method3.
  unfold try_catch, bind, lift, Program_fetchIdl, connection_getAccountInfo, netcall,
    logToFile, ret, catch_log_error, arg.
  unfold slice_from. cbn. rewrite Hpk. cbn.
  repeat (break_match_eq; cbn in *); rewrite ?skipn_O in *;
    (split; [congruence | ]);
    rewrite <- ?app_assoc; cbn; congruence.
Qed.

Lemma getProgramIdl_first_source_found_witness :
  PublicKey_new (Mocks.world Mocks.empty_setup) (JStr "P") = OK (PK (Buffer_from "P")) /\
  fst (dispatch (Mocks.world Mocks.empty_setup) ∅ Stdio "getProgramIdl"
                (JObj [("programId", JStr "P")]) Mocks.no_effects) =
  OK (result [text_item "No IDL found for the given program ID."]).
Proof.
  split; [reflexivity | ].
  exact (proj1 (getProgramIdl_first_source_found (Mocks.world Mocks.empty_setup) ∅ Stdio
                  "P" (PK (Buffer_from "P")) Mocks.no_effects eq_refl)).
Defined.

(** C5, as stated, fails. An identifier that is not a public key gives an
    error although no source yields an IDL. And when the lookup of the
    derived address fails, the result is an error and the search stops: the
    Shank registry, which holds an IDL here, is not consulted. *)
Lemma getProgramIdl_error_instead_of_not_found :
  dispatch (Mocks.world Mocks.empty_setup) ∅ Stdio "getProgramIdl"
           (JObj [("programId", JStr "")]) Mocks.no_effects =
    (OK (result [text_item "Error: Invalid public key input"]),
     {| log := ["Error: Invalid public key input"]; net := [] |}) /\
  account_yield (Mocks.world failing_derived_lookup) 0
    (shank_address (Mocks.world failing_derived_lookup) (PK (Buffer_from "P")))
    (rpc_getAccountInfo (Mocks.world failing_derived_lookup) []) = Found (JObj []) /\
  fst (dispatch (Mocks.world failing_derived_lookup) ∅ Stdio "getProgramIdl"
                (JObj [("programId", JStr "P")]) Mocks.no_effects) =
    OK (result [text_item "Error: fetch failed"]) /\
  net (snd (dispatch (Mocks.world failing_derived_lookup) ∅ Stdio "getProgramIdl"
                     (JObj [("programId", JStr "P")]) Mocks.no_effects)) =
    [FetchIdl (PK (Buffer_from "P"));
     GetAccountInfo (PK (Buffer_from "anchor:idl" ++ Buffer_from "P" ++ Buffer_from "P")%list)].
Proof. repeat split; vm_compute; reflexivity. Qed.

(** ** testProgramIdl: accounts, arguments and instruction data *)

Lemma find_by_name_absent (name : string) (supplied : list JValue) :
  Forall (not_named name) supplied -> find_by_name name supplied = OK JUndefined.
Proof.
  induction 1 as [ | a l (fields & -> & Hn) _ IH]; [reflexivity | ].
  cbn [find_by_name prop].
  destruct (assoc_get "name" fields) as [[ | | | | n | | ] | ]; cbn; try exact IH.
  destruct (String.eqb_spec n name) as [-> | _]; [ | exact IH].
  now contradiction Hn.
Qed.

Lemma key_of_missing_account (w : World) (payer : Keypair) (inputData : JValue)
    (supplied : list JValue) (acc : IdlAccountItem) (s : Effects) :
  prop inputData "accounts" = OK (JArr supplied) ->
  Forall (not_named (acc_name acc)) supplied ->
  testProgramIdl_key w payer inputData acc s =
  (OK {| pubkey := publicKey payer;
         isSigner := default false (acc_isSigner acc);
         isWritable := default false (acc_isMut acc) |}, s).
Proof.
  intros Hp Hn. unfold testProgramIdl_key.
  rewrite lift_bind, Hp, lift_bind. cbn [array_find_by_name].
  rewrite (find_by_name_absent _ _ Hn), lift_bind. reflexivity.
Qed.

Lemma mapM_Forall2 {A B} (f : A -> M B) (l : list A) : forall ys s s',
  mapM f l s = (OK ys, s') ->
  Forall2 (fun x y => exists st st', f x st = (OK y, st')) l ys.
Proof.
  induction l as [ | x l IH]; intros ys s s' H; cbn [mapM] in H.
  - injection H as <- _. constructor.
  - unfold bind at 1 in H. destruct (f x s) as [[y | e] s1] eqn:Ef; [ | discriminate].
    unfold bind at 1 in H. destruct (mapM f l s1) as [[ys' | e] s2] eqn:El; [ | discriminate].
    injection H as <- _.
    constructor; [now exists s, s1 | now apply (IH ys' s1 s2)].
Qed.

Lemma le_bytes_length (len : nat) : forall z, length (le_bytes len z) = len.
Proof. induction len as [ | len IH]; intros z; cbn; [reflexivity | now rewrite IH]. Qed.

Lemma first_arg_is_BN (w : World) (inputData supplied_args inputArg value : JValue)
    (first : IdlField) (z : Z) (s : Effects) :
  field_type first = JStr "u64" \/ field_type first = JStr "i64" ->
  prop inputData "args" = OK supplied_args ->
  array_find_by_name "inputData.args" supplied_args (field_name first) = OK inputArg ->
  opt_prop inputArg "value" = OK value ->
  BN_new w value = OK z ->
  exists s', testProgramIdl_arg w inputData first s = (OK (ArgBN z), s') /\ net s' = net s.
Proof.
  intros Hty Hp Hf Hv Hbn. unfold testProgramIdl_arg.
  rewrite lift_bind, Hp, lift_bind, Hf, lift_bind, Hv.
  unfold bind at 1. unfold logToFile at 1.
  assert (Hb : strict_eq_str (field_type first) "u64" || strict_eq_str (field_type first) "i64" = true)
    by (destruct Hty as [-> | ->]; reflexivity).
  rewrite Hb, lift_bind, Hbn.
  unfold bind, logToFile, ret. eexists; split; reflexivity.
Qed.

Lemma mapM_cons_OK {A B} (f : A -> M B) (x : A) (l : list A) y ys s s1 s2 :
  f x s = (OK y, s1) ->
  mapM f l s1 = (OK ys, s2) ->
  mapM f (x :: l) s = (OK (y :: ys), s2).
Proof.
  intros Hx Hl. cbn [mapM].
  rewrite (bind_OK _ _ _ _ _ Hx), (bind_OK _ _ _ _ _ Hl). reflexivity.
Qed.

(** The two callbacks make no call to the outside world. *)
Lemma testProgramIdl_key_net (w : World) (payer : Keypair) (inputData : JValue)
    (acc : IdlAccountItem) (s : Effects) :
  net (snd (testProgramIdl_key w payer inputData acc s)) = net s.
Proof.
  unfold testProgramIdl_key, bind, lift, ret.
  repeat (break_match; cbn); reflexivity.
Qed.

Lemma testProgramIdl_arg_net (w : World) (inputData : JValue) (arg : IdlField)
    (s : Effects) :
  net (snd (testProgramIdl_arg w inputData arg s)) = net s.
Proof.
  unfold testProgramIdl_arg, bind, lift, ret, logToFile.
  repeat (break_match; cbn); reflexivity.
Qed.

Lemma mapM_net {A B} (f : A -> M B) (l : list A) :
  (forall x s, net (snd (f x s)) = net s) ->
  forall s, net (snd (mapM f l s)) = net s.
Proof.
  intros Hf. induction l as [ | x l IH]; intros s; cbn [mapM]; [reflexivity | ].
  unfold bind at 1. specialize (Hf x s).
  destruct (f x s) as [[y | e] s1]; cbn [snd] in *; [ | exact Hf].
  unfold bind at 1. specialize (IH s1).
  destruct (mapM f l s1) as [[ys | e] s2]; unfold ret; cbn [snd] in *; congruence.
Qed.

(** The part of the handler that builds and simulates the instruction, once
    the instruction is found in the IDL. *)
Lemma testProgramIdl_simulate_from_first_argument
    (w : World) (payer : Keypair) (programPublicKey : PublicKey) (idl : Idl)
    (inputData : JValue) (instructionName : string) (ix : IdlInstruction)
    (supplied_accounts : list JValue) (supplied_args inputArg value : JValue)
    (first : IdlField) (rest : list IdlField) (z : Z)
    (keys : list AccountMeta) (others : list ArgValue) (encoded : Bytes)
    (s s1 s2 : Effects) :
  ix_args ix = first :: rest ->
  field_type first = JStr "u64" \/ field_type first = JStr "i64" ->
  prop inputData "accounts" = OK (JArr supplied_accounts) ->
  prop inputData "args" = OK supplied_args ->
  array_find_by_name "inputData.args" supplied_args (field_name first) = OK inputArg ->
  opt_prop inputArg "value" = OK value ->
  BN_new w value = OK z ->
  (Z.abs z < 2 ^ 64)%Z ->
  instruction_encode w idl instructionName = OK encoded ->
  mapM (testProgramIdl_key w payer inputData) (ix_accounts ix) s = (OK keys, s1) ->
  mapM (testProgramIdl_arg w inputData) rest
       (snd (testProgramIdl_arg w inputData first s1)) = (OK others, s2) ->
  let data := (slice 0 8 encoded ++ le_bytes 8 (Z.abs z))%list in
  let transaction :=
    set_feePayer
      (Transaction_add Transaction_new
         {| keys := keys; programId := programPublicKey; ix_data := data |})
      (publicKey payer) in
  (exists s3,
     testProgramIdl_simulate w payer programPublicKey idl inputData instructionName ix s =
       (match rpc_simulateTransaction w (net s) transaction with
        | OK simulation =>
            OK (result [text_item "Simulation result:";
                        text_item (JSON_stringify w true simulation)])
        | Throw e => Throw e
        end, s3) /\
     net s3 = (net s ++ [SimulateTransaction transaction])%list) /\
  length (le_bytes 8 (Z.abs z)) = 8 /\
  Forall2 (fun acc key =>
             Forall (not_named (acc_name acc)) supplied_accounts ->
             pubkey key = publicKey payer)
          (ix_accounts ix) keys.
Proof.
  intros Hargs Hty Hacc Hpa Hfind Hval Hbn Hz Henc Hkeys Hrest data transaction.
  destruct (first_arg_is_BN w inputData supplied_args inputArg value first z s1
              Hty Hpa Hfind Hval Hbn) as (s1' & Hfirst & Hnet1).
  rewrite Hfirst in Hrest. cbn [snd] in Hrest.
  assert (Hn1 : net s1 = net s).
  { pose proof (mapM_net _ (ix_accounts ix) (testProgramIdl_key_net w payer inputData) s) as H.
    now rewrite Hkeys in H. }
  assert (Hn2 : net s2 = net s).
  { pose proof (mapM_net _ rest (testProgramIdl_arg_net w inputData) s1') as H.
    rewrite Hrest in H. cbn [snd] in H. congruence. }
  split; [ | split].
  - unfold testProgramIdl_simulate.
    rewrite (bind_OK _ _ _ _ _ Hkeys), Hargs.
    rewrite (bind_OK _ _ _ _ _ (mapM_cons_OK _ _ _ _ _ _ _ _ Hfirst Hrest)).
    unfold bind at 1. unfold logToFile at 1.
    unfold testProgramIdl_data.
    rewrite (bind_OK _ _ _ (slice 0 8 encoded ++ le_bytes 8 (Z.abs z))%list
               {| log := log s2 ++
                         ["args" ++ JSON_stringify w false
                                      (JArr (map (ArgValue_toJSON w) (ArgBN z :: others)))];
                  net := net s2 |}).
    + unfold bind at 1. unfold logToFile at 1.
      unfold bind, netcall, ret. cbn [net log]. rewrite Hn2.
      fold data. fold transaction.
      destruct (rpc_simulateTransaction w (net s) transaction);
        eexists; split; reflexivity.
    + rewrite lift_bind, Henc, lift_bind.
      cbn [first_arg_le8]. unfold BN_toArrayLike_le.
      assert (Hlt : (Z.abs z <? 256 ^ Z.of_nat 8)%Z = true)
        by (apply Z.ltb_lt; exact Hz).
      rewrite Hlt. reflexivity.
  - apply le_bytes_length.
  - eapply Forall2_impl; [exact (mapM_Forall2 _ _ _ _ _ Hkeys) | ].
    intros acc key (st & st' & Hkey) Hmissing. cbn beta in *.
    rewrite (key_of_missing_account w payer inputData supplied_accounts acc st Hacc Hmissing)
      in Hkey.
    now injection Hkey as <- _.
Qed.

(** Up to the search of the instruction in the IDL. *)
Lemma testProgramIdl_reaches_simulate (w : World) (key : string) (args : Args)
    (secret : Bytes) (payer : Keypair) (programPublicKey : PublicKey) (idl : Idl)
    (inputData : JValue) (ix : IdlInstruction) (s : Effects) :
  bs58_decode w key = OK secret ->
  Keypair_fromSecretKey w secret = OK payer ->
  PublicKey_new w (arg args "programId") = OK programPublicKey ->
  anchor_fetchIdl w (net s) programPublicKey = OK (Some idl) ->
  JSON_parse w (arg_str args "inputJson") = OK inputData ->
  Program_new w idl programPublicKey = OK tt ->
  List.find (fun ix => ix_name ix =? arg_str args "instructionName")
            (idl_instructions idl) = Some ix ->
  testProgramIdl_with_payer w key args s =
  testProgramIdl_simulate w payer programPublicKey idl inputData
    (arg_str args "instructionName") ix
    {| log := log s; net := (net s ++ [FetchIdl programPublicKey])%list |}.
Proof.
  intros Hs Hp Hk Hi Hj Hn Hf.
  unfold testProgramIdl_with_payer. cbv zeta.
  rewrite lift_bind, Hs, lift_bind, Hp, lift_bind, Hk.
  unfold Program_fetchIdl. rewrite bind_netcall, Hi.
  rewrite lift_bind, Hj, lift_bind, Hn, Hf. reflexivity.
Qed.

(** A call of the tool runs the handler of the server on the three
    arguments. *)
Lemma testProgramIdl_dispatch (w : World) (env : gmap string string) (v : Variant)
    (programId inputJson instructionName : string) (s : Effects) :
  dispatch w env v "testProgramIdl"
    (JObj [("programId", JStr programId); ("inputJson", JStr inputJson);
           ("instructionName", JStr instructionName)]) s =
  match v with
  | Stdio => testProgramIdl_handler w env
  | EventStream => testProgramIdl_sse_handler w env
  end [("programId", JStr programId); ("inputJson", JStr inputJson);
       ("instructionName", JStr instructionName)] s.
Proof. destruct v; reflexivity. Qed.

(** C6, as amended. [testProgramIdl] compares no lengths. Whatever the
    numbers of supplied accounts and arguments, when the key of the payer,
    the program, its IDL, the input JSON and the instruction are found, the
    callbacks over the declared accounts and arguments succeed and the first
    declared argument is a [u64] or [i64] whose value fits in eight bytes, a
    call of the tool, in either server, fetches the IDL and simulates a
    transaction of one instruction, and makes no other call. The data of
    the instruction is the first eight bytes of the encoded instruction
    followed by the eight little-endian bytes of the first declared
    argument; the declared arguments after the first do not appear in it.
    The result is the simulation, or the error of the simulation call. A
    declared account that no supplied account names gets the public key of
    the payer. *)
Theorem testProgramIdl_builds_from_first_argument
    (w : World) (env : gmap string string) (v : Variant)
    (programId inputJson instructionName key : string) (secret : Bytes) (payer : Keypair)
    (programPublicKey : PublicKey) (idl : Idl) (inputData : JValue) (ix : IdlInstruction)
    (supplied_accounts : list JValue) (supplied_args inputArg value : JValue)
    (first : IdlField) (rest : list IdlField) (z : Z)
    (keys : list AccountMeta) (others : list ArgValue) (encoded : Bytes)
    (s s1 s2 : Effects) :
  let request := JObj [("programId", JStr programId); ("inputJson", JStr inputJson);
                       ("instructionName", JStr instructionName)] in
  let fetched := (net s ++ [FetchIdl programPublicKey])%list in
  env !! "PAYER_PRIVATE_KEY" = Some key ->
  key <> "" ->
  bs58_decode w key = OK secret ->
  Keypair_fromSecretKey w secret = OK payer ->
  PublicKey_new w (JStr programId) = OK programPublicKey ->
  anchor_fetchIdl w (net s) programPublicKey = OK (Some idl) ->
  JSON_parse w inputJson = OK inputData ->
  Program_new w idl programPublicKey = OK tt ->
  List.find (fun ix => ix_name ix =? instructionName) (idl_instructions idl) = Some ix ->
  ix_args ix = first :: rest ->
  field_type first = JStr "u64" \/ field_type first = JStr "i64" ->
  prop inputData "accounts" = OK (JArr supplied_accounts) ->
  prop inputData "args" = OK supplied_args ->
  array_find_by_name "inputData.args" supplied_args (field_name first) = OK inputArg ->
  opt_prop inputArg "value" = OK value ->
  BN_new w value = OK z ->
  (Z.abs z < 2 ^ 64)%Z ->
  instruction_encode w idl instructionName = OK encoded ->
  mapM (testProgramIdl_key w payer inputData) (ix_accounts ix)
       {| log := (log s ++ [JSON_stringify w false request])%list; net := fetched |} =
    (OK keys, s1) ->
  mapM (testProgramIdl_arg w inputData) rest
       (snd (testProgramIdl_arg w inputData first s1)) = (OK others, s2) ->
  let data := (slice 0 8 encoded ++ le_bytes 8 (Z.abs z))%list in
  let transaction :=
    {| tx_instructions :=
         [{| keys := keys; programId := programPublicKey; ix_data := data |}];
       feePayer := Some (publicKey payer);
       recentBlockhash := None;
       tx_signatures := [] |} in
  net (snd (dispatch w env v "testProgramIdl" request s)) =
    (fetched ++ [SimulateTransaction transaction])%list /\
  fst (dispatch w env v "testProgramIdl" request s) =
    OK match rpc_simulateTransaction w fetched transaction with
       | OK simulation =>
           result [text_item "Simulation result:";
                   text_item (JSON_stringify w true simulation)]
       | Throw e =>
           match v with
           | Stdio => result [text_item ("Error: " ++ message e)]
           | EventStream =>
               result [text_item ("Error: " ++ message e);
                       text_item "Expected input JSON structure:";
                       text_item expected_input_help]
           end
       end /\
  length (le_bytes 8 (Z.abs z)) = 8 /\
  Forall2 (fun acc key =>
             Forall (not_named (acc_name acc)) supplied_accounts ->
             pubkey key = publicKey payer)
          (ix_accounts ix) keys.
Proof.
  intros request fetched Henv Hkey Hs Hp Hk Hi Hj Hn Hf
         Hargs Hty Hacc Hpa Hfind Hval Hbn Hz Henc Hkeys Hrest data transaction.
  pose (args := [("programId", JStr programId); ("inputJson", JStr inputJson);
                 ("instructionName", JStr instructionName)] : Args).
  pose (logged := {| log := (log s ++ [JSON_stringify w false request])%list;
                     net := net s |}).
  destruct (testProgramIdl_simulate_from_first_argument
              w payer programPublicKey idl inputData instructionName ix
              supplied_accounts supplied_args inputArg value first rest z keys others
              encoded _ s1 s2 Hargs Hty Hacc Hpa Hfind Hval Hbn Hz Henc Hkeys Hrest)
    as ((s3 & Hsim & Hnet) & Hlen & Hpayer).
  cbn [net] in Hsim, Hnet.
  assert (Hwith : testProgramIdl_with_payer w key args logged =
                  (match rpc_simulateTransaction w fetched transaction with
                   | OK simulation =>
                       OK (result [text_item "Simulation result:";
                                   text_item (JSON_stringify w true simulation)])
                   | Throw e => Throw e
                   end, s3)).
  { rewrite (testProgramIdl_reaches_simulate w key args secret payer programPublicKey
               idl inputData ix logged Hs Hp Hk Hi Hj Hn Hf).
    exact Hsim. }
  assert (Hmissing : env_missing (env !! "PAYER_PRIVATE_KEY") = false).
  { rewrite Henv. cbn. now apply String.eqb_neq. }
  assert (Hrun : forall catch,
            try_catch
              (testProgramIdl_log_input w args ;;;
               testProgramIdl_with_payer w key args) catch s =
            match rpc_simulateTransaction w fetched transaction with
            | OK simulation =>
                (OK (result [text_item "Simulation result:";
                             text_item (JSON_stringify w true simulation)]), s3)
            | Throw e => catch e s3
            end).
  { intros catch. unfold try_catch, testProgramIdl_log_input.
    unfold bind at 1. unfold logToFile at 1.
    change (testProgramIdl_with_payer w key args _)
      with (testProgramIdl_with_payer w key args logged).
    rewrite Hwith.
    now destruct (rpc_simulateTransaction w fetched transaction). }
  unfold request. rewrite testProgramIdl_dispatch. fold args.
  assert (Hhandler :
            match v with
            | Stdio => testProgramIdl_handler w env
            | EventStream => testProgramIdl_sse_handler w env
            end args s =
            match rpc_simulateTransaction w fetched transaction with
            | OK simulation =>
                (OK (result [text_item "Simulation result:";
                             text_item (JSON_stringify w true simulation)]), s3)
            | Throw e =>
                match v with
                | Stdio => catch_log_error e s3
                | EventStream => testProgramIdl_sse_catch e s3
                end
            end).
  { destruct v;
      unfold testProgramIdl_handler, testProgramIdl_sse_handler,
        testProgramIdl_body, testProgramIdl_sse_body;
      rewrite Hmissing, Henv; cbn [from_option id];
      rewrite Hrun; reflexivity. }
  rewrite Hhandler.
  split; [ | split; [ | split; [exact Hlen | exact Hpayer]]].
  - destruct (rpc_simulateTransaction w fetched transaction); [exact Hnet | ].
    destruct v; cbn; exact Hnet.
  - destruct (rpc_simulateTransaction w fetched transaction); [reflexivity | ].
    destruct v; reflexivity.
Qed.

Lemma testProgramIdl_builds_from_first_argument_witness :
  let request := JObj [("programId", JStr "P"); ("inputJson", JStr "input");
                       ("instructionName", JStr "deposit")] in
  (length (ix_accounts deposit_instruction) <> 1 /\
   length (ix_args deposit_instruction) <> 3) /\
  net (snd (dispatch (Mocks.world simulation_setup) payer_env Stdio "testProgramIdl"
              request Mocks.no_effects)) =
    [FetchIdl (PK (Buffer_from "P")); SimulateTransaction sample_transaction] /\
  fst (dispatch (Mocks.world simulation_setup) payer_env Stdio "testProgramIdl"
         request Mocks.no_effects) =
    OK (result [text_item "Simulation result:";
                text_item (Mocks.stringify (JObj [("err", JNull)]))]).
Proof.
  intros request.
  split; [split; discriminate | ].
  edestruct (testProgramIdl_builds_from_first_argument
               (Mocks.world simulation_setup) payer_env Stdio "P" "input" "deposit"
               "payer" (Buffer_from "payer") sample_payer (PK (Buffer_from "P"))
               sample_idl sample_input deposit_instruction
               [JObj [("name", JStr "vault"); ("pubkey", JStr "V")]]
               (JArr [JObj [("name", JStr "amount"); ("value", JNum 258)];
                      JObj [("name", JStr "fee"); ("value", JNum 7)];
                      JObj [("name", JStr "tip"); ("value", JNum 9)]])
               (JObj [("name", JStr "amount"); ("value", JNum 258)])
               (JNum 258)
               {| field_name := "amount"; field_type := JStr "u64" |}
               [{| field_name := "memo"; field_type := JStr "string" |}]
               258%Z) as (Hnet & Hres & _);
    [reflexivity | discriminate | reflexivity | reflexivity | reflexivity | reflexivity
    | reflexivity | reflexivity | reflexivity | reflexivity | left; reflexivity
    | reflexivity | reflexivity | reflexivity | reflexivity | reflexivity | reflexivity
    | reflexivity | reflexivity | reflexivity | ].
  split; [exact Hnet | exact Hres].
Defined.

(** End to end, on the same input: the stdio server simulates the
    instruction although the lengths disagree, and the data is built from
    [amount] alone. *)
Lemma testProgramIdl_mismatch_example :
  dispatch (Mocks.world simulation_setup) payer_env Stdio "testProgramIdl"
           (JObj [("programId", JStr "P"); ("inputJson", JStr "input");
                  ("instructionName", JStr "deposit")]) Mocks.no_effects =
  (OK (result [text_item "Simulation result:";
               text_item (Mocks.stringify (JObj [("err", JNull)]))]),
   snd (dispatch (Mocks.world simulation_setup) payer_env Stdio "testProgramIdl"
           (JObj [("programId", JStr "P"); ("inputJson", JStr "input");
                  ("instructionName", JStr "deposit")]) Mocks.no_effects)) /\
  net (snd (dispatch (Mocks.world simulation_setup) payer_env Stdio "testProgramIdl"
           (JObj [("programId", JStr "P"); ("inputJson", JStr "input");
                  ("instructionName", JStr "deposit")]) Mocks.no_effects)) =
  [FetchIdl (PK (Buffer_from "P")); SimulateTransaction sample_transaction].
Proof. split; vm_compute; reflexivity. Qed.

(** C6, as stated, fails. The instruction [ping] declares no argument and
    the input supplies three: the lengths disagree, and the handler, in
    place of building and simulating the instruction, returns an error
    (there is no [args[0]] to encode); the simulation is not called. *)
Lemma testProgramIdl_no_declared_argument :
  length (ix_args ping_instruction) <> 3 /\
  (exists msg,
     fst (dispatch (Mocks.world simulation_setup) payer_env Stdio "testProgramIdl"
            (JObj [("programId", JStr "P"); ("inputJson", JStr "input");
                   ("instructionName", JStr "ping")]) Mocks.no_effects) =
     OK (result [text_item ("Error: " ++ msg)])) /\
  net (snd (dispatch (Mocks.world simulation_setup) payer_env Stdio "testProgramIdl"
           (JObj [("programId", JStr "P"); ("inputJson", JStr "input");
                  ("instructionName", JStr "ping")]) Mocks.no_effects)) =
  [FetchIdl (PK (Buffer_from "P"))].
Proof.
  split; [discriminate | split].
  - eexists. vm_compute. reflexivity.
  - vm_compute. reflexivity.
Qed.

(** ** Printed amounts *)

(** The quotient by [LAMPORTS_PER_SOL] as JavaScript prints it. *)
Example sol_toString_examples (w : World) :
  map (sol_toString w) [0; 1; 15; 999; 1000; 2039280; 1500000000; 1000000000;
                        123456789012]%Z =
  ["0"; "1e-9"; "1.5e-8"; "9.99e-7"; "0.000001"; "0.00203928"; "1.5"; "1";
   "123.456789012"].
Proof. reflexivity. Qed.

(** [bn.toArrayLike(Buffer, "le", 8)] on a few values. *)
Example BN_toArrayLike_le_examples :
  BN_toArrayLike_le 258 8 = OK [2; 1; 0; 0; 0; 0; 0; 0]%Z /\
  BN_toArrayLike_le (-1) 8 = OK [1; 0; 0; 0; 0; 0; 0; 0]%Z /\
  BN_toArrayLike_le (2 ^ 64) 8 = Throw (Error_ "byte array longer than desired length").
Proof. repeat split; reflexivity. Qed.

(** ** Calls made by the handlers *)

Lemma effects_eta (s : Effects) :
  s = {| log := (log s ++ [])%list; net := (net s ++ [])%list |}.
Proof. destruct s; cbn. now rewrite !app_nil_r. Qed.

Lemma within_quiet kinds n {A} (c : M A) :
  (forall s, snd (c s) = s) -> within kinds n c.
Proof.
  intros H s. exists [], []. rewrite H.
  split; [apply effects_eta | split; [constructor | cbn; lia]].
Qed.

Lemma within_ret kinds n {A} (a : A) : within kinds n (ret a).
Proof. now apply within_quiet. Qed.

Lemma within_throw kinds n {A} (e : JsError) : within kinds n (@throw A e).
Proof. now apply within_quiet. Qed.

Lemma within_lift kinds n {A} (x : Exc A) : within kinds n (lift x).
Proof. now apply within_quiet. Qed.

Lemma within_logToFile kinds n (m : string) : within kinds n (logToFile m).
Proof.
  intros s. exists [m], []. cbn. rewrite app_nil_r.
  split; [reflexivity | split; [constructor | lia]].
Qed.

Lemma within_netcall kinds n {A} (c : NetCall) (answer : list NetCall -> Exc A) :
  In (kind_of c) kinds -> within kinds (S n) (netcall c answer).
Proof.
  intros H s. exists [], [c]. cbn. rewrite app_nil_r.
  split; [reflexivity | split; [now repeat constructor | lia]].
Qed.

Lemma within_weaken kinds n m {A} (c : M A) :
  n <= m -> within kinds n c -> within kinds m c.
Proof.
  intros Hnm H s. destruct (H s) as (lines & calls & E & F & L).
  exists lines, calls. repeat split; [exact E | exact F | lia].
Qed.

Lemma within_bind kinds n m {A B} (c : M A) (k : A -> M B) :
  within kinds n c -> (forall a, within kinds m (k a)) ->
  within kinds (n + m) (bind c k).
Proof.
  intros Hc Hk s. unfold bind.
  destruct (Hc s) as (l1 & c1 & E1 & F1 & L1).
  destruct (c s) as [[a | e] s1]; cbn [snd] in E1; subst s1.
  - destruct (Hk a {| log := (log s ++ l1)%list; net := (net s ++ c1)%list |})
      as (l2 & c2 & E2 & F2 & L2).
    exists (l1 ++ l2)%list, (c1 ++ c2)%list. rewrite E2. cbn [log net].
    rewrite !app_assoc.
    split; [reflexivity | split; [now apply Forall_app | rewrite length_app; lia]].
  - exists l1, c1. cbn [snd]. repeat split; [exact F1 | lia].
Qed.

Lemma within_bind_0 kinds m {A B} (c : M A) (k : A -> M B) :
  within kinds 0 c -> (forall a, within kinds m (k a)) -> within kinds m (bind c k).
Proof. intros Hc Hk. exact (within_bind kinds 0 m c k Hc Hk). Qed.

Lemma within_bind_1 kinds m {A B} (c : M A) (k : A -> M B) :
  within kinds 1 c -> (forall a, within kinds m (k a)) -> within kinds (S m) (bind c k).
Proof. intros Hc Hk. exact (within_bind kinds 1 m c k Hc Hk). Qed.

Lemma within_try_catch kinds n m {A} (body : M A) (handler : JsError -> M A) :
  within kinds n body -> (forall e, within kinds m (handler e)) ->
  within kinds (n + m) (try_catch body handler).
Proof.
  intros Hb Hh s. unfold try_catch.
  destruct (Hb s) as (l1 & c1 & E1 & F1 & L1).
  destruct (body s) as [[a | e] s1]; cbn [snd] in E1; subst s1.
  - exists l1, c1. cbn [snd]. repeat split; [exact F1 | lia].
  - destruct (Hh e {| log := (log s ++ l1)%list; net := (net s ++ c1)%list |})
      as (l2 & c2 & E2 & F2 & L2).
    exists (l1 ++ l2)%list, (c1 ++ c2)%list. rewrite E2. cbn [log net].
    rewrite !app_assoc.
    split; [reflexivity | split; [now apply Forall_app | rewrite length_app; lia]].
Qed.

Lemma within_try_catch_0 kinds n {A} (body : M A) (handler : JsError -> M A) :
  within kinds n body -> (forall e, within kinds 0 (handler e)) ->
  within kinds n (try_catch body handler).
Proof.
  intros Hb Hh. apply (within_weaken kinds (n + 0) n); [lia | ].
  now apply within_try_catch.
Qed.

Lemma within_start kinds n {A} (c : M A) :
  within kinds n c -> within kinds n (start c).
Proof.
  intros H s. unfold start. destruct (H s) as (lines & calls & E & F & L).
  destruct (c s) as [r s1]. now exists lines, calls.
Qed.

Lemma within_mapM kinds {A B} (f : A -> M B) (l : list A) :
  (forall x, within kinds 0 (f x)) -> within kinds 0 (mapM f l).
Proof.
  intros Hf. induction l as [ | x l IH]; cbn [mapM].
  - apply within_ret.
  - apply within_bind_0; [apply Hf | intros y].
    apply within_bind_0; [exact IH | intros ys; apply within_ret].
Qed.

Lemma within_forEach kinds {A S} (f : S -> A -> M S) (l : list A) :
  (forall s x, within kinds 0 (f s x)) -> forall s, within kinds 0 (forEach f s l).
Proof.
  intros Hf. induction l as [ | x l IH]; intros s; cbn [forEach].
  - apply within_ret.
  - apply within_bind_0; [apply Hf | intros s'; apply IH].
Qed.

Ltac head_of t :=
  lazymatch t with
  | ?f _ => head_of f
  | _ => t
  end.

(** Solves [within kinds n c] for a budget [n] given as a numeral, following
    the structure of [c]; on a [bind] it first tries to give the left part
    no call, then one call. *)
Ltac within_tac :=
  intros; cbv beta zeta;
  lazymatch goal with
  | |- within _ _ (ret _) => apply within_ret
  | |- within _ _ (throw _) => apply within_throw
  | |- within _ _ (lift _) => apply within_lift
  | |- within _ _ (logToFile _) => apply within_logToFile
  | |- within _ _ (netcall _ _) => apply within_netcall; cbn; auto 10
  | |- within _ _ (start _) => apply within_start; within_tac
  | |- within _ _ (mapM _ _) => apply within_mapM; within_tac
  | |- within _ _ (forEach _ _ _) => apply within_forEach; within_tac
  | |- within _ _ (try_catch _ _) => apply within_try_catch_0; within_tac
  | |- within _ _ (bind _ _) =>
      first [ apply within_bind_0; [solve [within_tac] | within_tac]
            | apply within_bind_1; [solve [within_tac] | within_tac] ]
  | |- within _ _ (match ?x with _ => _ end) => destruct x; try congruence; within_tac
  | |- within _ _ ?c => let h := head_of c in unfold h; within_tac
  end.

(** The handler of every registered tool stays within the capabilities
    listed for its name. *)
Lemma handlers_within_capabilities (w : World) (env : gmap string string) (v : Variant)
    (t : Tool) (args : Args) :
  In t (registrations w env v) ->
  within (fst (capabilities (tool_name t))) (snd (capabilities (tool_name t)))
         (tool_handler t args).
Proof.
  intros Hin.
  destruct v; cbn in Hin;
    repeat (destruct Hin as [<- | Hin]); try contradiction;
    unfold tool_handler;
    cbn [tool_catch tool_try tool_name
      tool_getAccountInfo tool_getBalance tool_getMinimumBalanceForRentExemption
      tool_getTransaction tool_getPriorityFee tool_getPriorityFee_sse
      tool_generateSecurityTxt tool_getProgramIdl tool_createGPAFilters
      tool_testProgramIdl tool_testProgramIdl_sse tool_lookupProgramAuth
      tool_lookupProgramAuth_sse tool_checkupProgram tool_checkProgramDeployment
      tool_createCPI tool_getDuneSolanaData tool_buildTransaction
      tool_submitTransaction tool_analyzeTransaction];
    match goal with
    | |- within (fst (capabilities ?n)) _ _ =>
        let r := eval vm_compute in (capabilities n) in
        change (capabilities n) with r
    end;
    cbn [fst snd];
    within_tac.
Qed.

Lemma dispatch_within (w : World) (env : gmap string string) (v : Variant)
    (name : string) (rawArgs : JValue) :
  within (fst (capabilities name)) (snd (capabilities name))
         (dispatch w env v name rawArgs).
Proof.
  unfold dispatch, dispatch_in.
  destruct (lookup_tool (registrations w env v) name) as [t | ] eqn:Hl;
    [ | apply within_throw].
  apply lookup_tool_In in Hl as [Hin <-].
  destruct (validate w (tool_schema t) rawArgs) as [args | e]; [ | apply within_throw].
  exact (handlers_within_capabilities w env v t args Hin).
Qed.

(** X1. Whatever the collaborators answer, a dispatch only appends to the
    log and to the trace of calls, and the calls it makes are of the kinds
    listed for the tool and at most as many as listed: one for the plain RPC
    lookups, three for [getProgramIdl], six for [checkProgramDeployment],
    none for [generateSecurityTxt]. No handler retries or loops over a
    call. *)
Theorem dispatch_calls_bounded (w : World) (env : gmap string string) (v : Variant)
    (name : string) (rawArgs : JValue) (s : Effects) :
  exists lines calls,
    snd (dispatch w env v name rawArgs s) =
      {| log := (log s ++ lines)%list; net := (net s ++ calls)%list |} /\
    Forall (fun call => In (kind_of call) (fst (capabilities name))) calls /\
    length calls <= snd (capabilities name).
Proof. exact (dispatch_within w env v name rawArgs s). Qed.

Lemma capabilities_send (name : string) :
  In KSendAndConfirmRawTransaction (fst (capabilities name)) ->
  name = "submitTransaction".
Proof.
  unfold capabilities.
  repeat match goal with
         | |- context [if ?a =? ?b then _ else _] =>
             destruct (String.eqb_spec a b) as [-> | _]
         end; cbn; intros H;
    repeat (destruct H as [H | H]; try discriminate H); try reflexivity;
    contradiction.
Qed.

Lemma capabilities_simulation (name : string) :
  In KSimulateTransaction (fst (capabilities name)) ->
  name = "testProgramIdl".
Proof.
  unfold capabilities.
  repeat match goal with
         | |- context [if ?a =? ?b then _ else _] =>
             destruct (String.eqb_spec a b) as [-> | _]
         end; cbn; intros H;
    repeat (destruct H as [H | H]; try discriminate H); try reflexivity;
    contradiction.
Qed.

(** X2. In both servers, the only tool that ever sends a transaction is
    [submitTransaction], and the only one that ever asks for a simulation is
    [testProgramIdl]: a dispatch of any other tool, on any input and
    whatever the collaborators answer, adds neither call to the trace. *)
Theorem only_submitTransaction_sends (w : World) (env : gmap string string)
    (v : Variant) (name : string) (rawArgs : JValue) (s : Effects) :
  name <> "submitTransaction" ->
  exists calls,
    net (snd (dispatch w env v name rawArgs s)) = (net s ++ calls)%list /\
    Forall (fun call => is_send call = false) calls /\
    (name <> "testProgramIdl" -> Forall (fun call => is_simulation call = false) calls).
Proof.
  intros Hname.
  destruct (dispatch_within w env v name rawArgs s) as (lines & calls & E & F & _).
  exists calls. rewrite E. split; [reflexivity | ].
  split; [ | intros Hsim].
  - eapply Forall_impl; [exact F | ]. intros call Hc. cbn beta in Hc.
    destruct call; try reflexivity.
    now apply capabilities_send in Hc.
  - eapply Forall_impl; [exact F | ]. intros call Hc. cbn beta in Hc.
    destruct call; try reflexivity.
    now apply capabilities_simulation in Hc.
Qed.

Lemma only_submitTransaction_sends_witness :
  "getProgramIdl" <> "submitTransaction" /\
  exists calls,
    net (snd (dispatch (Mocks.world Mocks.empty_setup) ∅ Stdio "getProgramIdl"
                (JObj [("programId", JStr "P")]) Mocks.no_effects)) =
      (net Mocks.no_effects ++ calls)%list /\
    Forall (fun call => is_send call = false) calls /\
    ("getProgramIdl" <> "testProgramIdl" ->
     Forall (fun call => is_simulation call = false) calls).
Proof.
  assert (H : "getProgramIdl" <> "submitTransaction") by discriminate.
  split; [exact H | ].
  exact (only_submitTransaction_sends (Mocks.world Mocks.empty_setup) ∅ Stdio
           "getProgramIdl" (JObj [("programId", JStr "P")]) Mocks.no_effects H).
Defined.

(** ** Routing and logging of the posted messages *)

Section EndpointsRouting.

Import Endpoints.

Variable w : World.
Variable handlePostMessage : nat -> JValue -> HttpResponse.
Variable bad_request : JValue -> string.

#[local] Abbreviation run' := (Endpoints.run w handlePostMessage bad_request).

Lemma run_routed rs : forall s,
  latest_stream s ->
  latest_stream (fst (run' s rs)) /\
  delivered (fst (run' s rs)) = (delivered s ++ routed (streams s) rs)%list /\
  streams (fst (run' s rs)) = streams s + length (List.filter is_GET_sse rs).
Proof.
  induction rs as [ | r rs IH]; intros s Hs; cbn [Endpoints.run routed List.filter].
  - cbn. rewrite app_nil_r. repeat split; [exact Hs | lia].
  - destruct r as [ | m]; cbn [Endpoints.step is_GET_sse].
    + unfold get_sse.
      match goal with |- context [run' ?s1 rs] =>
        destruct (IH s1) as (H1 & H2 & H3); [reflexivity | ];
        destruct (run' s1 rs) as [s2 l] end.
      cbn in *. repeat split; [exact H1 | exact H2 | lia].
    + assert (Hparse : express_json m = if is_object_or_array m then Some m else None)
        by now destruct m.
      rewrite Hparse.
      destruct (is_object_or_array m).
      * unfold post_messages. unfold latest_stream in Hs. rewrite Hs.
        destruct (streams s) as [ | k] eqn:Hk.
        -- match goal with |- context [run' ?s1 rs] =>
             destruct (IH s1) as (H1 & H2 & H3);
               [unfold latest_stream; cbn; rewrite ?Hk; reflexivity | ];
             destruct (run' s1 rs) as [s2 l] end.
           cbn in *. rewrite ?Hk in *. repeat split; [exact H1 | exact H2 | lia].
        -- match goal with |- context [run' ?s1 rs] =>
             destruct (IH s1) as (H1 & H2 & H3);
               [unfold latest_stream; cbn; rewrite ?Hk; reflexivity | ];
             destruct (run' s1 rs) as [s2 l] end.
           cbn in *. rewrite ?Hk in *. rewrite <- app_assoc in H2.
           repeat split; [exact H1 | exact H2 | lia].
      * destruct (IH s Hs) as (H1 & H2 & H3).
        destruct (run' s rs) as [s2 l]. cbn [fst] in *.
        repeat split; [exact H1 | | lia].
        rewrite H2. now destruct (streams s).
Qed.


End EndpointsRouting.

(** ** Resources *)

(** X5. Reading either documentation resource never fails: it makes one GET
    request to the fixed address of the document, whatever URI was asked
    for, writes nothing to the log, and returns exactly one content entry
    that carries the URI asked for and either the text of the document or,
    when the request or the reading of its body fails, [Error: <message>]. *)
Theorem resource_returns_one_entry (w : World) (r : Resource) (href : string)
    (s : Effects) :
  In r resources ->
  resource_read w r href s =
  (OK {| contents :=
           [{| uri := href;
               resource_text :=
                 document_or_error (http_fetch w (net s) (resource_url r) "GET" None) |}] |},
   {| log := log s;
      net := (net s ++ [Fetch (resource_url r) "GET" None])%list |}).
Proof.
  intros _.
  unfold resource_read, docs_resource, docs_resource_body, docs_resource_catch,
    try_catch, bind, fetch, netcall, lift, ret, document_or_error.
  destruct (http_fetch w (net s) (resource_url r) "GET" None) as [response | e];
    [ | reflexivity].
  now destruct (resp_text response).
Qed.

Lemma resource_returns_one_entry_witness :
  In solanaDocsClusters resources /\
  resource_read (Mocks.world Mocks.empty_setup) solanaDocsClusters
                "solana://docs/references/clusters" Mocks.no_effects =
  (OK {| contents := [{| uri := "solana://docs/references/clusters";
                         resource_text := "Error: not mocked" |}] |},
   {| log := []; net := [Fetch (resource_url solanaDocsClusters) "GET" None] |}).
Proof.
  assert (H : In solanaDocsClusters resources) by (right; left; reflexivity).
  split; [exact H | ].
  exact (resource_returns_one_entry (Mocks.world Mocks.empty_setup) solanaDocsClusters
           "solana://docs/references/clusters" Mocks.no_effects H).
Defined.

(** ** generateSecurityTxt *)

Lemma string_app_nil_r (s : string) : s ++ "" = s.
Proof.
  induction s as [ | c s IH]; [reflexivity | ].
  change (String c s ++ "") with (String c (s ++ "")). now rewrite IH.
Qed.

Lemma string_app_assoc (a b c : string) : (a ++ b) ++ c = a ++ (b ++ c).
Proof.
  induction a as [ | x a IH]; [reflexivity | ].
  change ((String x a ++ b) ++ c) with (String x ((a ++ b) ++ c)).
  now rewrite IH.
Qed.

Lemma join_empty_cons (x : string) (l : list string) :
  join "" (x :: l) = x ++ join "" l.
Proof.
  destruct l; cbn [join]; [symmetry; apply string_app_nil_r | reflexivity].
Qed.

Lemma join_empty_app (l1 l2 : list string) :
  join "" (l1 ++ l2) = join "" l1 ++ join "" l2.
Proof.
  induction l1 as [ | x l1 IH]; [reflexivity | ].
  change ((x :: l1) ++ l2)%list with (x :: (l1 ++ l2))%list.
  now rewrite !join_empty_cons, IH, string_app_assoc.
Qed.

Lemma securityTxt_content_app (w : World) (a b : Args) :
  securityTxt_content w (a ++ b)%list = securityTxt_content w a ++ securityTxt_content w b.
Proof.
  unfold securityTxt_content, defined_entries.
  now rewrite List.filter_app, map_app, join_empty_app.
Qed.

(** X6. The text generated by [generateSecurityTxt] lists the fields in the
    order of the arguments: a field with a string value contributes its name
    and its value, each followed by a NUL character, at its place. A field
    that is [undefined] (an optional field left out) leaves no trace: the
    handler returns what it returns without that field. *)
Theorem securityTxt_lists_defined_fields (w : World) (before after : Args)
    (k value : string) :
  securityTxt_content w (before ++ (k, JStr value) :: after)%list =
    securityTxt_content w before ++ (k ++ nul ++ value ++ nul) ++
    securityTxt_content w after /\
  generateSecurityTxt_handler w (before ++ (k, JUndefined) :: after)%list =
    generateSecurityTxt_handler w (before ++ after)%list.
Proof.
  split.
  - rewrite securityTxt_content_app.
    change ((k, JStr value) :: after) with ([(k, JStr value)] ++ after)%list.
    rewrite securityTxt_content_app. reflexivity.
  - assert (H : securityTxt_content w (before ++ (k, JUndefined) :: after)%list =
                securityTxt_content w (before ++ after)%list).
    { rewrite !securityTxt_content_app.
      change ((k, JUndefined) :: after) with ([(k, JUndefined)] ++ after)%list.
      rewrite securityTxt_content_app. reflexivity. }
    unfold generateSecurityTxt_handler, securityTxt_macro, securityTxt_text.
    now rewrite H.
Qed.

(** ** Prompts and their parameters *)

(** X7. Every registered prompt renders to exactly one message, of role
    [user] and of type [text]; whatever value is given for a parameter the
    prompt declares, that value occurs in the text of the message. *)
Theorem prompts_embed_their_parameter (w : World) (p : Prompt) (k value : string) :
  In p prompts ->
  In k (map fst (prompt_schema p)) ->
  exists t,
    render w (prompt_name p) (JObj [(k, JStr value)]) =
      OK [{| role := "user"; msg_content := text_item t |}] /\
    contains value t.
Proof.
  intros Hp Hk.
  cbn in Hp.
  destruct Hp as [<- | [<- | [<- | [<- | [<- | []]]]]]; cbn in Hk;
    try contradiction;
    destruct Hk as [<- | []];
    (eexists; split; [reflexivity | eexists _, _; reflexivity]).
Qed.

Lemma prompts_embed_their_parameter_witness :
  In prompt_calculate_storage_deposit prompts /\
  In "bytes" (map fst (prompt_schema prompt_calculate_storage_deposit)) /\
  exists t,
    render (Mocks.world Mocks.empty_setup) (prompt_name prompt_calculate_storage_deposit)
           (JObj [("bytes", JStr "165")]) =
      OK [{| role := "user"; msg_content := text_item t |}] /\
    contains "165" t.
Proof.
  assert (H1 : In prompt_calculate_storage_deposit prompts) by (left; reflexivity).
  assert (H2 : In "bytes" (map fst (prompt_schema prompt_calculate_storage_deposit)))
    by (left; reflexivity).
  split; [exact H1 | split; [exact H2 | ]].
  exact (prompts_embed_their_parameter (Mocks.world Mocks.empty_setup)
           prompt_calculate_storage_deposit "bytes" "165" H1 H2).
Defined.

(** ** getDuneSolanaData *)

Lemma env_present (env : gmap string string) (var key : string) :
  env !! var = Some key -> key <> "" -> env_missing (env !! var) = false.
Proof.
  intros -> Hne. cbn. now apply String.eqb_neq.
Qed.

(** X8. When [DUNE_API_KEY] is set, [getDuneSolanaData] starts its three
    queries, 2611952, 2611885 and 2611938 in this order, before it looks at
    any answer: the three calls are made whatever the answers are, also when
    the first one fails, and no other call is made. The first two carry the
    program identifier and the number of days, the third the program
    identifier only. *)
Theorem dune_runs_three_queries (w : World) (env : gmap string string) (args : Args)
    (key : string) (s : Effects) :
  env !! "DUNE_API_KEY" = Some key ->
  key <> "" ->
  net (snd (getDuneSolanaData_handler w env args s)) =
  (net s ++
   [DuneRunQuery key 2611952 [("program id", JStr (arg_str args "programId"));
                              ("days", JNum (arg_num args "days"))];
    DuneRunQuery key 2611885 [("program id", JStr (arg_str args "programId"));
                              ("days", JNum (arg_num args "days"))];
    DuneRunQuery key 2611938 [("program id", JStr (arg_str args "programId"))]])%list.
Proof.
  intros Hkey Hne.
  unfold getDuneSolanaData_handler, getDuneSolanaData_body, getDuneSolanaData_catch.
  cbv zeta. rewrite (env_present env _ key Hkey Hne), Hkey.
  unfold try_catch, bind, start, runQuery, netcall, lift, logToFile, ret, Promise_all3.
  cbn.
  repeat (break_match; cbn); rewrite <- ?app_assoc; reflexivity.
Qed.

Lemma dune_runs_three_queries_witness :
  dune_env !! "DUNE_API_KEY" = Some "dune-key" /\
  "dune-key" <> "" /\
  net (snd (getDuneSolanaData_handler (Mocks.world Mocks.empty_setup) dune_env
              [("programId", JStr "P"); ("days", JNum 10)] Mocks.no_effects)) =
  [DuneRunQuery "dune-key" 2611952 [("program id", JStr "P"); ("days", JNum 10)];
   DuneRunQuery "dune-key" 2611885 [("program id", JStr "P"); ("days", JNum 10)];
   DuneRunQuery "dune-key" 2611938 [("program id", JStr "P")]].
Proof.
  assert (H1 : dune_env !! "DUNE_API_KEY" = Some "dune-key") by reflexivity.
  assert (H2 : "dune-key" <> "") by discriminate.
  split; [exact H1 | split; [exact H2 | ]].
  exact (dune_runs_three_queries (Mocks.world Mocks.empty_setup) dune_env
           [("programId", JStr "P"); ("days", JNum 10)] "dune-key" Mocks.no_effects H1 H2).
Defined.

(** ** checkupProgram *)

(** X9. [checkupProgram] sends the program identifier to verify.osec.io
    before it checks that the identifier is a public key: the request is
    always its first call, and for an identifier that is not a public key
    the request has been made when the error is returned. *)
Theorem checkupProgram_asks_osec_first (w : World) (env : gmap string string)
    (v : Variant) (programId : string) (s : Effects) :
  let outcome :=
    dispatch w env v "checkupProgram" (JObj [("programId", JStr programId)]) s in
  (exists rest,
     net (snd outcome) = (net s ++ Fetch (osec_url programId) "GET" None :: rest)%list) /\
  (forall response e,
     http_fetch w (net s) (osec_url programId) "GET" None = OK response ->
     PublicKey_new w (JStr programId) = Throw e ->
     fst outcome = OK (error_result e) /\
     net (snd outcome) = (net s ++ [Fetch (osec_url programId) "GET" None])%list).
Proof.
  cbv zeta.
  assert (Hd : dispatch w env v "checkupProgram" (JObj [("programId", JStr programId)]) s =
               checkupProgram_handler w [("programId", JStr programId)] s)
    by now destruct v.
  rewrite Hd. clear Hd.
  unfold checkupProgram_handler, checkupProgram_body, catch_log_error, osec_url.
  unfold try_catch, bind, fetch, connection_getAccountInfo, netcall, lift, logToFile,
    throw, ret, arg.
  cbn.
  split.
  - repeat (break_match; cbn); rewrite <- ?app_assoc; cbn; eexists; reflexivity.
  - intros response e Hf Hk. rewrite Hf, Hk. cbn. split; reflexivity.
Qed.

(** X10. The verdict of [checkupProgram] does not come from verify.osec.io:
    when the lookups succeed, "Verified Build" is [true] exactly when the
    account whose address stands in bytes 4 to 36 of the program account is
    owned by the upgradeable BPF loader; the answer of verify.osec.io is
    only printed after it. *)
Theorem checkupProgram_verdict (w : World) (env : gmap string string) (v : Variant)
    (programId : string) (s : Effects) (response : Response) (programPubkey : PublicKey)
    (programInfo : AccountInfo) (upgradeAuthorityPubkey : PublicKey)
    (upgradeAuthorityInfo : AccountInfo) (loader : PublicKey) (body : JValue) :
  let asked := (net s ++ [Fetch (osec_url programId) "GET" None])%list in
  http_fetch w (net s) (osec_url programId) "GET" None = OK response ->
  PublicKey_new w (JStr programId) = OK programPubkey ->
  rpc_getAccountInfo w asked programPubkey = OK (Some programInfo) ->
  PublicKey_fromBuffer w (slice 4 36 (data programInfo)) = OK upgradeAuthorityPubkey ->
  rpc_getAccountInfo w (asked ++ [GetAccountInfo programPubkey])%list
                     upgradeAuthorityPubkey = OK (Some upgradeAuthorityInfo) ->
  PublicKey_new w (JStr BPF_LOADER_UPGRADEABLE) = OK loader ->
  resp_json response = OK body ->
  fst (dispatch w env v "checkupProgram" (JObj [("programId", JStr programId)]) s) =
  OK (result
        [text_item ("Verified Build: " ++
                    (if bool_decide (owner upgradeAuthorityInfo = loader)
                     then "true" else "false"));
         text_item ("Security.txt: " ++ JSON_stringify w true body)]).
Proof.
  cbv zeta. intros Hf Hk Hi Ha Hu Hl Hj.
  assert (Hd : dispatch w env v "checkupProgram" (JObj [("programId", JStr programId)]) s =
               checkupProgram_handler w [("programId", JStr programId)] s)
    by now destruct v.
  rewrite Hd. clear Hd.
  unfold checkupProgram_handler, checkupProgram_body, catch_log_error, osec_url in *.
  unfold try_catch, bind, fetch, connection_getAccountInfo, netcall, lift, logToFile,
    throw, ret, arg, pk_equals, bool_toString.
  cbn in *. rewrite Hf. cbn. rewrite Hk, Hi. cbn. rewrite Ha. cbn.
  rewrite Hu. cbn. rewrite Hl, Hj. reflexivity.
Qed.

Lemma checkupProgram_asks_osec_first_witness :
  fst (dispatch checkup_world ∅ Stdio "checkupProgram"
         (JObj [("programId", JStr "")]) Mocks.no_effects) =
    OK (error_result (Error_ "Invalid public key input")) /\
  net (snd (dispatch checkup_world ∅ Stdio "checkupProgram"
              (JObj [("programId", JStr "")]) Mocks.no_effects)) =
    [Fetch (osec_url "") "GET" None].
Proof.
  exact (proj2 (checkupProgram_asks_osec_first checkup_world ∅ Stdio "" Mocks.no_effects)
               (ok_response (JObj [("is_verified", JBool false)]))
               (Error_ "Invalid public key input") eq_refl eq_refl).
Defined.

Lemma checkupProgram_verdict_witness :
  fst (dispatch checkup_world ∅ Stdio "checkupProgram"
         (JObj [("programId", JStr "P")]) Mocks.no_effects) =
  OK (result
        [text_item "Verified Build: false";
         text_item ("Security.txt: " ++
                    Mocks.stringify (JObj [("is_verified", JBool false)]))]).
Proof.
  exact (checkupProgram_verdict checkup_world ∅ Stdio "P" Mocks.no_effects
           (ok_response (JObj [("is_verified", JBool false)]))
           (PK (Buffer_from "P"))
           {| data := (map Z.of_nat [2; 0; 0; 0] ++ Buffer_from "D")%list; owner := PK [];
              lamports := 1; executable := true |}
           (PK (Buffer_from "D"))
           {| data := program_data_sample; owner := PK [];
              lamports := 1; executable := false |}
           (PK (Buffer_from BPF_LOADER_UPGRADEABLE))
           (JObj [("is_verified", JBool false)])
           eq_refl eq_refl eq_refl eq_refl eq_refl eq_refl eq_refl).
Defined.

(** ** buildTransaction and submitTransaction *)

Lemma within_0_net kinds {A} (c : M A) (s : Effects) :
  within kinds 0 c -> net (snd (c s)) = net s.
Proof.
  intros H. destruct (H s) as (lines & calls & E & _ & L).
  destruct calls; [ | cbn in L; lia].
  rewrite E. cbn. now rewrite app_nil_r.
Qed.

(** X11. With a non-empty [recentBlockhash], [buildTransaction] works
    offline: whatever the instructions and whatever fails on the way, it
    makes no call to the outside world. *)
Theorem buildTransaction_offline_with_blockhash (w : World) (env : gmap string string)
    (args : Args) (s : Effects) :
  truthy (arg args "recentBlockhash") = true ->
  net (snd (buildTransaction_handler w env args s)) = net s.
Proof.
  intros Hb. apply (within_0_net []).
  unfold buildTransaction_handler, buildTransaction_body.
  within_tac.
Qed.

Lemma buildTransaction_offline_with_blockhash_witness :
  truthy (arg [("instructions", JArr []); ("recentBlockhash", JStr "h")]
              "recentBlockhash") = true /\
  net (snd (buildTransaction_handler (Mocks.world Mocks.empty_setup) payer_env
              [("instructions", JArr []); ("recentBlockhash", JStr "h")]
              Mocks.no_effects)) = [].
Proof.
  split; [reflexivity | ].
  exact (buildTransaction_offline_with_blockhash (Mocks.world Mocks.empty_setup) payer_env
           [("instructions", JArr []); ("recentBlockhash", JStr "h")]
           Mocks.no_effects eq_refl).
Defined.

(** X12. [submitTransaction] sends nothing unless the text decodes to a
    transaction that serializes with all its signatures present and valid:
    when either step fails the result is [Error: <message>] and no call is
    made. Otherwise exactly one call is made, which sends the bytes of that
    serialization with the [skipPreflight] given, and the result is the
    signature returned, or the error of the call. *)
Theorem submitTransaction_sends_once (w : World) (args : Args) (s : Effects) :
  let decoded :=
    Transaction_from w (Buffer_from_base64 w (arg_str args "serializedTransaction")) in
  let skipPreflight := arg_bool args "skipPreflight" in
  match decoded with
  | Throw e =>
      fst (submitTransaction_handler w args s) = OK (error_result e) /\
      net (snd (submitTransaction_handler w args s)) = net s
  | OK transaction =>
      match Transaction_serialize w true true transaction with
      | Throw e =>
          fst (submitTransaction_handler w args s) = OK (error_result e) /\
          net (snd (submitTransaction_handler w args s)) = net s
      | OK raw =>
          net (snd (submitTransaction_handler w args s)) =
            (net s ++ [SendAndConfirmRawTransaction raw skipPreflight])%list /\
          fst (submitTransaction_handler w args s) =
            match rpc_sendAndConfirmRawTransaction w (net s) raw skipPreflight with
            | OK signature =>
                OK (result
                      [text_item "Transaction submitted successfully!";
                       text_item ("Signature: " ++ signature);
                       text_item ("Solana Explorer URL: https://explorer.solana.com/tx/" ++
                                  signature)])
            | Throw e => OK (error_result e)
            end
      end
  end.
Proof.
  cbv zeta.
  unfold submitTransaction_handler, submitTransaction_body, submitTransaction_catch,
    try_catch, bind, lift, netcall, logToFile, ret.
  repeat (break_match; cbn); split; reflexivity.
Qed.

(** ** getPriorityFee and the log *)

(** X13. The event-stream [getPriorityFee] writes the Helius API key to the
    log: when [HELIUS_API_KEY] is set, each call appends the line
    [HELIUS_API_KEY: <key>], and nothing else, whatever the request gives.
    The stdio [getPriorityFee] never writes to the log. *)
Theorem getPriorityFee_sse_logs_api_key (w : World) (env : gmap string string)
    (args : Args) (s : Effects) :
  (forall key,
     env !! "HELIUS_API_KEY" = Some key ->
     key <> "" ->
     log (snd (getPriorityFee_sse_handler w env args s)) =
       (log s ++ ["HELIUS_API_KEY: " ++ key]%string)%list) /\
  log (snd (getPriorityFee_handler w env args s)) = log s.
Proof.
  split.
  - intros key Hkey Hne.
    unfold getPriorityFee_sse_handler, getPriorityFee_sse_body, catch_error.
    cbv zeta. rewrite (env_present env _ key Hkey Hne), Hkey.
    unfold try_catch, bind, fetch, netcall, lift, logToFile, ret.
    cbn. repeat (break_match; cbn); reflexivity.
  - unfold getPriorityFee_handler, getPriorityFee_body, catch_error.
    unfold try_catch, bind, fetch, netcall, lift, throw, ret.
    cbn. repeat (break_match; cbn); reflexivity.
Qed.

Lemma getPriorityFee_sse_logs_api_key_witness :
  helius_env !! "HELIUS_API_KEY" = Some "helius-key" /\
  "helius-key" <> "" /\
  log (snd (getPriorityFee_sse_handler (Mocks.world Mocks.empty_setup) helius_env
              [("serializedTransaction", JStr "AQID")] Mocks.no_effects)) =
    ["HELIUS_API_KEY: helius-key"].
Proof.
  assert (H1 : helius_env !! "HELIUS_API_KEY" = Some "helius-key") by reflexivity.
  assert (H2 : "helius-key" <> "") by discriminate.
  split; [exact H1 | split; [exact H2 | ]].
  exact (proj1 (getPriorityFee_sse_logs_api_key (Mocks.world Mocks.empty_setup) helius_env
                  [("serializedTransaction", JStr "AQID")] Mocks.no_effects)
               "helius-key" H1 H2).
Defined.

Lemma buildTransaction_keys_converted (w : World) (l : list JValue) :
  forall ks s s',
    mapM (buildTransaction_key w) l s = (OK ks, s') ->
    s' = s /\ Forall2 (converted_key w) l ks.
Proof.
  induction l as [ | key l IH]; intros ks s s' H; cbn [mapM] in H.
  - injection H as <- <-. split; [reflexivity | constructor].
  - unfold bind at 1 in H. unfold buildTransaction_key at 1 in H.
    rewrite lift_bind in H.
    destruct (PublicKey_new w (member key "pubkey")) as [pk | e] eqn:Hpk;
      [ | discriminate].
    unfold ret at 1 in H. unfold bind at 1 in H.
    destruct (mapM (buildTransaction_key w) l s) as [[ks' | e] s1] eqn:Hl;
      [ | discriminate].
    injection H as <- <-.
    destruct (IH ks' s s1 Hl) as [-> Hks].
    split; [reflexivity | ].
    constructor; [ | exact Hks]. now repeat split.
Qed.

Lemma buildTransaction_add_converted (w : World) (tx tx' : Transaction) (ix : JValue)
    (s s' : Effects) :
  buildTransaction_add w tx ix s = (OK tx', s') ->
  s' = s /\
  exists instruction, tx' = Transaction_add tx instruction /\
                      converted_instruction w ix instruction.
Proof.
  unfold buildTransaction_add. intros H.
  unfold bind at 1 in H.
  destruct (mapM (buildTransaction_key w) (elements (member ix "keys")) s)
    as [[ks | e] s1] eqn:Hk; [ | discriminate].
  destruct (buildTransaction_keys_converted w _ _ _ _ Hk) as [-> Hks].
  rewrite lift_bind in H.
  destruct (PublicKey_new w (member ix "programId")) as [pid | e] eqn:Hp;
    [ | discriminate].
  rewrite lift_bind in H.
  destruct (bs58_decode w (as_string (member ix "data"))) as [bytes | e] eqn:Hd;
    [ | discriminate].
  injection H as <- <-.
  split; [reflexivity | ].
  eexists. split; [reflexivity | ]. now repeat split.
Qed.

Lemma buildTransaction_forEach_converted (w : World) (ixs : list JValue) :
  forall tx tx' s s',
    forEach (buildTransaction_add w) tx ixs s = (OK tx', s') ->
    s' = s /\
    exists added,
      Forall2 (converted_instruction w) ixs added /\
      tx' = {| tx_instructions := (tx_instructions tx ++ added)%list;
               feePayer := feePayer tx; recentBlockhash := recentBlockhash tx;
               tx_signatures := tx_signatures tx |}.
Proof.
  induction ixs as [ | ix ixs IH]; intros tx tx' s s' H; cbn [forEach] in H.
  - injection H as <- <-. split; [reflexivity | ].
    exists []. split; [constructor | ]. destruct tx; cbn. now rewrite app_nil_r.
  - unfold bind at 1 in H.
    destruct (buildTransaction_add w tx ix s) as [[tx1 | e] s1] eqn:Ha; [ | discriminate].
    destruct (buildTransaction_add_converted w _ _ _ _ _ Ha) as [-> (i & -> & Hi)].
    destruct (IH _ _ _ _ H) as [-> (added & Hadded & ->)].
    split; [reflexivity | ].
    exists (i :: added). split; [now constructor | ].
    cbn. now rewrite <- app_assoc.
Qed.

Lemma error_is_not_serialized (e : JsError) (rest : list ContentItem) :
  content (error_result e) <> text_item "Serialized Transaction:" :: rest.
Proof. cbn. intros H. injection H as H _. discriminate H. Qed.

(** X14. When [buildTransaction] reports success, the transaction it signed
    and serialized holds exactly the instructions of the request, in their
    order, each with its program, its data decoded from base58 and its
    accounts in their order with the flags of the request; its fee payer is
    the key pair of [PAYER_PRIVATE_KEY]; its blockhash is the one of the
    request when that is not empty, and otherwise the latest one, fetched by
    the only call made. *)
Theorem buildTransaction_keeps_instructions (w : World) (env : gmap string string)
    (args : Args) (s s' : Effects) (r : Result) (rest : list ContentItem) :
  buildTransaction_handler w env args s = (OK r, s') ->
  content r = text_item "Serialized Transaction:" :: rest ->
  exists key secret payer instructions blockhash signed bytes,
    env !! "PAYER_PRIVATE_KEY" = Some key /\
    bs58_decode w key = OK secret /\
    Keypair_fromSecretKey w secret = OK payer /\
    Forall2 (converted_instruction w) (elements (arg args "instructions")) instructions /\
    (if truthy (arg args "recentBlockhash")
     then blockhash = as_string (arg args "recentBlockhash") /\ net s' = net s
     else rpc_getLatestBlockhash w (net s) = OK blockhash /\
          net s' = (net s ++ [GetLatestBlockhash])%list) /\
    Transaction_partialSign w
      {| tx_instructions := instructions; feePayer := Some (publicKey payer);
         recentBlockhash := Some blockhash; tx_signatures := [] |} payer = OK signed /\
    Transaction_serialize w false false signed = OK bytes /\
    rest = [text_item (Buffer_toBase64 w bytes);
            text_item (nl ++ "Transaction Details:");
            text_item (stringify_transaction w signed)].
Proof.
  intros H Hr.
  unfold buildTransaction_handler, try_catch in H.
  destruct (buildTransaction_body w env args s) as [[r0 | e] s0] eqn:Hb.
  2:{ unfold catch_log_error, bind, logToFile, ret in H. cbn in H.
      injection H as <- _. now apply error_is_not_serialized in Hr. }
  injection H as -> ->.
  unfold buildTransaction_body in Hb. cbv zeta in Hb.
  destruct (env !! "PAYER_PRIVATE_KEY") as [key | ] eqn:Hkey;
    [ | cbn [env_missing] in Hb; cbv [throw] in Hb; discriminate].
  cbn [env_missing from_option id] in Hb.
  destruct (key =? "") eqn:Hne; [cbv [throw] in Hb; discriminate | ].
  rewrite lift_bind in Hb.
  destruct (bs58_decode w key) as [secret | e] eqn:Hs; [ | discriminate].
  rewrite lift_bind in Hb.
  destruct (Keypair_fromSecretKey w secret) as [payer | e] eqn:Hp; [ | discriminate].
  unfold bind at 1 in Hb.
  destruct (forEach (buildTransaction_add w) Transaction_new
              (elements (arg args "instructions")) s) as [[tx | e] s1] eqn:Hf;
    [ | discriminate].
  destruct (buildTransaction_forEach_converted w _ _ _ _ _ Hf)
    as [-> (instructions & Hi & ->)].
  cbn [tx_instructions feePayer recentBlockhash tx_signatures Transaction_new app] in Hb.
  unfold set_feePayer, set_recentBlockhash in Hb. cbn in Hb.
  destruct (truthy (arg args "recentBlockhash")) eqn:Ht.
  - unfold bind, ret, lift in Hb.
    match type of Hb with context [Transaction_partialSign w ?t payer] =>
      destruct (Transaction_partialSign w t payer) as [signed | e] eqn:Hsig;
        [ | discriminate] end.
    destruct (Transaction_serialize w false false signed) as [bytes | e] eqn:Hser;
      [ | discriminate].
    injection Hb as <- <-. cbn in Hr. injection Hr as <-.
    now eexists key, secret, payer, instructions, _, signed, bytes.
  - unfold bind, ret, lift, netcall in Hb. cbn in Hb.
    destruct (rpc_getLatestBlockhash w (net s)) as [blockhash | e] eqn:Hh;
      [ | discriminate].
    match type of Hb with context [Transaction_partialSign w ?t payer] =>
      destruct (Transaction_partialSign w t payer) as [signed | e] eqn:Hsig;
        [ | discriminate] end.
    destruct (Transaction_serialize w false false signed) as [bytes | e] eqn:Hser;
      [ | discriminate].
    injection Hb as <- <-. cbn in Hr. injection Hr as <-.
    now eexists key, secret, payer, instructions, blockhash, signed, bytes.
Qed.

Lemma buildTransaction_keeps_instructions_witness :
  let w := Mocks.world Mocks.empty_setup in
  exists r s' rest,
    buildTransaction_handler w payer_env sample_build_args Mocks.no_effects = (OK r, s') /\
    content r = text_item "Serialized Transaction:" :: rest /\
    exists key secret payer instructions blockhash signed bytes,
      payer_env !! "PAYER_PRIVATE_KEY" = Some key /\
      bs58_decode w key = OK secret /\
      Keypair_fromSecretKey w secret = OK payer /\
      Forall2 (converted_instruction w) (elements (arg sample_build_args "instructions"))
        instructions /\
      (if truthy (arg sample_build_args "recentBlockhash")
       then blockhash = as_string (arg sample_build_args "recentBlockhash") /\
            net s' = net Mocks.no_effects
       else rpc_getLatestBlockhash w (net Mocks.no_effects) = OK blockhash /\
            net s' = (net Mocks.no_effects ++ [GetLatestBlockhash])%list) /\
      Transaction_partialSign w
        {| tx_instructions := instructions; feePayer := Some (publicKey payer);
           recentBlockhash := Some blockhash; tx_signatures := [] |} payer = OK signed /\
      Transaction_serialize w false false signed = OK bytes /\
      rest = [text_item (Buffer_toBase64 w bytes);
              text_item (nl ++ "Transaction Details:");
              text_item (stringify_transaction w signed)].
Proof.
  intros w.
  eexists _, _, _.
  split; [vm_compute; reflexivity | ].
  split; [reflexivity | ].
  eapply (buildTransaction_keeps_instructions w payer_env sample_build_args
            Mocks.no_effects);
    [vm_compute; reflexivity | reflexivity].
Defined.

(** ** checkProgramDeployment *)

Lemma bind_OK_inv {A B} (c : M A) (k : A -> M B) (s s' : Effects) (b : B) :
  bind c k s = (OK b, s') -> exists a s1, c s = (OK a, s1) /\ k a s1 = (OK b, s').
Proof.
  unfold bind. destruct (c s) as [[a | e] s1]; [eauto | discriminate].
Qed.

Lemma deployment_idl_run (w : World) (p : PublicKey) (s : Effects) :
  deployment_idl w p s =
  (OK match anchor_fetchIdl w (net s) p with
      | OK idl => (idl, "IDL: Found")
      | Throw _ => (None, "IDL: Not found or not accessible")
      end,
   {| log := log s; net := (net s ++ [FetchIdl p])%list |}).
Proof.
  unfold deployment_idl, try_catch, Program_fetchIdl. rewrite bind_netcall.
  now destruct (anchor_fetchIdl w (net s) p).
Qed.

Lemma deployment_security_run (w : World) (programId : string) (s : Effects) :
  deployment_security w programId s =
  (OK match http_fetch w (net s) (osec_url programId) "GET" None with
      | Throw _ => "Security info: Error checking verify.osec.io"
      | OK response =>
          match resp_json response with
          | Throw _ => "Security info: Error checking verify.osec.io"
          | OK answer =>
              match prop answer "is_verified" with
              | Throw _ => "Security info: Error checking verify.osec.io"
              | OK is_verified =>
                  if truthy is_verified
                  then "Security info: " ++ JSON_stringify w true answer
                  else "Security info: Not found on verify.osec.io"
              end
          end
      end,
   {| log := log s; net := (net s ++ [Fetch (osec_url programId) "GET" None])%list |}).
Proof.
  unfold deployment_security, try_catch, fetch, osec_url. rewrite bind_netcall.
  destruct (http_fetch w (net s) _ "GET" None) as [response | e]; [ | reflexivity].
  rewrite lift_bind.
  destruct (resp_json response) as [answer | e]; [ | reflexivity].
  rewrite lift_bind.
  destruct (prop answer "is_verified") as [is_verified | e]; [ | reflexivity].
  now destruct (truthy is_verified).
Qed.

(** X15. When [checkProgramDeployment] returns its report, it has made
    exactly six calls, in this order, and each answer named below is the
    answer of that call: the program's account, which exists; its IDL; the
    account at the address in bytes 4 to 36 of the program's data, which
    exists; the account at the address in bytes 13 to 45 of the data of that
    account, the upgrade authority; verify.osec.io; and the last ten
    signatures of the program. Nothing is logged. The report has the lines
    below; in particular it says [IDL: Found] whenever fetching the IDL did
    not fail, also when the answer was that the program has none, and the
    lines on sensitive arguments are then left out; the line on
    verify.osec.io says [Error checking] when the request, the reading of
    its answer or of [is_verified] fails, the answer itself when
    [is_verified] is truthy, and [Not found] otherwise. *)
Theorem checkProgramDeployment_report (w : World) (args : Args) (s s' : Effects)
    (r : Result) (body : string) :
  checkProgramDeployment_handler w args s = (OK r, s') ->
  content r = [text_item "Program Deployment Check Report:"; text_item body] ->
  exists program programInfo dataAddress programData authority authorityInfo onCurve
         (idl : option Idl) idl_line signatures latest,
    let programId := arg_str args "programId" in
    let call1 := (net s ++ [GetAccountInfo program])%list in
    let call2 := (call1 ++ [FetchIdl program])%list in
    let call3 := (call2 ++ [GetAccountInfo dataAddress])%list in
    let call4 := (call3 ++ [GetAccountInfo authority])%list in
    let call5 := (call4 ++ [Fetch (osec_url programId) "GET" None])%list in
    let call6 := (call5 ++ [GetSignaturesForAddress program 10])%list in
    let security :=
      match http_fetch w call4 (osec_url programId) "GET" None with
      | Throw _ => "Security info: Error checking verify.osec.io"
      | OK response =>
          match resp_json response with
          | Throw _ => "Security info: Error checking verify.osec.io"
          | OK answer =>
              match prop answer "is_verified" with
              | Throw _ => "Security info: Error checking verify.osec.io"
              | OK is_verified =>
                  if truthy is_verified
                  then "Security info: " ++ JSON_stringify w true answer
                  else "Security info: Not found on verify.osec.io"
              end
          end
      end in
    PublicKey_new w (JStr programId) = OK program /\
    rpc_getAccountInfo w (net s) program = OK (Some programInfo) /\
    match anchor_fetchIdl w call1 program with
    | OK found => idl = found /\ idl_line = "IDL: Found"
    | Throw _ => idl = None /\ idl_line = "IDL: Not found or not accessible"
    end /\
    PublicKey_fromBuffer w (slice 4 36 (data programInfo)) = OK dataAddress /\
    rpc_getAccountInfo w call2 dataAddress = OK (Some programData) /\
    PublicKey_fromBuffer w (slice 13 45 (data programData)) = OK authority /\
    rpc_getAccountInfo w call3 authority = OK authorityInfo /\
    isOnCurve w authority = OK onCurve /\
    rpc_getSignaturesForAddress w call5 program 10 = OK signatures /\
    deployment_latest w signatures = OK latest /\
    s' = {| log := log s; net := call6 |} /\
    body = join nl (["Program found: " ++ programId;
                     idl_line;
                     "upgradeAuthorityPubkey: " ++ toBase58 w authority;
                     "Multisig: " ++ (if onCurve then "No" else "Yes");
                     security]%string ++
                    deployment_sensitive w idl ++
                    ["Program size: " ++
                       Number_toString w (Z.of_nat (length (data programInfo))) ++ " bytes";
                     "Latest activity: " ++ latest]%string)%list.
Proof.
  intros H Hr.
  unfold checkProgramDeployment_handler, try_catch in H.
  destruct (checkProgramDeployment_body w args s) as [[r0 | e] s0] eqn:Hb.
  2:{ unfold catch_log_error, bind, logToFile, ret in H. cbn in H.
      injection H as <- _. discriminate Hr. }
  injection H as -> ->.
  unfold checkProgramDeployment_body in Hb. cbv zeta in Hb.
  rewrite lift_bind in Hb.
  destruct (PublicKey_new w (JStr (arg_str args "programId"))) as [program | e] eqn:Hp;
    [ | discriminate].
  unfold connection_getAccountInfo in Hb. rewrite bind_netcall in Hb.
  destruct (rpc_getAccountInfo w (net s) program) as [[programInfo | ] | e] eqn:Hi;
    [ | injection Hb as <- _; discriminate Hr | discriminate].
  unfold bind at 1 in Hb. rewrite deployment_idl_run in Hb.
  cbn [fst snd log net] in Hb.
  rewrite lift_bind in Hb.
  destruct (PublicKey_fromBuffer w (slice 4 36 (data programInfo)))
    as [dataAddress | e] eqn:Hd; [ | discriminate].
  rewrite bind_netcall in Hb. cbn [log net] in Hb.
  match type of Hb with context [rpc_getAccountInfo w ?h dataAddress] =>
    destruct (rpc_getAccountInfo w h dataAddress) as [[programData | ] | e] eqn:Hpd;
      [ | injection Hb as <- _; discriminate Hr | discriminate] end.
  rewrite lift_bind in Hb.
  destruct (PublicKey_fromBuffer w (slice 13 45 (data programData)))
    as [authority | e] eqn:Ha; [ | discriminate].
  rewrite bind_netcall in Hb. cbn [log net] in Hb.
  match type of Hb with context [rpc_getAccountInfo w ?h authority] =>
    destruct (rpc_getAccountInfo w h authority) as [authorityInfo | e] eqn:Hai;
      [ | discriminate] end.
  apply bind_OK_inv in Hb as (done & s1 & Hstep & Hb).
  assert (s1 = {| log := log s;
                  net := (((net s ++ [GetAccountInfo program]) ++ [FetchIdl program]) ++
                          [GetAccountInfo dataAddress]) ++ [GetAccountInfo authority] |})%list
    as ->.
  { destruct authorityInfo as [info | ]; [ | now injection Hstep as _ <-].
    rewrite lift_bind in Hstep.
    destruct (PublicKey_new w (JStr BPF_LOADER_UPGRADEABLE)); [ | discriminate].
    now injection Hstep as _ <-. }
  rewrite lift_bind in Hb.
  destruct (isOnCurve w authority) as [onCurve | e] eqn:Hc; [ | discriminate].
  unfold bind at 1 in Hb.
  rewrite deployment_security_run in Hb. cbn [log net] in Hb.
  rewrite bind_netcall in Hb. cbn [log net] in Hb.
  match type of Hb with context [rpc_getSignaturesForAddress w ?h program 10] =>
    destruct (rpc_getSignaturesForAddress w h program 10) as [signatures | e] eqn:Hsig;
      [ | discriminate] end.
  rewrite lift_bind in Hb.
  destruct (deployment_latest w signatures) as [latest | e] eqn:Hl; [ | discriminate].
  unfold ret in Hb. injection Hb as <- <-.
  cbn [content result] in Hr. injection Hr as <-.
  exists program, programInfo, dataAddress, programData, authority, authorityInfo, onCurve.
  exists (fst match anchor_fetchIdl w (net s ++ [GetAccountInfo program])%list program with
              | OK idl => (idl, "IDL: Found")
              | Throw _ => (None, "IDL: Not found or not accessible")
              end).
  exists (snd match anchor_fetchIdl w (net s ++ [GetAccountInfo program])%list program with
              | OK idl => (idl, "IDL: Found")
              | Throw _ => (None, "IDL: Not found or not accessible")
              end).
  exists signatures, latest. cbv zeta.
  repeat split; try assumption.
  - now destruct (anchor_fetchIdl w (net s ++ [GetAccountInfo program])%list program).
  - unfold push. destruct onCurve; cbn [negb]; now rewrite <- ?app_assoc.
Qed.

Lemma checkProgramDeployment_report_witness :
  let w := checkup_world in
  let args := [("programId", JStr "P")] in
  exists r s' body,
    checkProgramDeployment_handler w args Mocks.no_effects = (OK r, s') /\
    content r = [text_item "Program Deployment Check Report:"; text_item body] /\
    exists program dataAddress authority,
      net s' = [GetAccountInfo program; FetchIdl program;
                GetAccountInfo dataAddress; GetAccountInfo authority;
                Fetch (osec_url "P") "GET" None;
                GetSignaturesForAddress program 10].
Proof.
  intros w args. eexists _, _, _.
  split; [vm_compute; reflexivity | ].
  split; [reflexivity | ].
  destruct (checkProgramDeployment_report w args Mocks.no_effects _ _ _ eq_refl eq_refl)
    as (program & programInfo & dataAddress & programData & authority & authorityInfo &
        onCurve & idl & idl_line & signatures & latest & H).
  cbv zeta in H. destruct H as (_ & _ & _ & _ & _ & _ & _ & _ & _ & _ & Hs & _).
  exists program, dataAddress, authority.
  apply (f_equal net) in Hs. exact Hs.
Defined.

Lemma prefix_app (a rest : string) : String.prefix a (a ++ rest) = true.
Proof.
  induction a as [ | c a IH].
  - now destruct rest.
  - change (String c a ++ rest) with (String c (a ++ rest)).
    cbn [String.prefix]. destruct (ascii_dec c c); [exact IH | congruence].
Qed.

Lemma includes_prefix (needle hay : string) :
  String.prefix needle hay = true -> includes needle hay = true.
Proof. intros H. destruct hay; cbn [includes]; now rewrite H. Qed.

Lemma contains_includes (sub s : string) :
  contains sub s -> includes sub s = true.
Proof.
  intros (before & after & ->).
  induction before as [ | c before IH].
  - change ("" ++ sub ++ after) with (sub ++ after).
    apply includes_prefix, prefix_app.
  - change (String c before ++ sub ++ after)
      with (String c (before ++ sub ++ after)).
    cbn [includes]. rewrite IH. apply orb_true_r.
Qed.

Lemma is_sensitive_name (w : World) (arg : IdlField) :
  is_sensitive w arg = true <-> sensitive_name w (field_name arg).
Proof.
  unfold is_sensitive, sensitive_name, sensitive_keywords.
  rewrite existsb_exists. split; intros (keyword & Hin & H); exists keyword.
  - split; [exact Hin | now apply includes_contains].
  - split; [exact Hin | now apply contains_includes].
Qed.

Lemma sensitive_fields_In (w : World) (idl : Idl) (arg : IdlField) :
  In arg (flat_map (fun ix => List.filter (is_sensitive w) (ix_args ix))
            (idl_instructions idl))
  <-> declared_argument idl arg /\ sensitive_name w (field_name arg).
Proof.
  rewrite in_flat_map. unfold declared_argument. split.
  - intros (ix & Hix & Hf). apply filter_In in Hf as [Hf Hs].
    split; [now exists ix | now apply is_sensitive_name].
  - intros ((ix & Hix & Hf) & Hs). exists ix. split; [exact Hix | ].
    apply filter_In. split; [exact Hf | now apply is_sensitive_name].
Qed.

(** X16. The arguments [checkProgramDeployment] reports as potentially
    sensitive are exactly the arguments of the IDL's instructions whose name,
    put in lower case by [toLowerCase], contains [key], [secret], [password]
    or [private]: each of them gets its line under the warning, every line is
    the warning, the all-clear or the line of such an argument, and the
    all-clear is written exactly when there is none. *)
Theorem checkProgramDeployment_sensitive_arguments (w : World) (idl : Idl) :
  let lines := deployment_sensitive w (Some idl) in
  let warning := "Warning: Potentially sensitive data in instruction arguments:" in
  let all_clear := "No obvious sensitive data found in instruction arguments" in
  (forall arg, declared_argument idl arg -> sensitive_name w (field_name arg) ->
               hd "" lines = warning /\ In (sensitive_line w arg) (tl lines)) /\
  (forall line, In line lines ->
                line = warning \/ line = all_clear \/
                exists arg, declared_argument idl arg /\
                            sensitive_name w (field_name arg) /\
                            line = sensitive_line w arg) /\
  (lines = [all_clear] <->
   forall arg, declared_argument idl arg -> ~ sensitive_name w (field_name arg)).
Proof.
  cbv zeta. unfold deployment_sensitive.
  pose proof (sensitive_fields_In w idl) as Hin.
  destruct (flat_map (fun ix => List.filter (is_sensitive w) (ix_args ix))
              (idl_instructions idl)) as [ | first others] eqn:Hfields.
  - cbn. split; [ | split].
    + intros arg Hd Hs. exfalso. exact (proj2 (Hin arg) (conj Hd Hs)).
    + intros line [<- | []]. right; now left.
    + split; [ | reflexivity].
      intros _ arg Hd Hs. exact (proj2 (Hin arg) (conj Hd Hs)).
  - cbn [length Nat.ltb Nat.leb hd tl]. split; [ | split].
    + intros arg Hd Hs. split; [reflexivity | ].
      apply (in_map (sensitive_line w)). now apply Hin.
    + intros line [<- | Hl]; [now left | ].
      right; right. apply in_map_iff in Hl as (arg & <- & Harg).
      apply Hin in Harg as [Hd Hs]. now exists arg.
    + split; [discriminate | ].
      intros Hnone. exfalso.
      destruct (proj1 (Hin first) (or_introl eq_refl)) as [Hd Hs].
      exact (Hnone first Hd Hs).
Qed.

Lemma checkProgramDeployment_sensitive_arguments_witness :
  let w := Mocks.world Mocks.empty_setup in
  let owner_key := {| field_name := "ownerKey"; field_type := JStr "publicKey" |} in
  let amount := {| field_name := "amount"; field_type := JStr "u64" |} in
  let idl := {| idl_json := JNull;
                idl_instructions :=
                  [{| ix_name := "transfer"; ix_accounts := [];
                      ix_args := [amount; owner_key] |}];
                idl_accounts := None |} in
  deployment_sensitive w (Some idl) =
    ["Warning: Potentially sensitive data in instruction arguments:";
     "  - ownerKey (publicKey)"] /\
  In (sensitive_line w owner_key) (tl (deployment_sensitive w (Some idl))).
Proof.
  intros w owner_key amount idl.
  split; [reflexivity | ].
  apply (proj1 (checkProgramDeployment_sensitive_arguments w idl) owner_key).
  - exists {| ix_name := "transfer"; ix_accounts := []; ix_args := [amount; owner_key] |}.
    split; [now left | right; now left].
  - exists "key". split; [now left | ]. now exists "owner", "".
Defined.
